(** * Orchestration pipeline of the reasoning-agents framework

    A shallow embedding of [agents/manager/manager_agent.py],
    [core/base_agent.py] and [agents/workers/worker_agent_1.py]: the
    classifier, planner, dispatcher and synthesizer of the manager, the
    task handlers, the HTTP task endpoints and the worker's reasoning-loop
    wrapper, with the properties of the specification proved about them.

    Conventions of the model:
    - A Python value is decoded JSON data ([pyval]); plans, worker results
      and HTTP bodies are dicts, as in the code.  A [str] is a sequence of
      8-bit code units ([string]); [strip], [upper] and the decoder act on
      it as CPython does on ASCII text.
    - A coroutine is a state-passing computation that may raise
      ([M S A]); [try_except] is [try: ... except Exception].  The state
      records what the process has done: its invocations of the language
      model, its round trips to workers, its audit events and log lines.
    - The collaborators are fields of the object that owns the method:
      the language model and the worker endpoints answer by position in
      the history of the process, so a reply may depend on everything
      that happened before; the order in which gathered calls complete is
      a field too.  Every theorem holds for all of them.
    - The interpreter's [repr] of a value that is not a string is a field
      as well; building a client object and writing a log record are
      taken to succeed. *)

From Stdlib Require Import ZArith String Ascii List Lia Bool.
From stdpp Require Import base tactics option list strings gmap pretty.

Open Scope string_scope.
Open Scope list_scope.

(* ================================================================== *)
(** * Part I: definitions *)
(* ================================================================== *)

(** ** Text built-ins *)

Definition chars (s : string) : list ascii := list_ascii_of_string s.
Definition text (l : list ascii) : string := string_of_list_ascii l.

Definition dq : string := String "034"%char "".
Definition nl : string := String "010"%char "".
Definition quoted (s : string) : string := dq +:+ s +:+ dq.

(** [str.isspace] on code points below 128: TAB..CR and FS..SPACE. *)
Definition py_isspace (c : ascii) : bool :=
  let n := nat_of_ascii c in
  ((9 <=? n)%nat && (n <=? 13)%nat) || ((28 <=? n)%nat && (n <=? 32)%nat).

Fixpoint lstrip_chars (l : list ascii) : list ascii :=
  match l with
  | c :: l' => if py_isspace c then lstrip_chars l' else l
  | [] => []
  end.

Definition strip_chars (l : list ascii) : list ascii :=
  rev (lstrip_chars (rev (lstrip_chars l))).

(** [s.strip()] *)
Definition strip (s : string) : string := text (strip_chars (chars s)).

Definition upper_char (c : ascii) : ascii :=
  let n := nat_of_ascii c in
  if ((97 <=? n)%nat && (n <=? 122)%nat) then ascii_of_nat (n - 32) else c.

(** [s.upper()] *)
Definition upper (s : string) : string := text (map upper_char (chars s)).

Fixpoint starts_with (p l : list ascii) : bool :=
  match p, l with
  | [], _ => true
  | a :: p', b :: l' => Ascii.eqb a b && starts_with p' l'
  | _ :: _, [] => false
  end.

Fixpoint occurs (p l : list ascii) : bool :=
  starts_with p l || match l with [] => false | _ :: l' => occurs p l' end.

(** [needle in hay] on two strings *)
Definition str_in (needle hay : string) : bool := occurs (chars needle) (chars hay).

(** The suffix of [l] that starts at the first occurrence of [c]. *)
Fixpoint skip_to (c : ascii) (l : list ascii) : option (list ascii) :=
  match l with
  | [] => None
  | a :: l' => if Ascii.eqb a c then Some l else skip_to c l'
  end.

(** The prefix of [l] that ends at the last occurrence of [c]. *)
Fixpoint up_to_last (c : ascii) (l : list ascii) : option (list ascii) :=
  match l with
  | [] => None
  | a :: l' =>
      match up_to_last c l' with
      | Some p => Some (a :: p)
      | None => if Ascii.eqb a c then Some [a] else None
      end
  end.

(** [re.search(r'\{.*\}', s, re.DOTALL)] followed by [match.group()]:
    the leftmost match starts at the first opening brace that has a
    closing brace somewhere after it, and the greedy [.*] (which, under
    DOTALL, crosses line ends) runs to the last closing brace. *)
Definition search_braces (s : string) : option string :=
  match skip_to "{"%char (chars s) with
  | Some (b :: rest) =>
      match up_to_last "}"%char rest with
      | Some body => Some (text (b :: body))
      | None => None
      end
  | _ => None
  end.

(** [s[:n]] on a string *)
Definition str_take (n : nat) (s : string) : string := text (take n (chars s)).

(** ** Python values *)

(** A float as read from a decimal literal, before rounding to binary64. *)
Inductive pyfloat : Type :=
| FNan
| FInf (negative : bool)
| FDec (negative : bool) (mantissa : N) (exp10 : Z).

#[warnings="-register-all"]
Inductive pyval : Type :=
| PyNone
| PyBool (b : bool)
| PyInt (z : Z)
| PyFloat (f : pyfloat)
| PyStr (s : string)
| PyList (items : list pyval)
| PyDict (members : list (string * pyval)).

Abbreviation dict := (list (string * pyval)).

(** A decimal rounds to a non-zero binary64 exactly when it exceeds half
    of the least subnormal, 2^-1075 (the tie rounds to even, that is to
    zero). *)
Definition float_nonzero (f : pyfloat) : bool :=
  match f with
  | FNan | FInf _ => true
  | FDec _ m e =>
      negb (m =? 0)%N &&
      ((0 <=? e)%Z || (10 ^ (- e) <? Z.of_N m * 2 ^ 1075)%Z)
  end.

(** Truth value testing *)
Definition truthy (v : pyval) : bool :=
  match v with
  | PyNone => false
  | PyBool b => b
  | PyInt z => negb (z =? 0)%Z
  | PyFloat f => float_nonzero f
  | PyStr s => negb (String.eqb s "")
  | PyList l => match l with [] => false | _ => true end
  | PyDict d => match d with [] => false | _ => true end
  end.

Definition type_name (v : pyval) : string :=
  match v with
  | PyNone => "NoneType"
  | PyBool _ => "bool"
  | PyInt _ => "int"
  | PyFloat _ => "float"
  | PyStr _ => "str"
  | PyList _ => "list"
  | PyDict _ => "dict"
  end.

Definition is_dict (v : pyval) : bool :=
  match v with PyDict _ => true | _ => false end.

Fixpoint dict_lookup (k : string) (d : dict) : option pyval :=
  match d with
  | [] => None
  | (k', v) :: d' => if String.eqb k' k then Some v else dict_lookup k d'
  end.

(** [d[k] = v]: an existing key keeps its position. *)
Fixpoint dict_set (k : string) (v : pyval) (d : dict) : dict :=
  match d with
  | [] => [(k, v)]
  | (k', v') :: d' =>
      if String.eqb k' k then (k, v) :: d' else (k', v') :: dict_set k v d'
  end.

(** [d.get(k, default)] on a dict *)
Definition dict_get (d : dict) (k : string) (default : pyval) : pyval :=
  match dict_lookup k d with Some v => v | None => default end.

(** The members of a dict (none for any other value) *)
Definition members_of (v : pyval) : dict :=
  match v with PyDict d => d | _ => [] end.

(** ** Exceptions and results *)

Record exn : Type := Exc { exn_class : string; exn_str : string }.

Inductive result (A : Type) : Type :=
| Ok (a : A)
| Raise (e : exn).
Arguments Ok {A} a.
Arguments Raise {A} e.

Definition is_ok {A} (r : result A) : bool :=
  match r with Ok _ => true | Raise _ => false end.

(** [isinstance(e, asyncio.TimeoutError)] *)
Definition is_timeout (e : exn) : bool := String.eqb (exn_class e) "TimeoutError".

Definition attribute_error (v : pyval) (attr : string) : exn :=
  Exc "AttributeError"
      ("'" +:+ type_name v +:+ "' object has no attribute '" +:+ attr +:+ "'").

Definition not_subscriptable (v : pyval) : exn :=
  Exc "TypeError" ("'" +:+ type_name v +:+ "' object is not subscriptable").

(** [v.get(k, default)]: only a dict has the method. *)
Definition py_get (v : pyval) (k : string) (default : pyval) : result pyval :=
  match v with
  | PyDict d => Ok (dict_get d k default)
  | _ => Raise (attribute_error v "get")
  end.

(** [v[0]] *)
Definition py_item0 (v : pyval) : result pyval :=
  match v with
  | PyList (x :: _) => Ok x
  | PyList [] => Raise (Exc "IndexError" "list index out of range")
  | PyStr (String c _) => Ok (PyStr (String c ""))
  | PyStr EmptyString => Raise (Exc "IndexError" "string index out of range")
  | PyDict _ => Raise (Exc "KeyError" "0")
  | _ => Raise (not_subscriptable v)
  end.

(** [v[:n]] *)
Definition py_slice_to (n : nat) (v : pyval) : result pyval :=
  match v with
  | PyStr s => Ok (PyStr (str_take n s))
  | PyList l => Ok (PyList (take n l))
  | PyDict _ => Raise (Exc "TypeError" "unhashable type: 'slice'")
  | _ => Raise (not_subscriptable v)
  end.

(** [iter(v)], run to the end *)
Definition py_iter (v : pyval) : result (list pyval) :=
  match v with
  | PyList l => Ok l
  | PyStr s => Ok (map (fun c => PyStr (String c "")) (chars s))
  | PyDict d => Ok (map (fun kv => PyStr (fst kv)) d)
  | _ => Raise (Exc "TypeError" ("'" +:+ type_name v +:+ "' object is not iterable"))
  end.

(** [str(v)].  The printed form of a value that is not a string is the
    interpreter's [repr], taken as given. *)
Definition py_str (repr : pyval -> string) (v : pyval) : string :=
  match v with
  | PyStr s => s
  | _ => repr v
  end.

(** ** The JSON decoder ([json.loads])

    A recursive-descent reading of the grammar the standard decoder
    accepts: objects, arrays, strings with their escapes, numbers, the
    three keywords and the constants NaN, Infinity and -Infinity.  A
    repeated key keeps its first position and its last value.  The
    decoder's error carries no position here, and the interpreter's
    resource limits (recursion depth, digits of an integer) are not
    modelled. *)

Definition json_ws (c : ascii) : bool :=
  let n := nat_of_ascii c in
  (n =? 32)%nat || (n =? 9)%nat || (n =? 10)%nat || (n =? 13)%nat.

Fixpoint skip_ws (l : list ascii) : list ascii :=
  match l with
  | c :: l' => if json_ws c then skip_ws l' else l
  | [] => []
  end.

Definition is_digit (c : ascii) : bool :=
  let n := nat_of_ascii c in (48 <=? n)%nat && (n <=? 57)%nat.

Definition digit_val (c : ascii) : N := N.of_nat (nat_of_ascii c - 48).

Definition hex_val (c : ascii) : option N :=
  let n := nat_of_ascii c in
  if (48 <=? n)%nat && (n <=? 57)%nat then Some (N.of_nat (n - 48))
  else if (97 <=? n)%nat && (n <=? 102)%nat then Some (N.of_nat (n - 87))
  else if (65 <=? n)%nat && (n <=? 70)%nat then Some (N.of_nat (n - 55))
  else None.

Fixpoint span_digits (l : list ascii) : list ascii * list ascii :=
  match l with
  | c :: l' =>
      if is_digit c then let (ds, r) := span_digits l' in (c :: ds, r)
      else ([], l)
  | [] => ([], [])
  end.

Definition digits_to_N (ds : list ascii) : N :=
  fold_left (fun acc d => (acc * 10 + digit_val d)%N) ds 0%N.

Definition is_char (c : ascii) (n : nat) : bool := (nat_of_ascii c =? n)%nat.

(** The integer part [0|[1-9][0-9]*] *)
Definition scan_int_part (l : list ascii) : option (list ascii * list ascii) :=
  match l with
  | c :: r =>
      if is_char c 48 then Some ([c], r)
      else if is_digit c then let (ds, r') := span_digits r in Some (c :: ds, r')
      else None
  | [] => None
  end.

(** The optional fraction [\.[0-9]+] *)
Definition scan_frac (l : list ascii) : option (list ascii) * list ascii :=
  match l with
  | c :: r =>
      if is_char c 46 then
        match span_digits r with
        | ([], _) => (None, l)
        | (fs, r') => (Some fs, r')
        end
      else (None, l)
  | [] => (None, l)
  end.

(** The optional exponent [[eE][-+]?[0-9]+] *)
Definition scan_exp (l : list ascii) : option Z * list ascii :=
  match l with
  | c :: r =>
      if is_char c 101 || is_char c 69 then
        let '(neg, r1) :=
          match r with
          | s :: r0 =>
              if is_char s 45 then (true, r0)
              else if is_char s 43 then (false, r0) else (false, r)
          | [] => (false, r)
          end in
        match span_digits r1 with
        | ([], _) => (None, l)
        | (es, r2) =>
            let e := Z.of_N (digits_to_N es) in
            (Some (if neg : bool then (- e)%Z else e), r2)
        end
      else (None, l)
  | [] => (None, l)
  end.

(** A number literal: an [int] when it has neither fraction nor
    exponent, a [float] otherwise. *)
Definition scan_number (l : list ascii) : option (pyval * list ascii) :=
  let '(neg, l1) :=
    match l with
    | c :: r => if is_char c 45 then (true, r) else (false, l)
    | [] => (false, l)
    end in
  match scan_int_part l1 with
  | None => None
  | Some (ds, r1) =>
      let '(frac, r2) := scan_frac r1 in
      let '(ex, r3) := scan_exp r2 in
      match frac, ex with
      | None, None =>
          let n := Z.of_N (digits_to_N ds) in
          Some (PyInt (if neg : bool then (- n)%Z else n), r3)
      | _, _ =>
          let fs := match frac with Some fs => fs | None => [] end in
          let e := match ex with Some e => e | None => 0%Z end in
          Some (PyFloat (FDec neg (digits_to_N (ds ++ fs)%list)
                              (e - Z.of_nat (length fs))), r3)
      end
  end.

Definition byte (n : N) : ascii := ascii_of_N n.

(** UTF-8 code units of a code point (a lone surrogate takes three). *)
Definition utf8 (cp : N) : list ascii :=
  if (cp <? 128)%N then [byte cp]
  else if (cp <? 2048)%N then
    [byte (192 + cp / 64); byte (128 + cp mod 64)]
  else if (cp <? 65536)%N then
    [byte (224 + cp / 4096); byte (128 + (cp / 64) mod 64); byte (128 + cp mod 64)]
  else
    [byte (240 + cp / 262144); byte (128 + (cp / 4096) mod 64);
     byte (128 + (cp / 64) mod 64); byte (128 + cp mod 64)].

Definition hex4 (a b c d : ascii) : option N :=
  match hex_val a, hex_val b, hex_val c, hex_val d with
  | Some x, Some y, Some z, Some w => Some (((x * 16 + y) * 16 + z) * 16 + w)%N
  | _, _, _, _ => None
  end.

Definition is_high_surrogate (u : N) : bool := (55296 <=? u)%N && (u <=? 56319)%N.
Definition is_low_surrogate (u : N) : bool := (56320 <=? u)%N && (u <=? 57343)%N.

Definition simple_escape (c : ascii) : option ascii :=
  let n := nat_of_ascii c in
  if (n =? 34)%nat || (n =? 92)%nat || (n =? 47)%nat then Some c
  else if (n =? 98)%nat then Some (ascii_of_nat 8)
  else if (n =? 102)%nat then Some (ascii_of_nat 12)
  else if (n =? 110)%nat then Some (ascii_of_nat 10)
  else if (n =? 114)%nat then Some (ascii_of_nat 13)
  else if (n =? 116)%nat then Some (ascii_of_nat 9)
  else None.

Definition flush (pending : option N) : list ascii :=
  match pending with Some hi => utf8 hi | None => [] end.

(** The body of a string, after its opening quote.  [pending] holds a
    high surrogate read from an escape, waiting for its low half. *)
Fixpoint scan_string (l : list ascii) (pending : option N)
  : option (list ascii * list ascii) :=
  match l with
  | [] => None
  | c :: r =>
      if is_char c 34 then Some (flush pending, r)
      else if is_char c 92 then
        match r with
        | e :: r1 =>
            if is_char e 117 then
              match r1 with
              | a :: b :: c' :: d :: r2 =>
                  match hex4 a b c' d with
                  | None => None
                  | Some u =>
                      match pending with
                      | Some hi =>
                          if is_low_surrogate u then
                            let cp := (65536 + (hi - 55296) * 1024 + (u - 56320))%N in
                            match scan_string r2 None with
                            | Some (s, rest) => Some ((utf8 cp ++ s)%list, rest)
                            | None => None
                            end
                          else
                            match scan_string r2 (if is_high_surrogate u then Some u else None) with
                            | Some (s, rest) =>
                                Some ((utf8 hi ++ (if is_high_surrogate u then [] else utf8 u) ++ s)%list, rest)
                            | None => None
                            end
                      | None =>
                          match scan_string r2 (if is_high_surrogate u then Some u else None) with
                          | Some (s, rest) =>
                              Some (((if is_high_surrogate u then [] else utf8 u) ++ s)%list, rest)
                          | None => None
                          end
                      end
                  end
              | _ => None
              end
            else
              match simple_escape e with
              | None => None
              | Some x =>
                  match scan_string r1 None with
                  | Some (s, rest) => Some ((flush pending ++ x :: s)%list, rest)
                  | None => None
                  end
              end
        | [] => None
        end
      else if (nat_of_ascii c <? 32)%nat then None
      else
        match scan_string r None with
        | Some (s, rest) => Some ((flush pending ++ c :: s)%list, rest)
        | None => None
        end
  end.

Definition keyword (w : string) (l : list ascii) : option (list ascii) :=
  if starts_with (chars w) l then Some (drop (String.length w) l) else None.

Definition scan_constant (l : list ascii) : option (pyval * list ascii) :=
  match keyword "null" l, keyword "true" l, keyword "false" l with
  | Some r, _, _ => Some (PyNone, r)
  | _, Some r, _ => Some (PyBool true, r)
  | _, _, Some r => Some (PyBool false, r)
  | _, _, _ =>
      match scan_number l with
      | Some x => Some x
      | None =>
          match keyword "NaN" l, keyword "Infinity" l, keyword "-Infinity" l with
          | Some r, _, _ => Some (PyFloat FNan, r)
          | _, Some r, _ => Some (PyFloat (FInf false), r)
          | _, _, Some r => Some (PyFloat (FInf true), r)
          | _, _, _ => None
          end
      end
  end.

Fixpoint scan_value (fuel : nat) (l : list ascii) {struct fuel}
  : option (pyval * list ascii) :=
  match fuel with
  | O => None
  | S fuel' =>
      match l with
      | [] => None
      | c :: r =>
          if is_char c 34 then
            match scan_string r None with
            | Some (s, r') => Some (PyStr (text s), r')
            | None => None
            end
          else if is_char c 123 then
            match skip_ws r with
            | c' :: r' =>
                if is_char c' 125 then Some (PyDict [], r')
                else scan_members fuel' (c' :: r') []
            | [] => None
            end
          else if is_char c 91 then
            match skip_ws r with
            | c' :: r' =>
                if is_char c' 93 then Some (PyList [], r')
                else scan_items fuel' (c' :: r') []
            | [] => None
            end
          else scan_constant l
      end
  end
with scan_items (fuel : nat) (l : list ascii) (acc : list pyval) {struct fuel}
  : option (pyval * list ascii) :=
  match fuel with
  | O => None
  | S fuel' =>
      match scan_value fuel' l with
      | None => None
      | Some (v, r) =>
          match skip_ws r with
          | c :: r' =>
              if is_char c 93 then Some (PyList (rev (v :: acc)), r')
              else if is_char c 44 then scan_items fuel' (skip_ws r') (v :: acc)
              else None
          | [] => None
          end
      end
  end
with scan_members (fuel : nat) (l : list ascii) (acc : dict) {struct fuel}
  : option (pyval * list ascii) :=
  match fuel with
  | O => None
  | S fuel' =>
      match l with
      | q :: r =>
          if is_char q 34 then
            match scan_string r None with
            | None => None
            | Some (k, r1) =>
                match skip_ws r1 with
                | c :: r2 =>
                    if is_char c 58 then
                      match scan_value fuel' (skip_ws r2) with
                      | None => None
                      | Some (v, r3) =>
                          match skip_ws r3 with
                          | c' :: r4 =>
                              if is_char c' 125 then
                                Some (PyDict (dict_set (text k) v acc), r4)
                              else if is_char c' 44 then
                                scan_members fuel' (skip_ws r4) (dict_set (text k) v acc)
                              else None
                          | [] => None
                          end
                      end
                    else None
                | [] => None
                end
            end
          else None
      | [] => None
      end
  end.

Definition json_decode_error : exn := Exc "JSONDecodeError" "malformed JSON document".

(** [json.loads(s)]: one value, with white space allowed around it. *)
Definition json_loads (s : string) : result pyval :=
  let l := skip_ws (chars s) in
  match scan_value (2 * length l + 2) l with
  | Some (v, r) =>
      match skip_ws r with
      | [] => Ok v
      | _ :: _ => Raise json_decode_error
      end
  | None => Raise json_decode_error
  end.

(** ** Coroutines: state-passing computations that may raise *)

Section Coroutines.
Variable S : Type.

Definition M (A : Type) : Type := S -> result A * S.

Definition ret {A} (a : A) : M A := fun s => (Ok a, s).

Definition raise {A} (e : exn) : M A := fun s => (Raise e, s).

Definition bind {A B} (m : M A) (f : A -> M B) : M B :=
  fun s =>
    match m s with
    | (Ok a, s') => f a s'
    | (Raise e, s') => (Raise e, s')
    end.

(** A pure operation that may raise *)
Definition lift {A} (r : result A) : M A := fun s => (r, s).

Definition modify (f : S -> S) : M unit := fun s => (Ok tt, f s).

Definition gets {A} (f : S -> A) : M A := fun s => (Ok (f s), s).

(** [try: body except Exception as e: handler(e)]; what the body did
    before it raised stays done. *)
Definition try_except {A} (body : M A) (handler : exn -> M A) : M A :=
  fun s =>
    match body s with
    | (Ok a, s') => (Ok a, s')
    | (Raise e, s') => handler e s'
    end.

(** One awaitable of a [gather] runs to completion and its outcome is
    stored under its own position. *)
Definition complete {A} (tasks : list (M A))
    (st : list (option (result A)) * S) (i : nat)
  : list (option (result A)) * S :=
  let '(slots, s) := st in
  match tasks !! i, slots !! i with
  | Some t, Some None => let '(r, s') := t s in (<[i := Some r]> slots, s')
  | _, _ => st
  end.

(** [asyncio.gather] with [return_exceptions=True].  The awaitables
    complete in the order the event loop picks: [order] names positions,
    earliest first; positions it leaves out complete afterwards, and a
    position named twice completes once.  The value is the list of
    outcomes by position. *)
Definition gather {A} (order : list nat) (tasks : list (M A))
  : M (list (result A)) :=
  fun s =>
    let n := length tasks in
    let '(slots, s') :=
      fold_left (complete tasks) (order ++ seq 0 n) (replicate n None, s) in
    (Ok (omap id slots), s').
End Coroutines.

Arguments ret {S A} a.
Arguments raise {S A} e.
Arguments bind {S A B} m f.
Arguments lift {S A} r.
Arguments modify {S} f.
Arguments gets {S A} f.
Arguments try_except {S A} body handler.
Arguments complete {S A} tasks st i.
Arguments gather {S A} order tasks.

Notation "x <- m ;; k" := (bind m (fun x => k))
  (at level 100, m at next level, right associativity).
Notation "m ;; k" := (bind m (fun _ => k))
  (at level 100, right associativity).

(** [sep.join(parts)] *)
Fixpoint str_join (sep : string) (parts : list string) : string :=
  match parts with
  | [] => ""
  | [p] => p
  | p :: rest => p +:+ sep +:+ str_join sep rest
  end.

(** ** The task protocol types *)

(** [TaskState] of the [python_a2a] package: the four states that the
    handlers use, named as in section 4.4 of the specification. *)
Inductive TaskState : Type := PROCESSING | COMPLETED | INPUT_REQUIRED | FAILED.

(** [TaskStatus] of [python_a2a]: a state and an optional message. *)
Record TaskStatus : Type := mkTaskStatus {
  state : TaskState;
  status_message : option pyval
}.

(** [Task] of [python_a2a], with the attributes the handlers read and
    write. *)
Record Task : Type := mkTask {
  task_id : string;
  task_message : pyval;
  task_status : TaskStatus;
  task_artifacts : list pyval
}.

Definition set_status (st : TaskStatus) (t : Task) : Task :=
  mkTask (task_id t) (task_message t) st (task_artifacts t).

Definition set_artifacts (a : list pyval) (t : Task) : Task :=
  mkTask (task_id t) (task_message t) (task_status t) a.

Definition agent_message (txt : string) : pyval :=
  PyDict [("role", PyStr "agent"); ("content", PyDict [("text", PyStr txt)])].

(** [[{"parts": [{"type": "text", "text": result}]}]] *)
Definition text_artifacts (result : pyval) : list pyval :=
  [PyDict [("parts", PyList [PyDict [("type", PyStr "text"); ("text", result)]])]].

(** The audit record written by [log_event], and the lines of a logger. *)
Record event : Type := mkEvent {
  ev_source : string;
  ev_type : string;
  ev_data : pyval
}.

Inductive level : Type := INFO | WARNING | ERROR.

(** The query text of a message: [content.get("text", "")] when the
    content is a dict, [str(content)] otherwise. *)
Definition message_text (repr : pyval -> string) (message : pyval) : result pyval :=
  match py_get message "content" (PyDict []) with
  | Raise e => Raise e
  | Ok content =>
      if is_dict content then py_get content "text" (PyStr "")
      else Ok (PyStr (py_str repr content))
  end.

(** [s[:200] if len(s) > 200 else s] *)
Definition preview (s : string) : string :=
  if (200 <? String.length s)%nat then str_take 200 s else s.

(** The body of an endpoint's reply *)
Definition response (id : pyval) (state_name : string) (txt : pyval) : pyval :=
  PyDict [("id", id);
          ("status", PyDict [("state", PyStr state_name)]);
          ("artifacts", PyList (text_artifacts txt))].

(** [handle_task] works on the task object it was given, and the handler
    of its [try] sees the object as the body left it: the object is the
    first component of the state while the method runs. *)
Definition on_task {S} (f : Task -> Task) : M (Task * S) unit :=
  modify (fun '(t, s) => (f t, s)).

Definition in_process {S A} (m : M S A) : M (Task * S) A :=
  fun '(t, s) => let '(r, s') := m s in (r, (t, s')).

(** ** The manager ([agents/manager/manager_agent.py]) *)

Module Manager.

Inductive QueryComplexity : Type := SIMPLE | COMPLEX.

Definition value (c : QueryComplexity) : string :=
  match c with SIMPLE => "simple" | COMPLEX => "complex" end.

(** The client object built by [_create_llm] (model, key and endpoint
    come from the configuration); building it reaches no service. *)
Record ChatOpenAI : Type := mkChatOpenAI {
  temperature : pyfloat;
  max_tokens : Z
}.

(** The literal [0.0] *)
Definition zero : pyfloat := FDec false 0 (-1).

(** What a round trip to a worker gives when it does not raise: the
    status, and the outcome of [response.json()]. *)
Record http_response : Type := mkResponse {
  status : Z;
  json : result pyval
}.

(** What the process has done so far. *)
Record process : Type := mkProcess {
  llm_calls : list (Z * string);
  http_calls : list (string * pyval);
  events : list event;
  logged : list (level * string)
}.

(** The agent object: its two worker URLs and its collaborators.
    [llm_reply n k prompt] is what the [n]-th invocation of the language
    model brings back, [worker_reply n url payload timeout] what the
    [n]-th completed round trip brings back. *)
Record LegalManagerAgent : Type := mkManager {
  worker_agent_1_url : string;
  worker_agent_2_url : string;
  llm_reply : nat -> Z -> string -> result string;
  worker_reply : nat -> string -> pyval -> Z -> result http_response;
  completion_order : list nat;
  repr : pyval -> string
}.

(** [log_event] appends a line to the audit file and [self.logger]
    writes a line; both are taken to succeed. *)
Definition log_event (source type : string) (data : pyval) : M process unit :=
  modify (fun s => mkProcess (llm_calls s) (http_calls s)
                             (events s ++ [mkEvent source type data]) (logged s)).

Definition logger (lv : level) (msg : string) : M process unit :=
  modify (fun s => mkProcess (llm_calls s) (http_calls s) (events s)
                             (logged s ++ [(lv, msg)])).

Definition _create_llm (self : LegalManagerAgent) (temperature : pyfloat)
    (max_tokens : Z) : ChatOpenAI :=
  mkChatOpenAI temperature max_tokens.

(** [(await llm.ainvoke([HumanMessage(content=prompt)])).content] *)
Definition ainvoke (self : LegalManagerAgent) (llm : ChatOpenAI) (prompt : string)
  : M process string :=
  fun s =>
    (llm_reply self (length (llm_calls s)) (max_tokens llm) prompt,
     mkProcess (llm_calls s ++ [(max_tokens llm, prompt)]) (http_calls s)
               (events s) (logged s)).

(** *** Query classification *)

Definition classify_prompt (query : string) : string :=
  "Classify this legal query:

Query: " +:+ query +:+ "

Is this SIMPLE (needs one agent) or COMPLEX (needs multiple agents or steps)?

Reply with only: SIMPLE or COMPLEX".

Definition _classify_complexity (self : LegalManagerAgent) (query : pyval)
  : M process QueryComplexity :=
  try_except
    (let llm := _create_llm self zero 100 in
     let prompt := classify_prompt (py_str (repr self) query) in
     response <- ainvoke self llm prompt ;;
     let classification := upper (strip response) in
     if str_in "COMPLEX" classification then ret COMPLEX
     else ret SIMPLE)
    (fun e =>
       logger WARNING ("Classification error: " +:+ exn_str e +:+ ", defaulting to SIMPLE") ;;
       ret SIMPLE).

(** *** Execution planning *)

Definition plan_prompt (query : string) : string :=
  "Plan the execution for this legal query:

Query: " +:+ query +:+ "

Available agents:
- worker_agent_1: Extract and analyze data (Worker Agent 1)
- worker_agent_2: Validate data against rules (Worker Agent 2)

Decide the execution plan. Return JSON:
{
    " +:+ quoted "agents" +:+ ": [" +:+ quoted "agent1" +:+ ", " +:+ quoted "agent2" +:+ "],
    " +:+ quoted "parallel" +:+ ": true/false,
    " +:+ quoted "reasoning" +:+ ": " +:+ quoted "why this plan" +:+ "
}

If parallel=true, queries run simultaneously. If false, run sequentially.".

(** The plan returned when the response holds no braces *)
Definition default_plan : pyval :=
  PyDict [("agents", PyList [PyStr "worker_agent_1"]);
          ("parallel", PyBool false);
          ("reasoning", PyStr "Default to data extraction")].

(** The plan returned from the exception handler *)
Definition fallback_plan : pyval :=
  PyDict [("agents", PyList [PyStr "worker_agent_1"]);
          ("parallel", PyBool false)].

Definition _plan_execution (self : LegalManagerAgent) (query : pyval)
  : M process pyval :=
  try_except
    (let llm := _create_llm self zero 500 in
     let prompt := plan_prompt (py_str (repr self) query) in
     response <- ainvoke self llm prompt ;;
     let content := strip response in
     match search_braces content with
     | Some group =>
         plan <- lift (json_loads group) ;;
         ret plan
     | None => ret default_plan
     end)
    (fun e =>
       logger ERROR ("Planning error: " +:+ exn_str e) ;;
       ret fallback_plan).

(** *** Worker communication *)

Definition task_payload (query : pyval) : pyval :=
  PyDict [("message", PyDict [("content", PyDict [("text", query)])])].

(** [session.post(url, json=payload, timeout=...)]: one round trip *)
Definition post (self : LegalManagerAgent) (url : string) (payload : pyval)
    (timeout : Z) : M process http_response :=
  fun s =>
    (worker_reply self (length (http_calls s)) url payload timeout,
     mkProcess (llm_calls s) (http_calls s ++ [(url, payload)])
               (events s) (logged s)).

Definition call_succeeded (result : pyval) (agent_url : string) : pyval :=
  PyDict [("success", PyBool true); ("result", result);
          ("agent_url", PyStr agent_url)].

Definition call_failed (error agent_url : string) : pyval :=
  PyDict [("success", PyBool false); ("error", PyStr error);
          ("agent_url", PyStr agent_url)].

Definition _call_worker (self : LegalManagerAgent) (agent_url : string)
    (query : pyval) (timeout : Z) : M process pyval :=
  try_except
    (response <- post self (agent_url +:+ "/task") (task_payload query) timeout ;;
     if (status response =? 200)%Z then
       result <- lift (json response) ;;
       ret (call_succeeded result agent_url)
     else
       ret (call_failed ("HTTP " +:+ pretty (status response)) agent_url))
    (fun e =>
       if is_timeout e then ret (call_failed "Timeout" agent_url)
       else ret (call_failed (exn_str e) agent_url)).

Definition agent_map (self : LegalManagerAgent) : gmap string string :=
  <["worker_agent_1" := worker_agent_1_url self]>
  (<["worker_agent_2" := worker_agent_2_url self]>
  (<["clause_agent" := worker_agent_1_url self]>
  (<["compliance_agent" := worker_agent_2_url self]> ∅))).

(** [agent_map[a] if a in agent_map]: hashing a list or a dict raises; a
    key that is not a string equals none of the four. *)
Definition resolve (self : LegalManagerAgent) (a : pyval) : result (option string) :=
  match a with
  | PyStr k => Ok (agent_map self !! k)
  | PyList _ | PyDict _ =>
      Raise (Exc "TypeError" ("unhashable type: '" +:+ type_name a +:+ "'"))
  | _ => Ok None
  end.

(** The comprehension that builds the awaitables of the parallel branch:
    membership is tested item by item before any call is awaited. *)
Fixpoint resolve_all (self : LegalManagerAgent) (agents : list pyval)
  : result (list string) :=
  match agents with
  | [] => Ok []
  | a :: rest =>
      match resolve self a with
      | Raise e => Raise e
      | Ok o =>
          match resolve_all self rest with
          | Raise e => Raise e
          | Ok urls => Ok (match o with Some u => u :: urls | None => urls end)
          end
      end
  end.

(** The loop of the sequential branch *)
Fixpoint call_in_turn (self : LegalManagerAgent) (query : pyval)
    (agents : list pyval) (results : list pyval) : M process (list pyval) :=
  match agents with
  | [] => ret results
  | agent_name :: rest =>
      o <- lift (resolve self agent_name) ;;
      match o with
      | Some url =>
          result <- _call_worker self url query 60 ;;
          call_in_turn self query rest (results ++ [result])
      | None => call_in_turn self query rest results
      end
  end.

Definition exception_entry (r : result pyval) : pyval :=
  match r with
  | Ok v => v
  | Raise e => PyDict [("success", PyBool false); ("error", PyStr (exn_str e))]
  end.

Definition _execute_plan (self : LegalManagerAgent) (query : pyval) (plan : pyval)
  : M process (list pyval) :=
  agents_to_call <- lift (py_get plan "agents" (PyList [])) ;;
  is_parallel <- lift (py_get plan "parallel" (PyBool false)) ;;
  if truthy is_parallel then
    agents <- lift (py_iter agents_to_call) ;;
    urls <- lift (resolve_all self agents) ;;
    let tasks := map (fun url => _call_worker self url query 60) urls in
    results <- gather (completion_order self) tasks ;;
    ret (map exception_entry results)
  else
    agents <- lift (py_iter agents_to_call) ;;
    call_in_turn self query agents [].

(** *** Result synthesis *)

Definition no_results : string := "No results obtained from worker agents.".

(** The loop over [enumerate(results)] that collects the result texts *)
Fixpoint collect_texts (self : LegalManagerAgent) (i : nat) (results : list pyval)
    (result_texts : list string) : result (list string) :=
  match results with
  | [] => Ok result_texts
  | r :: rest =>
      match py_get r "success" PyNone with
      | Raise e => Raise e
      | Ok success =>
          if truthy success then
            match py_get r "result" (PyDict []) with
            | Raise e => Raise e
            | Ok res =>
                match py_get res "artifacts" (PyList []) with
                | Raise e => Raise e
                | Ok artifacts =>
                    if truthy artifacts then
                      match py_item0 artifacts with
                      | Raise e => Raise e
                      | Ok first =>
                          match py_get first "parts" (PyList []) with
                          | Raise e => Raise e
                          | Ok parts =>
                              if truthy parts then
                                match py_item0 parts with
                                | Raise e => Raise e
                                | Ok part =>
                                    match py_get part "text" (PyStr "") with
                                    | Raise e => Raise e
                                    | Ok txt =>
                                        collect_texts self (S i) rest
                                          (result_texts ++
                                           ["Agent " +:+ pretty (i + 1)%nat +:+ " Result:" +:+ nl
                                            +:+ py_str (repr self) txt])
                                    end
                                end
                              else collect_texts self (S i) rest result_texts
                          end
                      end
                    else collect_texts self (S i) rest result_texts
                end
            end
          else collect_texts self (S i) rest result_texts
      end
  end.

Definition synthesis_prompt (query : string) (result_texts : list string) : string :=
  "Synthesize these results into a comprehensive answer.

ORIGINAL QUERY: " +:+ query +:+ "

AGENT RESULTS:
" +:+ str_join nl result_texts +:+ "

Create a unified response that:
1. Answers the original query directly
2. Integrates insights from all sources
3. Highlights key findings and recommendations
4. Notes any conflicts or uncertainties".

Definition _synthesize_results (self : LegalManagerAgent) (query : pyval)
    (results : list pyval) : M process string :=
  try_except
    (let llm := _create_llm self zero 2000 in
     result_texts <- lift (collect_texts self 0 results []) ;;
     match result_texts with
     | [] => ret no_results
     | _ :: _ =>
         response <- ainvoke self llm
                       (synthesis_prompt (py_str (repr self) query) result_texts) ;;
         ret (strip response)
     end)
    (fun e => ret ("Synthesis error: " +:+ exn_str e)).

(** *** The analysis skill *)

Definition analyze_legal_query (self : LegalManagerAgent) (query : pyval)
  : M process string :=
  try_except
    (log_event "ManagerAgent" "QUERY_RECEIVED" (PyDict [("query", query)]) ;;
     complexity <- _classify_complexity self query ;;
     log_event "ManagerAgent" "COMPLEXITY_CLASSIFIED"
               (PyDict [("complexity", PyStr (value complexity))]) ;;
     plan <- _plan_execution self query ;;
     log_event "ManagerAgent" "PLAN_CREATED" plan ;;
     results <- _execute_plan self query plan ;;
     log_event "ManagerAgent" "EXECUTION_COMPLETE"
               (PyDict [("result_count", PyInt (Z.of_nat (length results)));
                        ("worker_results", PyList results)]) ;;
     final_answer <- _synthesize_results self query results ;;
     log_event "ManagerAgent" "SYNTHESIS_COMPLETE"
               (PyDict [("preview", PyStr (preview final_answer));
                        ("full_result", PyStr final_answer)]) ;;
     ret final_answer)
    (fun e =>
       let error_msg := "Analysis error: " +:+ exn_str e in
       log_event "ManagerAgent" "ERROR" (PyDict [("error", PyStr error_msg)]) ;;
       ret error_msg).

(** *** Task handling *)

Definition handle_task (self : LegalManagerAgent) (task : Task) : M process Task :=
  fun s =>
    let '(r, (task', s')) :=
      try_except
        (on_task (set_status (mkTaskStatus PROCESSING None)) ;;
         message <- gets (fun '(t, _) =>
                      if truthy (task_message t) then task_message t else PyDict []) ;;
         txt <- lift (message_text (repr self) message) ;;
         if negb (truthy txt) then
           on_task (set_status (mkTaskStatus INPUT_REQUIRED
                      (Some (agent_message "Please provide a legal query"))))
         else
           result <- in_process (analyze_legal_query self txt) ;;
           on_task (set_artifacts (text_artifacts (PyStr result))) ;;
           on_task (set_status (mkTaskStatus COMPLETED None)))
        (fun e =>
           on_task (set_status (mkTaskStatus FAILED
                      (Some (agent_message ("Error: " +:+ exn_str e))))))
        (task, s) in
    (match r with Ok _ => Ok task' | Raise e => Raise e end, s').

(** *** The HTTP task endpoint of [run_manager_server] *)

(** [request_json] is what [request.get_json()] gives: the decoded body,
    or the error it raises on a body it cannot decode. *)
Definition handle_task_endpoint (self : LegalManagerAgent) (request_json : result pyval)
  : M process pyval :=
  try_except
    (data <- lift request_json ;;
     message <- lift (py_get data "message" (PyDict [])) ;;
     query <- lift (message_text (repr self) message) ;;
     if negb (truthy query) then
       id <- lift (py_get data "id" (PyStr "")) ;;
       ret (response id "input_required" (PyStr "Please provide a legal query"))
     else
       head <- lift (py_slice_to 100 query) ;;
       logger INFO ("Received query: " +:+ py_str (repr self) head) ;;
       result <- analyze_legal_query self query ;;
       id <- lift (py_get data "id" (PyStr "")) ;;
       ret (response id "completed" (PyStr result)))
    (fun e =>
       logger ERROR ("Task endpoint error: " +:+ exn_str e) ;;
       ret (response (PyStr "") "failed" (PyStr ("Error: " +:+ exn_str e)))).

End Manager.

(** ** The base agent ([core/base_agent.py]) *)

Module Base.

(** What a worker process holds and has done: the two attributes set by
    the lazy initialisation, the number of clients it tried to build, the
    runs of the reasoning loop, and its records. *)
Record process : Type := mkProcess {
  _mcp_client : option dict;
  _tools : list string;
  mcp_attempts : nat;
  react_calls : list pyval;
  events : list event;
  logged : list (level * string)
}.

(** The agent object.  [get_tool_url] and [load_prompt] are the
    configuration's; [new_client n cfg] is the [n]-th construction of a
    [MultiServerMCPClient], [get_tools cfg] the listing of its tools, and
    [react_agent n tools prompt query limit] the [n]-th run of the
    reasoning loop (from [create_llm] to the content of the last
    message). *)
Record BaseAgent : Type := mkAgent {
  name : string;
  port : Z;
  _mcp_tool_names : list string;
  get_tool_url : string -> string;
  load_prompt : string -> string;
  new_client : nat -> dict -> result unit;
  get_tools : dict -> result (list string);
  react_agent : nat -> list string -> string -> pyval -> Z -> result string;
  repr : pyval -> string
}.

(** As in the manager, writing to the audit file and to the logger is
    taken to succeed. *)
Definition log_event (source type : string) (data : pyval) : M process unit :=
  modify (fun s => mkProcess (_mcp_client s) (_tools s) (mcp_attempts s)
                             (react_calls s)
                             (events s ++ [mkEvent source type data]) (logged s)).

Definition logger (lv : level) (msg : string) : M process unit :=
  modify (fun s => mkProcess (_mcp_client s) (_tools s) (mcp_attempts s)
                             (react_calls s) (events s)
                             (logged s ++ [(lv, msg)])).

Definition get_mcp_config (self : BaseAgent) : dict :=
  fold_left
    (fun mcp_config tool_name =>
       let url := get_tool_url self tool_name in
       if negb (String.eqb url "") then
         dict_set tool_name
           (PyDict [("url", PyStr url); ("transport", PyStr "streamable_http")])
           mcp_config
       else mcp_config)
    (_mcp_tool_names self) [].

(** [self._mcp_client = MultiServerMCPClient(mcp_config)] *)
Definition connect (self : BaseAgent) (mcp_config : dict) : M process unit :=
  fun s =>
    match new_client self (mcp_attempts s) mcp_config with
    | Ok _ =>
        (Ok tt, mkProcess (Some mcp_config) (_tools s) (S (mcp_attempts s))
                          (react_calls s) (events s) (logged s))
    | Raise e =>
        (Raise e, mkProcess (_mcp_client s) (_tools s) (S (mcp_attempts s))
                            (react_calls s) (events s) (logged s))
    end.

(** [self._tools = await self._mcp_client.get_tools()] *)
Definition load_tools (self : BaseAgent) (mcp_config : dict) : M process unit :=
  tools <- lift (get_tools self mcp_config) ;;
  modify (fun s => mkProcess (_mcp_client s) tools (mcp_attempts s)
                             (react_calls s) (events s) (logged s)).

Definition ensure_mcp_initialized (self : BaseAgent) : M process bool :=
  client <- gets _mcp_client ;;
  match client with
  | Some _ => ret true
  | None =>
      let mcp_config := get_mcp_config self in
      match mcp_config with
      | [] =>
          logger WARNING "No MCP tools configured" ;;
          ret true
      | _ :: _ =>
          try_except
            (logger INFO ("Initializing MCP client with tools: " +:+
                          repr self (PyList (map (fun kv => PyStr (fst kv)) mcp_config))) ;;
             connect self mcp_config ;;
             load_tools self mcp_config ;;
             tools <- gets _tools ;;
             logger INFO ("MCP initialized with " +:+ pretty (length tools) +:+ " tools") ;;
             ret true)
            (fun e =>
               logger ERROR ("MCP initialization failed: " +:+ exn_str e) ;;
               ret false)
      end
  end.

(** [agent.ainvoke(...)] on a freshly built ReAct agent *)
Definition run_agent (self : BaseAgent) (tools : list string) (prompt : string)
    (query : pyval) (recursion_limit : Z) : M process string :=
  fun s =>
    (react_agent self (length (react_calls s)) tools prompt query recursion_limit,
     mkProcess (_mcp_client s) (_tools s) (mcp_attempts s)
               (react_calls s ++ [query]) (events s) (logged s)).

(** The methods a subclass supplies or overrides are arguments of the
    methods that call them. *)
Section Methods.
Variable get_system_prompt : BaseAgent -> string.
Variable process_query : BaseAgent -> pyval -> M process string.

Definition run_react_agent (self : BaseAgent) (query : pyval)
    (system_prompt : option string) (recursion_limit : Z) : M process string :=
  ready <- ensure_mcp_initialized self ;;
  if negb ready then ret "Error: Failed to initialize MCP tools"
  else
    tools <- gets _tools ;;
    match tools with
    | [] => ret "Error: No tools available"
    | _ :: _ =>
        let prompt :=
          match system_prompt with
          | Some p => if negb (String.eqb p "") then p else get_system_prompt self
          | None => get_system_prompt self
          end in
        run_agent self tools prompt query recursion_limit
    end.

Definition _extract_query (self : BaseAgent) (task : Task) : result pyval :=
  let message := if truthy (task_message task) then task_message task else PyDict [] in
  message_text (repr self) message.

Definition handle_task (self : BaseAgent) (task : Task) : M process Task :=
  fun s =>
    let '(r, (task', s')) :=
      try_except
        (on_task (set_status (mkTaskStatus PROCESSING None)) ;;
         t <- gets fst ;;
         query <- lift (_extract_query self t) ;;
         if negb (truthy query) then
           on_task (set_status (mkTaskStatus INPUT_REQUIRED
                      (Some (agent_message "Please provide a query"))))
         else
           in_process (log_event (name self) "TASK_RECEIVED" (PyDict [("query", query)])) ;;
           result <- in_process (process_query self query) ;;
           on_task (set_artifacts (text_artifacts (PyStr result))) ;;
           on_task (set_status (mkTaskStatus COMPLETED None)) ;;
           in_process (log_event (name self) "TASK_COMPLETED"
                         (PyDict [("preview", PyStr (preview result));
                                  ("full_result", PyStr result)])))
        (fun e =>
           in_process (logger ERROR ("Task handling error: " +:+ exn_str e)) ;;
           on_task (set_status (mkTaskStatus FAILED
                      (Some (agent_message ("Error: " +:+ exn_str e))))) ;;
           in_process (log_event (name self) "TASK_ERROR"
                         (PyDict [("error", PyStr (exn_str e))])))
        (task, s) in
    (match r with Ok _ => Ok task' | Raise e => Raise e end, s').

(** The task endpoint set up by [run] *)
Definition handle_task_endpoint (self : BaseAgent) (request_json : result pyval)
  : M process pyval :=
  try_except
    (data <- lift request_json ;;
     message <- lift (py_get data "message" (PyDict [])) ;;
     query <- lift (message_text (repr self) message) ;;
     if negb (truthy query) then
       id <- lift (py_get data "id" (PyStr "")) ;;
       ret (response id "input_required" (PyStr "Please provide a query"))
     else
       head <- lift (py_slice_to 100 query) ;;
       logger INFO ("Received query: " +:+ py_str (repr self) head) ;;
       result <- process_query self query ;;
       id <- lift (py_get data "id" (PyStr "")) ;;
       ret (response id "completed" (PyStr result)))
    (fun e =>
       logger ERROR ("Task endpoint error: " +:+ exn_str e) ;;
       ret (response (PyStr "") "failed" (PyStr ("Error: " +:+ exn_str e)))).
End Methods.

End Base.

(** ** Worker agent 1 ([agents/workers/worker_agent_1.py]) *)

Module WorkerAgent1.
Import Base.

Definition fallback_prompt : string :=
  "You are a data extraction and analysis specialist.

## Workflow
1. Call get_schema() first to discover available data
2. Use the actual column names to construct queries
3. Summarize findings for the user

## Rules
- Always use tools to get data - never make up information
- When you receive results, summarize them clearly
".

Definition get_system_prompt (self : BaseAgent) : string :=
  let prompt := load_prompt self "worker_agent_1" in
  if negb (String.eqb prompt "") then prompt else fallback_prompt.

Definition process_query (self : BaseAgent) (query : pyval) : M process string :=
  try_except
    (result <- run_react_agent get_system_prompt self query None 25 ;;
     ret result)
    (fun e =>
       logger ERROR ("Query processing error: " +:+ exn_str e) ;;
       ret ("Error processing query: " +:+ exn_str e)).

Definition handle_task := Base.handle_task process_query.
Definition handle_task_endpoint := Base.handle_task_endpoint process_query.

End WorkerAgent1.

(** ** Vocabulary of the statements *)

(** [needle] occurs in [s] when letter case is ignored. *)
Definition contains_ignoring_case (needle s : string) : Prop :=
  exists pre mid post, s = pre +:+ mid +:+ post /\ upper mid = upper needle.

(** The balanced run of braces that closes [depth] open ones. *)
Fixpoint balanced_prefix (depth : nat) (l : list ascii) : option (list ascii) :=
  match l with
  | [] => None
  | c :: r =>
      if Ascii.eqb c "{"%char then
        option_map (cons c) (balanced_prefix (S depth) r)
      else if Ascii.eqb c "}"%char then
        match depth with
        | O => None
        | S O => Some [c]
        | S d => option_map (cons c) (balanced_prefix d r)
        end
      else option_map (cons c) (balanced_prefix depth r)
  end.

Fixpoint first_balanced (l : list ascii) : option (list ascii) :=
  match l with
  | [] => None
  | c :: r =>
      if Ascii.eqb c "{"%char then
        match balanced_prefix 1 r with
        | Some p => Some (c :: p)
        | None => first_balanced r
        end
      else first_balanced r
  end.

(** The first substring of [s] that opens with a brace and closes with
    the brace that balances it. *)
Definition first_balanced_object (s : string) : option string :=
  option_map text (first_balanced (chars s)).

(** A collaborator that follows a script: the [n]-th request gets the
    [n]-th reply. *)
Definition scripted {A} (replies : list (result A)) (n : nat) : result A :=
  match replies !! n with
  | Some r => r
  | None => Raise (Exc "RuntimeError" "nothing left in the script")
  end.

(** The number of awaitables of a [gather] that have completed, and what
    holds while they complete one by one: every stored outcome satisfies
    [P] at its position, and [size] has advanced once for each. *)
Definition settled {A} (slots : list (option (result A))) : nat :=
  length (omap id slots).

Definition gather_inv {S A} (tasks : list (M S A)) (P : nat -> result A -> Prop)
    (size : S -> nat) (s0 : S) (st : list (option (result A)) * S) : Prop :=
  length (fst st) = length tasks /\
  (forall i r, fst st !! i = Some (Some r) -> P i r) /\
  size (snd st) = size s0 + settled (fst st).

(** The reason recorded for a call that raised *)
Definition reason (e : exn) : string :=
  if is_timeout e then "Timeout" else exn_str e.

(** The entry that stands for the outcome of one round trip to the
    worker at [agent_url]: a success when the status is 200 and the body
    decodes, a failure with its reason in the three other cases. *)
Inductive entry_of (agent_url : string)
  : result Manager.http_response -> pyval -> Prop :=
| entry_success resp body :
    Manager.status resp = 200%Z -> Manager.json resp = Ok body ->
    entry_of agent_url (Ok resp) (Manager.call_succeeded body agent_url)
| entry_bad_body resp e :
    Manager.status resp = 200%Z -> Manager.json resp = Raise e ->
    entry_of agent_url (Ok resp) (Manager.call_failed (reason e) agent_url)
| entry_bad_status resp :
    Manager.status resp <> 200%Z ->
    entry_of agent_url (Ok resp)
      (Manager.call_failed ("HTTP " +:+ pretty (Manager.status resp)) agent_url)
| entry_raised e :
    entry_of agent_url (Raise e) (Manager.call_failed (reason e) agent_url).

(** [a in agent_map] on a name *)
Definition known (self : Manager.LegalManagerAgent) (a : string) : bool :=
  match Manager.agent_map self !! a with Some _ => true | None => false end.

(** The URLs of the names of a plan that the registry knows, in the order
    of the plan *)
Definition resolved (self : Manager.LegalManagerAgent) (names : list string)
  : list string :=
  omap (fun a => Manager.agent_map self !! a) names.

(** An entry of the dispatcher's output that answers for [agent_url]: it
    is the entry of some round trip to that worker's task endpoint. *)
Definition answers_for (self : Manager.LegalManagerAgent) (query : pyval)
    (agent_url : string) (entry : pyval) : Prop :=
  exists n,
    entry_of agent_url
      (Manager.worker_reply self n (agent_url +:+ "/task")
         (Manager.task_payload query) 60)
      entry.

(** An entry of the dispatcher's output that reports no success *)
Definition no_success (r : pyval) : bool :=
  is_dict r && negb (truthy (dict_get (members_of r) "success" PyNone)).

(** The replies of a task endpoint: each carries one artifact with one
    text part, which holds the request for input, the result, or the
    error. *)
Inductive endpoint_reply (prompt : string) : pyval -> Prop :=
| reply_input_required id :
    endpoint_reply prompt (response id "input_required" (PyStr prompt))
| reply_completed id result :
    endpoint_reply prompt (response id "completed" (PyStr result))
| reply_failed e :
    endpoint_reply prompt
      (response (PyStr "") "failed" (PyStr ("Error: " +:+ exn_str e))).

(** Two managers that are alike but for what the language model brings
    back from its invocation number [n0]. *)
Definition same_but_reply (n0 : nat) (a b : Manager.LegalManagerAgent) : Prop :=
  Manager.worker_agent_1_url a = Manager.worker_agent_1_url b /\
  Manager.worker_agent_2_url a = Manager.worker_agent_2_url b /\
  (forall n url payload timeout,
     Manager.worker_reply a n url payload timeout
     = Manager.worker_reply b n url payload timeout) /\
  Manager.completion_order a = Manager.completion_order b /\
  (forall v, Manager.repr a v = Manager.repr b v) /\
  (forall n k prompt, n <> n0 ->
     Manager.llm_reply a n k prompt = Manager.llm_reply b n k prompt).

(** Two processes that have made as many calls as each other, and more
    than [n0] invocations of the language model; their records may
    differ. *)
Definition agree (n0 : nat) (s1 s2 : Manager.process) : Prop :=
  length (Manager.llm_calls s1) = length (Manager.llm_calls s2) /\
  length (Manager.http_calls s1) = length (Manager.http_calls s2) /\
  n0 < length (Manager.llm_calls s1).

(** Two computations that, from processes that agree, give the same
    outcome and leave processes that agree. *)
Definition related {A} (n0 : nat) (m1 m2 : M Manager.process A) : Prop :=
  forall s1 s2, agree n0 s1 s2 ->
    fst (m1 s1) = fst (m2 s2) /\ agree n0 (snd (m1 s1)) (snd (m2 s2)).

(** Objects for the concrete runs: the two workers at their registry
    ports, collaborators that follow scripts, and a printer that stands
    for the interpreter's [repr] (the runs print strings only). *)
Definition plain_repr (v : pyval) : string :=
  match v with
  | PyNone => "None"
  | PyBool true => "True"
  | PyBool false => "False"
  | PyInt z => pretty z
  | _ => "<" +:+ type_name v +:+ ">"
  end.

Definition scripted_manager (llm : list (result string))
    (workers : list (result Manager.http_response)) (order : list nat)
  : Manager.LegalManagerAgent :=
  Manager.mkManager "http://localhost:8101" "http://localhost:8102"
    (fun n _ _ => scripted llm n) (fun n _ _ _ => scripted workers n)
    order plain_repr.

Definition fresh : Manager.process := Manager.mkProcess [] [] [] [].

(** A reply that holds two plans, one after the other. *)
Definition first_object : string :=
  "{" +:+ quoted "agents" +:+ ": [" +:+ quoted "worker_agent_2" +:+ "], "
      +:+ quoted "parallel" +:+ ": true}".

Definition second_object : string :=
  "{" +:+ quoted "agents" +:+ ": [" +:+ quoted "worker_agent_1" +:+ "], "
      +:+ quoted "parallel" +:+ ": false}".

Definition two_objects : string := first_object +:+ " " +:+ second_object.

Definition first_plan : pyval :=
  PyDict [("agents", PyList [PyStr "worker_agent_2"]); ("parallel", PyBool true)].

(** What lies between the first opening brace and the last closing
    brace of that reply *)
Definition two_objects_inside : string :=
  quoted "agents" +:+ ": [" +:+ quoted "worker_agent_2" +:+ "], "
    +:+ quoted "parallel" +:+ ": true} {"
    +:+ quoted "agents" +:+ ": [" +:+ quoted "worker_agent_1" +:+ "], "
    +:+ quoted "parallel" +:+ ": false".

Definition sample_query : pyval := PyStr "What is the termination clause for CTR-001?".

(** A plan that names a known worker, a stranger and a known alias, to
    be run in parallel; the round trip that completes first times out,
    the other one succeeds, and the second awaitable completes first. *)
Definition sample_names : list string := ["worker_agent_2"; "nobody"; "clause_agent"].

Definition sample_plan : dict :=
  [("agents", PyList (map PyStr sample_names)); ("parallel", PyBool true)].

Definition worker_ok (txt : string) : result Manager.http_response :=
  Ok (Manager.mkResponse 200 (Ok (response (PyStr "") "completed" (PyStr txt)))).

Definition timed_out : result Manager.http_response :=
  Raise (Exc "TimeoutError" "").

Definition sample_manager : Manager.LegalManagerAgent :=
  scripted_manager [] [timed_out; worker_ok "Clause 7 governs termination."] [1; 0].

(** Two entries that report failure *)
Definition all_failed : list pyval :=
  [Manager.call_failed "Timeout" "http://localhost:8101";
   PyDict [("success", PyBool false); ("error", PyStr "cancelled")]].

(** A request whose text is empty *)
Definition empty_request : pyval :=
  PyDict [("message", PyDict [("content", PyDict [("text", PyStr "")])])].

(** Two managers whose language model answers the classifier
    differently and everything else alike: a plan for the two workers in
    parallel, and a synthesis. *)
Definition plan_reply : string :=
  "Plan: {" +:+ quoted "agents" +:+ ": [" +:+ quoted "worker_agent_1" +:+ ", "
    +:+ quoted "worker_agent_2" +:+ "], " +:+ quoted "parallel" +:+ ": true}".

Definition said_simple : Manager.LegalManagerAgent :=
  scripted_manager [Ok "SIMPLE"; Ok plan_reply; Ok " Clause 7 applies. "]
    [timed_out; worker_ok "Clause 7 governs termination."] [1; 0].

Definition said_complex : Manager.LegalManagerAgent :=
  scripted_manager [Ok "This one is complex."; Ok plan_reply; Ok " Clause 7 applies. "]
    [timed_out; worker_ok "Clause 7 governs termination."] [1; 0].

(** A worker with one tool configured, whose tool backend cannot be
    reached *)
Definition sample_worker : Base.BaseAgent :=
  Base.mkAgent "WorkerAgent1" 8101 ["tool_1"]
    (fun _ => "http://localhost:11001/mcp") (fun _ => "")
    (fun _ _ => Ok tt)
    (fun _ => Raise (Exc "ConnectError" "All connection attempts failed"))
    (fun _ _ _ _ _ => Ok "")
    plain_repr.

Definition fresh_worker : Base.process := Base.mkProcess None [] 0 [] [] [].

(** ** Vocabulary of the further properties *)

(** The calls of the awaitables that have completed, by position *)
Fixpoint settled_calls {A B} (slots : list (option A)) (calls : list B) : list B :=
  match slots, calls with
  | o :: slots', c :: calls' =>
      match o with
      | Some _ => c :: settled_calls slots' calls'
      | None => settled_calls slots' calls'
      end
  | _, _ => []
  end.

(** The round trip made for a worker URL *)
Definition round_trip (query : pyval) (agent_url : string) : string * pyval :=
  (agent_url +:+ "/task", Manager.task_payload query).

(** A computation keeps a view of the state when it leaves the view as it
    found it, whether it returns or raises. *)
Definition keeps {S A B} (f : S -> B) (m : M S A) : Prop :=
  forall s, f (snd (m s)) = f s.

(** The audit events of an analysis *)
Definition query_received (query : pyval) : event :=
  mkEvent "ManagerAgent" "QUERY_RECEIVED" (PyDict [("query", query)]).

Definition complexity_classified (c : Manager.QueryComplexity) : event :=
  mkEvent "ManagerAgent" "COMPLEXITY_CLASSIFIED"
          (PyDict [("complexity", PyStr (Manager.value c))]).

Definition plan_created (plan : pyval) : event :=
  mkEvent "ManagerAgent" "PLAN_CREATED" plan.

Definition execution_complete (results : list pyval) : event :=
  mkEvent "ManagerAgent" "EXECUTION_COMPLETE"
          (PyDict [("result_count", PyInt (Z.of_nat (length results)));
                   ("worker_results", PyList results)]).

Definition synthesis_complete (answer : string) : event :=
  mkEvent "ManagerAgent" "SYNTHESIS_COMPLETE"
          (PyDict [("preview", PyStr (preview answer)); ("full_result", PyStr answer)]).

Definition analysis_error (answer : string) : event :=
  mkEvent "ManagerAgent" "ERROR" (PyDict [("error", PyStr answer)]).

(** The sample names with no mode given: the plan is run sequentially. *)
Definition sequential_plan : dict := [("agents", PyList (map PyStr sample_names))].

(** Values that cannot be hashed, hence cannot be looked up in a dict *)
Definition unhashable (v : pyval) : bool :=
  match v with PyList _ | PyDict _ => true | _ => false end.

Definition unhashable_type (v : pyval) : exn :=
  Exc "TypeError" ("unhashable type: '" +:+ type_name v +:+ "'").

(** A sequential plan whose second agent is a list *)
Definition ill_typed_plan : dict :=
  [("agents", PyList (map PyStr ["worker_agent_1"] ++ [PyList []; PyStr "worker_agent_2"]))].

(** What a call to a worker can leave in the dispatcher's list when the
    worker is an agent of this framework: a failure with its reason, or
    the reply of a task endpoint, in whatever state the task ended. *)
Inductive outcome : Type :=
| Failure (error agent_url : string)
| Reply (id : pyval) (state_name : string) (txt : pyval) (agent_url : string).

Definition entry_for (o : outcome) : pyval :=
  match o with
  | Failure error agent_url => Manager.call_failed error agent_url
  | Reply id state_name txt agent_url =>
      Manager.call_succeeded (response id state_name txt) agent_url
  end.

(** The texts of the replies, each under the number of its position in
    the list, counted from [i + 1] *)
Fixpoint labelled (repr : pyval -> string) (i : nat) (outcomes : list outcome)
  : list string :=
  match outcomes with
  | [] => []
  | Failure _ _ :: rest => labelled repr (S i) rest
  | Reply _ _ txt _ :: rest =>
      ("Agent " +:+ pretty (i + 1)%nat +:+ " Result:" +:+ nl +:+ py_str repr txt)
      :: labelled repr (S i) rest
  end.

(** ** Worker agent 2 ([agents/workers/worker_agent_2.py]) *)

Module WorkerAgent2.
Import Base.

Definition fallback_prompt : string :=
  "You are a validation and compliance specialist.

## Workflow
1. Call list_rules() first to discover available rules
2. Retrieve the data you need to validate
3. Run compliance checks and report findings

## Rules
- Always use tools to check compliance - never assume rules
- Report findings with severity levels
- Provide actionable recommendations
".

Definition get_system_prompt (self : BaseAgent) : string :=
  let prompt := load_prompt self "worker_agent_2" in
  if negb (String.eqb prompt "") then prompt else fallback_prompt.

Definition process_query (self : BaseAgent) (query : pyval) : M process string :=
  try_except
    (result <- run_react_agent get_system_prompt self query None 25 ;;
     ret result)
    (fun e =>
       logger ERROR ("Query processing error: " +:+ exn_str e) ;;
       ret ("Error processing query: " +:+ exn_str e)).

Definition handle_task := Base.handle_task process_query.
Definition handle_task_endpoint := Base.handle_task_endpoint process_query.

End WorkerAgent2.

(** The audit events of a worker's task *)
Definition task_received (self : Base.BaseAgent) (query : pyval) : event :=
  mkEvent (Base.name self) "TASK_RECEIVED" (PyDict [("query", query)]).

Definition task_completed (self : Base.BaseAgent) (result : string) : event :=
  mkEvent (Base.name self) "TASK_COMPLETED"
          (PyDict [("preview", PyStr (preview result)); ("full_result", PyStr result)]).

Definition task_error (self : Base.BaseAgent) (e : exn) : event :=
  mkEvent (Base.name self) "TASK_ERROR" (PyDict [("error", PyStr (exn_str e))]).

(** The entry of the MCP configuration for a tool at [url] *)
Definition tool_entry (url : string) : pyval :=
  PyDict [("url", PyStr url); ("transport", PyStr "streamable_http")].

(** The second worker, with tool 2 missing from the registry, and a
    backend that builds a client but fails to list its tools *)
Definition sample_worker_2 : Base.BaseAgent :=
  Base.mkAgent "WorkerAgent2" 8102 ["tool_1"; "tool_2"; "tool_1"]
    (fun t => if String.eqb t "tool_1" then "http://localhost:11001/mcp" else "")
    (fun _ => "")
    (fun _ _ => Ok tt)
    (fun _ => Raise (Exc "ConnectError" "All connection attempts failed"))
    (fun _ _ _ _ _ => Ok "")
    plain_repr.

(** A tool is configured when the agent names it and the registry gives
    it a URL. *)
Definition configured (self : Base.BaseAgent) (names : list string) (t : string) : bool :=
  existsb (String.eqb t) names && negb (String.eqb (Base.get_tool_url self t) "").

(** What a worker's task handler leaves behind: a task whose query
    cannot be read fails with one TASK_ERROR event; a task without query
    asks for input and leaves the process as it was; any other task is
    completed with the answer as its artifact, between a TASK_RECEIVED
    and a TASK_COMPLETED event. *)
Definition audit_trail (handle_task : Base.BaseAgent -> Task -> M Base.process Task)
    (self : Base.BaseAgent) (task : Task) (s : Base.process) : Prop :=
  exists task' s',
    handle_task self task s = (Ok task', s') /\
    match Base._extract_query self task with
    | Raise e =>
        state (task_status task') = FAILED /\
        Base.events s' = Base.events s ++ [task_error self e]
    | Ok query =>
        if truthy query then
          exists answer,
            task_status task' = mkTaskStatus COMPLETED None /\
            task_artifacts task' = text_artifacts (PyStr answer) /\
            Base.events s' =
              Base.events s ++ [task_received self query; task_completed self answer]
        else
          state (task_status task') = INPUT_REQUIRED /\ s' = s
    end.

(** What a worker answers once its tools are at hand: the content of
    the last message of the reasoning loop, or the text of the exception
    that the loop raised. *)
Definition loop_answer (r : result string) : string :=
  match r with
  | Ok content => content
  | Raise e => "Error processing query: " +:+ exn_str e
  end.

(** A worker whose backend lists one tool and whose loop breaks off *)
Definition ready_worker : Base.BaseAgent :=
  Base.mkAgent "WorkerAgent1" 8101 ["tool_1"]
    (fun _ => "http://localhost:11001/mcp") (fun _ => "")
    (fun _ _ => Ok tt)
    (fun _ => Ok ["execute_query"])
    (fun _ _ _ _ _ => Raise (Exc "GraphRecursionError" "Recursion limit of 25 reached"))
    plain_repr.

(** A request that carries the sample query *)
Definition sample_message : pyval :=
  PyDict [("content", PyDict [("text", sample_query)])].

Definition sample_task : Task :=
  mkTask "task-1" sample_message (mkTaskStatus PROCESSING None) [].

Definition sample_request : dict :=
  [("id", PyStr "task-1"); ("message", sample_message)].

(** A request whose text is a number *)
Definition number_message : pyval :=
  PyDict [("content", PyDict [("text", PyInt 7)])].

Definition number_task : Task :=
  mkTask "task-2" number_message (mkTaskStatus PROCESSING None) [].

Definition number_request : dict :=
  [("id", PyStr "task-2"); ("message", number_message)].

(** ** The configuration ([core/config.py]) *)

(** [k in v] for a string [k]: a key of a dict, an item of a list, a
    substring of a string; any other value is no container (the wording
    of the errors is CPython 3.12's). *)
Definition py_contains (v : pyval) (k : string) : result bool :=
  match v with
  | PyDict d => Ok (match dict_lookup k d with Some _ => true | None => false end)
  | PyList l =>
      Ok (existsb (fun x => match x with PyStr s => String.eqb s k | _ => false end) l)
  | PyStr s => Ok (str_in k s)
  | _ => Raise (Exc "TypeError"
                    ("argument of type '" +:+ type_name v +:+ "' is not iterable"))
  end.

(** [v[k]] for a string [k]; [KeyError] prints the key as [repr] does. *)
Definition py_getitem (repr : pyval -> string) (v : pyval) (k : string) : result pyval :=
  match v with
  | PyDict d =>
      match dict_lookup k d with
      | Some x => Ok x
      | None => Raise (Exc "KeyError" (repr (PyStr k)))
      end
  | PyList _ =>
      Raise (Exc "TypeError" "list indices must be integers or slices, not str")
  | PyStr _ => Raise (Exc "TypeError" "string indices must be integers, not 'str'")
  | _ => Raise (not_subscriptable v)
  end.

Module Config.

(** What the configuration object reads: the environment after
    [load_dotenv], and the registry file at each look at it (absent, or
    what [yaml.safe_load] gives or raises; the keys of its mappings are
    taken to be strings). *)
Record Config : Type := mkConfig {
  environ : gmap string string;
  registry_file : nat -> option (result pyval);
  repr : pyval -> string
}.

(** The cache of the registry, and the number of looks at the file *)
Record process : Type := mkProcess {
  _registry_cache : option pyval;
  looks : nat
}.

(** [os.getenv(key, default)] *)
Definition getenv (self : Config) (key default : string) : string :=
  match environ self !! key with Some v => v | None => default end.

Definition base_url (self : Config) : option string :=
  let url := strip (getenv self "BASE_URL" "") in
  if negb (String.eqb url "") then Some url else None.

Definition _load_registry (self : Config) : M process pyval :=
  cache <- gets _registry_cache ;;
  match cache with
  | Some registry => ret registry
  | None =>
      fun s =>
        match registry_file self (looks s) with
        | Some (Ok loaded) =>
            let registry := if truthy loaded then loaded else PyDict [] in
            (Ok registry, mkProcess (Some registry) (S (looks s)))
        | Some (Raise e) => (Raise e, mkProcess None (S (looks s)))
        | None => (Ok (PyDict []), mkProcess (Some (PyDict [])) (S (looks s)))
        end
  end.

Definition get_agent_registry (self : Config) : M process pyval :=
  registry <- _load_registry self ;;
  lift (py_get registry "agents" (PyDict [])).

Definition get_tool_registry (self : Config) : M process pyval :=
  registry <- _load_registry self ;;
  lift (py_get registry "tools" (PyDict [])).

Definition get_agent_url (self : Config) (agent_name : string) : M process string :=
  agents <- get_agent_registry self ;;
  known <- lift (py_contains agents agent_name) ;;
  if known then
    agent <- lift (py_getitem (repr self) agents agent_name) ;;
    host <- lift (py_get agent "host" (PyStr "localhost")) ;;
    port <- lift (py_get agent "port" (PyInt 8000)) ;;
    ret ("http://" +:+ py_str (repr self) host +:+ ":" +:+ py_str (repr self) port)
  else ret "".

Definition get_tool_url (self : Config) (tool_name : string) : M process string :=
  tools <- get_tool_registry self ;;
  known <- lift (py_contains tools tool_name) ;;
  if known then
    tool <- lift (py_getitem (repr self) tools tool_name) ;;
    host <- lift (py_get tool "host" (PyStr "localhost")) ;;
    port <- lift (py_get tool "port" (PyInt 11000)) ;;
    ret ("http://" +:+ py_str (repr self) host +:+ ":" +:+ py_str (repr self) port
         +:+ "/mcp")
  else ret "".

End Config.

(** A text is blank when it holds white space only. *)
Definition blank (s : string) : Prop := Forall (fun c => py_isspace c = true) (chars s).

(** A registry with one tool and one agent, the agent on the default
    host; and a configuration that finds no registry file at first and
    this registry later. *)
Definition sample_registry : dict :=
  [("agents", PyDict [("worker_1", PyDict [("port", PyInt 8101)])]);
   ("tools", PyDict [("tool_1", PyDict [("host", PyStr "localhost");
                                         ("port", PyInt 11001)])])].

Definition sample_config : Config.Config :=
  Config.mkConfig (<["BASE_URL" := "   "]> ∅)
    (fun n => match n with O => None | _ => Some (Ok (PyDict sample_registry)) end)
    plain_repr.

Definition loaded_config : Config.process :=
  Config.mkProcess (Some (PyDict sample_registry)) 1.

(** ** The validation tool ([tools/tool_2.py]) *)

(** Sequencing of steps that may raise *)
Definition and_then {A B} (r : result A) (f : A -> result B) : result B :=
  match r with Ok a => f a | Raise e => Raise e end.

Module Tool2.

(** The tool and what it reads: the path and the content of the rules
    file (absent, or what [json.load] gives or raises), and
    [evaluate_condition], which ends in Python's [eval] and is taken as
    a whole: the value it returns or the exception it lets out for a
    condition and a record.  The lines written to the logger are left
    out; the audit events are kept. *)
Record Tool2 : Type := mkTool2 {
  RULES_PATH : string;
  rules_file : option (result pyval);
  evaluate_condition : pyval -> pyval -> result pyval;
  repr : pyval -> string
}.

Record process : Type := mkProcess { events : list event }.

Definition log_event (source type : string) (data : pyval) : M process unit :=
  modify (fun s => mkProcess (events s ++ [mkEvent source type data])).

Definition load_rules (self : Tool2) : result pyval :=
  match rules_file self with
  | None =>
      Raise (Exc "FileNotFoundError" ("Rules file not found at " +:+ RULES_PATH self))
  | Some (Raise e) => Raise e
  | Some (Ok data) => py_get data "rules" (PyList [])
  end.

(** The loop of [validate_record] over the rules *)
Fixpoint check_rules (self : Tool2) (record : pyval) (rules : list pyval)
    (violations passed : list pyval) : result (list pyval * list pyval) :=
  match rules with
  | [] => Ok (violations, passed)
  | rule :: rest =>
      and_then (py_getitem (repr self) rule "condition") (fun condition =>
      and_then (evaluate_condition self condition record) (fun is_violated =>
      and_then (py_getitem (repr self) rule "id") (fun id =>
      and_then (py_getitem (repr self) rule "name") (fun name =>
      and_then (py_getitem (repr self) rule "severity") (fun severity =>
      and_then (py_getitem (repr self) rule "message") (fun message =>
      let result := PyDict [("rule_id", id); ("rule_name", name);
                            ("severity", severity); ("message", message)] in
      if truthy is_violated
      then check_rules self record rest (violations ++ [result]) passed
      else check_rules self record rest violations (passed ++ [result])))))))
  end.

Definition count (l : list pyval) : pyval := PyInt (Z.of_nat (length l)).

Definition validate_record (self : Tool2) (record : pyval) : M process pyval :=
  try_except
    (record_id <- lift (py_get record "contract_id" (PyStr "UNKNOWN")) ;;
     log_event "Tool2" "VALIDATION_CHECK" (PyDict [("record_id", record_id)]) ;;
     rules <- lift (and_then (load_rules self) py_iter) ;;
     sorted <- lift (check_rules self record rules [] []) ;;
     let '(violations, passed) := sorted in
     log_event "Tool2" "VALIDATION_RESULT"
       (PyDict [("record_id", record_id); ("violations", count violations);
                ("passed", count passed)]) ;;
     ret (PyDict
            [("success", PyBool true);
             ("record_id", record_id);
             ("is_valid", PyBool (length violations =? 0)%nat);
             ("violation_count", count violations);
             ("violations", PyList violations);
             ("passed_rules", PyList passed);
             ("summary",
              PyStr ("Record " +:+ py_str (repr self) record_id
                     +:+ " checked against " +:+ pretty (length rules) +:+ " rules: "
                     +:+ pretty (length violations) +:+ " violations, "
                     +:+ pretty (length passed) +:+ " passed"))]))
    (fun e =>
       log_event "Tool2" "VALIDATION_ERROR" (PyDict [("error", PyStr (exn_str e))]) ;;
       ret (PyDict [("success", PyBool false); ("error", PyStr (exn_str e))])).

(** [next((r for r in rules if r["id"] == rule_id), None)] *)
Fixpoint find_rule (self : Tool2) (rules : list pyval) (rule_id : string)
  : result pyval :=
  match rules with
  | [] => Ok PyNone
  | r :: rest =>
      and_then (py_getitem (repr self) r "id") (fun id =>
      match id with
      | PyStr s => if String.eqb s rule_id then Ok r else find_rule self rest rule_id
      | _ => find_rule self rest rule_id
      end)
  end.

Definition evaluate_rule (self : Tool2) (rule_id : string) (record : pyval) : pyval :=
  let body :=
    and_then (and_then (load_rules self) py_iter) (fun rules =>
    and_then (find_rule self rules rule_id) (fun rule =>
    if negb (truthy rule) then
      Ok (PyDict [("success", PyBool false);
                  ("error", PyStr ("Rule " +:+ rule_id +:+ " not found"))])
    else
      and_then (py_getitem (repr self) rule "condition") (fun condition =>
      and_then (evaluate_condition self condition record) (fun is_violated =>
      Ok (PyDict [("success", PyBool true); ("rule_id", PyStr rule_id);
                  ("is_violated", is_violated); ("rule_details", rule)]))))) in
  match body with
  | Ok reply => reply
  | Raise e => PyDict [("success", PyBool false); ("error", PyStr (exn_str e))]
  end.

End Tool2.

(** The entry that [validate_record] makes for a rule *)
Definition rule_result (id name severity message : pyval) : pyval :=
  PyDict [("rule_id", id); ("rule_name", name);
          ("severity", severity); ("message", message)].

(** A rule judged against a record: whether its condition holds, and
    the entry made for it *)
Definition judged (self : Tool2.Tool2) (record rule : pyval) (verdict : bool * pyval)
  : Prop :=
  exists condition is_violated id name severity message,
    py_getitem (Tool2.repr self) rule "condition" = Ok condition /\
    Tool2.evaluate_condition self condition record = Ok is_violated /\
    truthy is_violated = fst verdict /\
    py_getitem (Tool2.repr self) rule "id" = Ok id /\
    py_getitem (Tool2.repr self) rule "name" = Ok name /\
    py_getitem (Tool2.repr self) rule "severity" = Ok severity /\
    py_getitem (Tool2.repr self) rule "message" = Ok message /\
    snd verdict = rule_result id name severity message.

Definition violated (verdicts : list (bool * pyval)) : list pyval :=
  map snd (List.filter fst verdicts).

Definition kept (verdicts : list (bool * pyval)) : list pyval :=
  map snd (List.filter (fun v => negb (fst v)) verdicts).

(** The audit events of a validation *)
Definition validation_check (record_id : pyval) : event :=
  mkEvent "Tool2" "VALIDATION_CHECK" (PyDict [("record_id", record_id)]).

Definition validation_result (record_id : pyval) (violations passed : list pyval)
  : event :=
  mkEvent "Tool2" "VALIDATION_RESULT"
          (PyDict [("record_id", record_id); ("violations", Tool2.count violations);
                   ("passed", Tool2.count passed)]).

Definition validation_error (e : exn) : event :=
  mkEvent "Tool2" "VALIDATION_ERROR" (PyDict [("error", PyStr (exn_str e))]).

Definition failure (e : exn) : pyval :=
  PyDict [("success", PyBool false); ("error", PyStr (exn_str e))].

(** A rule of another id than the one asked for *)
Definition other_rule (self : Tool2.Tool2) (rule_id : string) (r : pyval) : Prop :=
  exists id, py_getitem (Tool2.repr self) r "id" = Ok id /\ id <> PyStr rule_id.

(** A rules file in which an id is used twice and the last entry is no
    rule at all; every condition counts as violated. *)
Definition rule (id condition : string) : pyval :=
  PyDict [("id", PyStr id); ("condition", PyStr condition)].

Definition sample_tool : Tool2.Tool2 :=
  Tool2.mkTool2 "data/compliance_rules.json"
    (Some (Ok (PyDict [("rules",
                        PyList [rule "R1" "liability_cap > 100";
                                rule "R2" "termination_notice_days < 30";
                                rule "R2" "auto_renewal";
                                PyInt 3])])))
    (fun _ _ => Ok (PyBool true)) plain_repr.

(** ** The manager and a worker together *)

(** The reply of the first sample worker, whose tool backend cannot be
    reached, and a manager whose first round trip brings this reply *)
Definition degraded_reply : pyval :=
  response (PyStr "") "completed" (PyStr "Error: Failed to initialize MCP tools").

Definition wired_manager : Manager.LegalManagerAgent :=
  scripted_manager [] [Ok (Manager.mkResponse 200 (Ok degraded_reply))] [].

(** A manager whose planner names a worker that does not exist *)
Definition stranger_reply : string :=
  "{" +:+ quoted "agents" +:+ ": [" +:+ quoted "contract_agent" +:+ "], "
      +:+ quoted "parallel" +:+ ": true}".

Definition misled_manager : Manager.LegalManagerAgent :=
  scripted_manager [Ok "SIMPLE"; Ok stranger_reply] [] [].

(* ================================================================== *)
(** * Part II: properties *)
(* ================================================================== *)

(** ** Text *)

Lemma text_chars (s : string) : text (chars s) = s.
Proof. apply string_of_list_ascii_of_string. Qed.

Lemma chars_text (l : list ascii) : chars (text l) = l.
Proof. apply list_ascii_of_string_of_list_ascii. Qed.

Lemma chars_app (a b : string) : chars (a +:+ b) = chars a ++ chars b.
Proof.
  induction a as [|c a IH]; [reflexivity|].
  change (chars (String c (a +:+ b)) = c :: (chars a ++ chars b)).
  unfold chars in *. simpl. now rewrite IH.
Qed.

Lemma text_app (l1 l2 : list ascii) : text (l1 ++ l2) = text l1 +:+ text l2.
Proof.
  rewrite <- (text_chars (text l1 +:+ text l2)), chars_app, !chars_text.
  reflexivity.
Qed.

Lemma chars_inj (a b : string) : chars a = chars b -> a = b.
Proof. intros H. rewrite <- (text_chars a), <- (text_chars b). now rewrite H. Qed.

Lemma starts_with_spec (p l : list ascii) :
  starts_with p l = true <-> exists post, l = p ++ post.
Proof.
  revert l. induction p as [|a p IH]; intros l; simpl.
  - split; [intros _; now exists l | reflexivity].
  - destruct l as [|b l].
    + split; [discriminate | intros [post H]; discriminate].
    + rewrite andb_true_iff, IH. split.
      * intros [Hab [post ->]]. apply Ascii.eqb_eq in Hab. subst. now exists post.
      * intros [post H]. injection H as -> ->. split; [apply Ascii.eqb_refl | now exists post].
Qed.

Lemma occurs_spec (p l : list ascii) :
  occurs p l = true <-> exists pre post, l = pre ++ p ++ post.
Proof.
  induction l as [|b l IH].
  - simpl. rewrite orb_false_r, starts_with_spec. split.
    + intros [post H]. now exists [], post.
    + intros [pre [post H]]. destruct pre; [now exists post | discriminate].
  - change (occurs p (b :: l)) with (starts_with p (b :: l) || occurs p l).
    rewrite orb_true_iff, starts_with_spec, IH. split.
    + intros [[post H] | [pre [post H]]].
      * now exists [], post.
      * exists (b :: pre), post. now rewrite H.
    + intros [pre [post H]]. destruct pre as [|c pre].
      * left. now exists post.
      * right. injection H as -> ->. now exists pre, post.
Qed.

Lemma isspace_upper (c : ascii) : py_isspace c = true -> upper_char c = c.
Proof. destruct c as [[] [] [] [] [] [] [] []]; vm_compute; congruence. Qed.

Lemma upper_keeps_text (c : ascii) :
  py_isspace (upper_char c) = false -> py_isspace c = false.
Proof.
  intros H. destruct (py_isspace c) eqn:E; [|reflexivity].
  rewrite (isspace_upper c E) in H. congruence.
Qed.

(** Stripping on the left drops a prefix of what comes before a run that
    starts with a character other than white space. *)
Lemma lstrip_keeps (pre : list ascii) (c : ascii) (m : list ascii) :
  py_isspace c = false ->
  exists w pre', pre = w ++ pre' /\
    lstrip_chars (pre ++ c :: m) = pre' ++ c :: m.
Proof.
  intros Hc. induction pre as [|a pre IH]; simpl.
  - exists [], []. now rewrite Hc.
  - destruct (py_isspace a) eqn:Ea.
    + destruct IH as (w & pre' & -> & IH). exists (a :: w), pre'. now split.
    + exists [], (a :: pre). now split.
Qed.

Lemma lstrip_suffix (l : list ascii) : exists w, l = w ++ lstrip_chars l.
Proof.
  induction l as [|a l [w IH]]; simpl.
  - now exists [].
  - destruct (py_isspace a).
    + exists (a :: w). simpl. now rewrite <- IH.
    + now exists [].
Qed.

Lemma strip_inside (l : list ascii) : exists w1 w2, l = w1 ++ strip_chars l ++ w2.
Proof.
  unfold strip_chars.
  destruct (lstrip_suffix l) as [w1 H1].
  destruct (lstrip_suffix (rev (lstrip_chars l))) as [w2 H2].
  exists w1, (rev w2).
  rewrite <- rev_app_distr, <- H2, rev_involutive. exact H1.
Qed.

(** Stripping keeps a run whose two ends are not white space, and only
    shortens what surrounds it. *)
Lemma strip_keeps (pre m post : list ascii) (a b : ascii) (m1 m2 : list ascii) :
  m = a :: m1 -> m = m2 ++ [b] ->
  py_isspace a = false -> py_isspace b = false ->
  exists w1 pre' post' w2, pre = w1 ++ pre' /\ post = post' ++ w2 /\
    strip_chars (pre ++ m ++ post) = pre' ++ m ++ post'.
Proof.
  intros Hm1 Hm2 Ha Hb. unfold strip_chars.
  destruct (lstrip_keeps pre a (m1 ++ post) Ha) as (w1 & pre' & Hpre & H1).
  assert (E1 : lstrip_chars (pre ++ m ++ post) = pre' ++ m ++ post).
  { rewrite Hm1. exact H1. }
  rewrite E1.
  assert (E2 : rev (pre' ++ m ++ post) = rev post ++ b :: (rev m2 ++ rev pre')).
  { rewrite Hm2, !rev_app_distr. simpl. now rewrite <- !app_assoc. }
  rewrite E2.
  destruct (lstrip_keeps (rev post) b (rev m2 ++ rev pre') Hb) as (w2 & post' & Hpost & H2).
  rewrite H2.
  exists w1, pre', (rev post'), (rev w2). split; [exact Hpre|]. split.
  - rewrite <- rev_app_distr, <- Hpost. now rewrite rev_involutive.
  - rewrite rev_app_distr. simpl. rewrite !rev_app_distr, !rev_involutive.
    rewrite Hm2. now rewrite <- !app_assoc.
Qed.

Lemma map_app_inv {A B} (f : A -> B) (l : list A) (x y z : list B) :
  map f l = x ++ y ++ z ->
  exists a b c, l = a ++ b ++ c /\ map f a = x /\ map f b = y /\ map f c = z.
Proof.
  intros H.
  apply map_eq_app in H as (a & r & -> & Ha & Hr).
  apply map_eq_app in Hr as (b & c & -> & Hb & Hc).
  now exists a, b, c.
Qed.

(** The classifier's test on the reply is a search for the word with
    letter case ignored. *)
Lemma complex_test (content : string) :
  str_in "COMPLEX" (upper (strip content)) = true <->
  contains_ignoring_case "COMPLEX" content.
Proof.
  unfold str_in, upper, strip, contains_ignoring_case.
  rewrite !chars_text, occurs_spec. split.
  - intros (x & z & H).
    apply map_app_inv in H as (a & b & c & Hs & _ & Hb & _).
    destruct (strip_inside (chars content)) as (w1 & w2 & Hc).
    exists (text (w1 ++ a)), (text b), (text (c ++ w2)). split.
    + apply chars_inj. rewrite !chars_app, !chars_text, Hc, Hs.
      now rewrite <- !app_assoc.
    + unfold upper at 1. rewrite chars_text, Hb. reflexivity.
  - intros (pre & mid & post & -> & Hm).
    assert (Hmid : map upper_char (chars mid) = chars "COMPLEX").
    { apply (f_equal chars) in Hm. unfold upper in Hm.
      rewrite !chars_text in Hm. exact Hm. }
    rewrite !chars_app.
    destruct (chars mid) as [|c1 [|c2 [|c3 [|c4 [|c5 [|c6 [|c7 [|c8 m]]]]]]]] eqn:E;
      try discriminate Hmid.
    injection Hmid as H1 H2 H3 H4 H5 H6 H7.
    assert (S1 : py_isspace c1 = false) by (apply upper_keeps_text; now rewrite H1).
    assert (S7 : py_isspace c7 = false) by (apply upper_keeps_text; now rewrite H7).
    destruct (strip_keeps (chars pre) [c1; c2; c3; c4; c5; c6; c7] (chars post)
                c1 c7 [c2; c3; c4; c5; c6; c7] [c1; c2; c3; c4; c5; c6]
                eq_refl eq_refl S1 S7)
      as (w1 & pre' & post' & w2 & _ & _ & Hs).
    rewrite Hs. exists (map upper_char pre'), (map upper_char post').
    rewrite !map_app. simpl. now rewrite H1, H2, H3, H4, H5, H6, H7.
Qed.

(** ** Runs of the decoder and of the search *)

Example loads_empty_object : json_loads "{}" = Ok (PyDict []).
Proof. reflexivity. Qed.

Example loads_first_object : json_loads first_object = Ok first_plan.
Proof. vm_compute. reflexivity. Qed.

Example loads_repeated_key :
  json_loads ("{" +:+ quoted "a" +:+ ": 1, " +:+ quoted "b" +:+ ": [true, null, -2.50e3], "
              +:+ quoted "a" +:+ ": " +:+ quoted "x\ty" +:+ " }")
  = Ok (PyDict [("a", PyStr (String "x" (String "009" "y")));
                ("b", PyList [PyBool true; PyNone; PyFloat (FDec true 250 1)])]).
Proof. vm_compute. reflexivity. Qed.

Example loads_trailing_comma : is_ok (json_loads "[1, 2,]") = false.
Proof. vm_compute. reflexivity. Qed.

Example loads_extra_data : is_ok (json_loads two_objects) = false.
Proof. vm_compute. reflexivity. Qed.

Example loads_leading_zero : is_ok (json_loads "01") = false.
Proof. vm_compute. reflexivity. Qed.

Example search_is_greedy : search_braces "so {a} and {b}} then" = Some "{a} and {b}}".
Proof. reflexivity. Qed.

Example search_needs_order : search_braces "} then {" = None.
Proof. reflexivity. Qed.

Example strip_both_ends : strip "  SIMPLE
 " = "SIMPLE".
Proof. reflexivity. Qed.

Example tiny_float_is_zero :
  truthy (PyFloat (FDec false 1 (-400))) = false /\
  truthy (PyFloat (FDec false 1 (-300))) = true.
Proof. split; vm_compute; reflexivity. Qed.

(** ** Coroutines *)

Lemma bind_ok {S A B} (m : M S A) (f : A -> M S B) (s s' : S) (a : A) :
  m s = (Ok a, s') -> bind m f s = f a s'.
Proof. intros H. unfold bind. now rewrite H. Qed.

Lemma bind_raise {S A B} (m : M S A) (f : A -> M S B) (s s' : S) (e : exn) :
  m s = (Raise e, s') -> bind m f s = (Raise e, s').
Proof. intros H. unfold bind. now rewrite H. Qed.

(** ** The classifier *)

(** C8.  The classifier never raises and answers SIMPLE or COMPLEX; the
    answer is COMPLEX exactly when the language model replied and its
    reply holds the word COMPLEX, letter case ignored; any other reply,
    and any failure of the language model, gives SIMPLE. *)
Theorem classify_complex_iff (self : Manager.LegalManagerAgent) (query : pyval)
    (s : Manager.process) :
  exists c s',
    Manager._classify_complexity self query s = (Ok c, s') /\
    (c = Manager.SIMPLE \/ c = Manager.COMPLEX) /\
    (c = Manager.COMPLEX <->
     exists content,
       Manager.llm_reply self (length (Manager.llm_calls s)) 100
         (Manager.classify_prompt (py_str (Manager.repr self) query)) = Ok content /\
       contains_ignoring_case "COMPLEX" content) /\
    (c = Manager.SIMPLE <->
     ~ exists content,
       Manager.llm_reply self (length (Manager.llm_calls s)) 100
         (Manager.classify_prompt (py_str (Manager.repr self) query)) = Ok content /\
       contains_ignoring_case "COMPLEX" content).
Proof.
  unfold Manager._classify_complexity, try_except, bind, Manager.ainvoke,
    Manager._create_llm. simpl.
  destruct (Manager.llm_reply self _ 100 _) as [content|e] eqn:R.
  - destruct (str_in "COMPLEX" (upper (strip content))) eqn:T.
    + eexists _, _. split; [reflexivity|]. split; [now right|].
      assert (W : exists c0, Ok content = Ok c0 /\ contains_ignoring_case "COMPLEX" c0)
        by (exists content; split; [reflexivity | now apply complex_test]).
      split; [split; [intros _; exact W | reflexivity]|].
      split; [discriminate | intros N; now destruct (N W)].
    + eexists _, _. split; [reflexivity|]. split; [now left|].
      assert (W : ~ exists c0, Ok content = Ok c0 /\ contains_ignoring_case "COMPLEX" c0).
      { intros (c0 & [= <-] & H). apply complex_test in H. congruence. }
      split; [split; [discriminate | intros H; now destruct (W H)]|].
      split; [intros _; exact W | reflexivity].
  - eexists _, _. split; [reflexivity|]. split; [now left|].
    assert (W : ~ exists c0, @Raise string e = Ok c0 /\ contains_ignoring_case "COMPLEX" c0)
      by (intros (c0 & H & _); discriminate).
    split; [split; [discriminate | intros H; now destruct (W H)]|].
    split; [intros _; exact W | reflexivity].
Qed.

(** ** The planner *)

Lemma skip_to_first (c : ascii) (pre r : list ascii) :
  ~ In c pre -> skip_to c (pre ++ c :: r) = Some (c :: r).
Proof.
  induction pre as [|a pre IH]; simpl; intros H.
  - now rewrite Ascii.eqb_refl.
  - destruct (Ascii.eqb a c) eqn:E.
    + apply Ascii.eqb_eq in E. tauto.
    + apply IH. tauto.
Qed.

Lemma up_to_last_none (c : ascii) (l : list ascii) :
  ~ In c l -> up_to_last c l = None.
Proof.
  induction l as [|a l IH]; simpl; intros H; [reflexivity|].
  rewrite IH by tauto.
  destruct (Ascii.eqb a c) eqn:E; [|reflexivity].
  apply Ascii.eqb_eq in E. tauto.
Qed.

Lemma up_to_last_last (c : ascii) (body post : list ascii) :
  ~ In c post -> up_to_last c (body ++ c :: post) = Some (body ++ [c]).
Proof.
  intros H. induction body as [|a body IH]; simpl.
  - now rewrite (up_to_last_none c post H), Ascii.eqb_refl.
  - now rewrite IH.
Qed.

Lemma not_in_app_r {A} (x : A) (l1 l2 : list A) : ~ In x (l1 ++ l2) -> ~ In x l2.
Proof. rewrite in_app_iff. tauto. Qed.

Lemma not_in_app_l {A} (x : A) (l1 l2 : list A) : ~ In x (l1 ++ l2) -> ~ In x l1.
Proof. rewrite in_app_iff. tauto. Qed.

(** The search finds the span from the first opening brace to the last
    closing brace. *)
Lemma search_braces_span (pre body post : string) :
  ~ In "{"%char (chars pre) -> ~ In "}"%char (chars post) ->
  search_braces (pre +:+ "{" +:+ body +:+ "}" +:+ post)
  = Some ("{" +:+ body +:+ "}").
Proof.
  intros Hpre Hpost. unfold search_braces.
  rewrite chars_app, chars_app.
  change (chars "{") with ["{"%char]. simpl.
  rewrite (skip_to_first _ _ _ Hpre).
  rewrite chars_app, chars_app. change (chars "}") with ["}"%char]. simpl.
  rewrite (up_to_last_last _ _ _ Hpost). f_equal.
  apply chars_inj. rewrite chars_app, chars_app.
  change (text ("{"%char :: chars body ++ ["}"%char]))
    with (String "{"%char (text (chars body ++ ["}"%char]))).
  change (chars "{") with ["{"%char]. change (chars "}") with ["}"%char].
  change (chars (String "{"%char ?x)) with ("{"%char :: chars x).
  now rewrite chars_text.
Qed.

(** Stripping the reply first does not move the span. *)
Lemma search_braces_strip (pre body post : string) :
  ~ In "{"%char (chars pre) -> ~ In "}"%char (chars post) ->
  search_braces (strip (pre +:+ "{" +:+ body +:+ "}" +:+ post))
  = Some ("{" +:+ body +:+ "}").
Proof.
  intros Hpre Hpost. unfold strip.
  rewrite chars_app.
  assert (E : chars ("{" +:+ body +:+ "}" +:+ post)
              = ("{"%char :: chars body ++ ["}"%char]) ++ chars post).
  { rewrite !chars_app. change (chars "{") with ["{"%char].
    change (chars "}") with ["}"%char]. simpl. now rewrite <- app_assoc. }
  rewrite E.
  destruct (strip_keeps (chars pre) ("{"%char :: chars body ++ ["}"%char]) (chars post)
              "{"%char "}"%char (chars body ++ ["}"%char]) ("{"%char :: chars body)
              eq_refl eq_refl eq_refl eq_refl)
    as (w1 & pre' & post' & w2 & Hp & Hq & Hs).
  rewrite Hs.
  assert (T : text (pre' ++ ("{"%char :: chars body ++ ["}"%char]) ++ post')
              = text pre' +:+ "{" +:+ body +:+ "}" +:+ text post').
  { apply chars_inj. rewrite !chars_app, !chars_text.
    change (chars "{") with ["{"%char]. change (chars "}") with ["}"%char].
    simpl. now rewrite <- app_assoc. }
  rewrite T. apply search_braces_span; rewrite chars_text.
  - rewrite Hp in Hpre. exact (not_in_app_r _ _ _ Hpre).
  - rewrite Hq in Hpost. exact (not_in_app_l _ _ _ Hpost).
Qed.

Lemma scan_members_dict (fuel : nat) :
  forall l acc v r, scan_members fuel l acc = Some (v, r) -> exists d, v = PyDict d.
Proof.
  induction fuel as [|fuel IH]; intros l acc v r H; simpl in H; [discriminate|].
  repeat match type of H with
         | match ?x with _ => _ end = Some _ => destruct x eqn:?; try discriminate H
         | (if ?b then _ else _) = Some _ => destruct b eqn:?; try discriminate H
         end.
  - injection H as <- _. eauto.
  - eapply IH; eassumption.
Qed.

Lemma skip_to_head (c b : ascii) (l r : list ascii) :
  skip_to c l = Some (b :: r) -> b = c.
Proof.
  induction l as [|a l IH]; simpl; [discriminate|].
  destruct (Ascii.eqb a c) eqn:E; [|exact IH].
  intros [= -> _]. now apply Ascii.eqb_eq.
Qed.

Lemma search_braces_head (s g : string) :
  search_braces s = Some g -> exists r, chars g = "{"%char :: r.
Proof.
  unfold search_braces.
  destruct (skip_to "{"%char (chars s)) as [[|b rest]|] eqn:E; try discriminate.
  destruct (up_to_last "}"%char rest) as [body|]; [|discriminate].
  intros [= <-]. apply skip_to_head in E as ->.
  exists body. exact (chars_text ("{"%char :: body)).
Qed.

Lemma scan_value_object (fuel : nat) (r rest : list ascii) (v : pyval) :
  scan_value fuel ("{"%char :: r) = Some (v, rest) -> exists d, v = PyDict d.
Proof.
  destruct fuel as [|fuel]; simpl; [discriminate|].
  change (is_char "{"%char 34) with false. change (is_char "{"%char 123) with true.
  cbv iota.
  destruct (skip_ws r) as [|c' r'] eqn:E; [discriminate|].
  destruct (is_char c' 125).
  - intros [= <- _]. eauto.
  - apply scan_members_dict.
Qed.

(** A document that opens with a brace decodes to a dict or not at all. *)
Lemma loads_object (g : string) (r : list ascii) (v : pyval) :
  chars g = "{"%char :: r -> json_loads g = Ok v -> exists d, v = PyDict d.
Proof.
  intros Hg. unfold json_loads. rewrite Hg.
  change (skip_ws ("{"%char :: r)) with ("{"%char :: r).
  destruct (scan_value _ _) as [[v' r'']|] eqn:Es; [|discriminate].
  destruct (skip_ws r''); [|discriminate]. intros [= <-].
  eapply scan_value_object; eassumption.
Qed.

(** The two plans of last resort: one known worker, one after the other. *)
Lemma last_resort_plans :
  py_get Manager.default_plan "agents" (PyList []) = Ok (PyList [PyStr "worker_agent_1"]) /\
  py_get Manager.default_plan "parallel" (PyBool false) = Ok (PyBool false) /\
  py_get Manager.fallback_plan "agents" (PyList []) = Ok (PyList [PyStr "worker_agent_1"]) /\
  py_get Manager.fallback_plan "parallel" (PyBool false) = Ok (PyBool false).
Proof. repeat split. Qed.

(** What the planner returns, case by case. *)
Lemma plan_execution_run (self : Manager.LegalManagerAgent) (query : pyval)
    (s : Manager.process) :
  fst (Manager._plan_execution self query s) =
  match Manager.llm_reply self (length (Manager.llm_calls s)) 500
          (Manager.plan_prompt (py_str (Manager.repr self) query)) with
  | Raise _ => Ok Manager.fallback_plan
  | Ok content =>
      match search_braces (strip content) with
      | None => Ok Manager.default_plan
      | Some group =>
          match json_loads group with
          | Ok plan => Ok plan
          | Raise _ => Ok Manager.fallback_plan
          end
      end
  end.
Proof.
  unfold Manager._plan_execution, try_except, bind, Manager.ainvoke,
    Manager._create_llm, lift. simpl.
  destruct (Manager.llm_reply self _ 500 _) as [content|e]; [|reflexivity].
  destruct (search_braces (strip content)) as [group|]; [|reflexivity].
  destruct (json_loads group); reflexivity.
Qed.

(** C1 (amended).  The planner never raises and returns a dict.  When
    the language model fails, or its reply holds no span of braces, or
    the span does not decode, the plan is a plan of last resort: the one
    worker worker_agent_1, sequential.  When the span decodes, the plan is
    the decoded object, as it is. *)
Theorem plan_execution_cases (self : Manager.LegalManagerAgent) (query : pyval)
    (s : Manager.process) :
  exists plan s',
    Manager._plan_execution self query s = (Ok (PyDict plan), s') /\
    match Manager.llm_reply self (length (Manager.llm_calls s)) 500
            (Manager.plan_prompt (py_str (Manager.repr self) query)) with
    | Raise _ => PyDict plan = Manager.fallback_plan
    | Ok content =>
        match search_braces (strip content) with
        | None => PyDict plan = Manager.default_plan
        | Some group =>
            match json_loads group with
            | Ok decoded => PyDict plan = decoded
            | Raise _ => PyDict plan = Manager.fallback_plan
            end
        end
    end /\
    dict_get (members_of Manager.default_plan) "agents" (PyList []) = PyList [PyStr "worker_agent_1"] /\
    dict_get (members_of Manager.fallback_plan) "agents" (PyList []) = PyList [PyStr "worker_agent_1"] /\
    truthy (dict_get (members_of Manager.default_plan) "parallel" (PyBool false)) = false /\
    truthy (dict_get (members_of Manager.fallback_plan) "parallel" (PyBool false)) = false.
Proof.
  pose proof (plan_execution_run self query s) as R.
  destruct (Manager._plan_execution self query s) as [r s'] eqn:E. simpl in R.
  destruct (Manager.llm_reply self _ 500 _) as [content|e].
  - destruct (search_braces (strip content)) as [group|] eqn:G.
    + destruct (search_braces_head _ _ G) as [tl Hg].
      destruct (json_loads group) as [decoded|e] eqn:D.
      * destruct (loads_object _ _ _ Hg D) as [d ->].
        exists d, s'. subst r. repeat split.
      * eexists _, s'. subst r. repeat split.
    + eexists _, s'. subst r. repeat split.
  - eexists _, s'. subst r. repeat split.
Qed.

(** C1, as stated, fails: a reply that is the empty object is decoded and
    returned as the plan; it is not the default plan, its agent list is
    empty, and dispatching it calls no worker and yields no result. *)
Lemma plan_may_have_no_agents :
  fst (Manager._plan_execution (scripted_manager [Ok "{}"] [] []) sample_query fresh)
    = Ok (PyDict []) /\
  PyDict [] <> Manager.default_plan /\
  PyDict [] <> Manager.fallback_plan /\
  py_get (PyDict []) "agents" (PyList []) = Ok (PyList []) /\
  Manager._execute_plan (scripted_manager [Ok "{}"] [] []) sample_query (PyDict []) fresh
    = (Ok [], fresh).
Proof.
  split; [vm_compute; reflexivity|].
  split; [discriminate|]. split; [discriminate|].
  split; vm_compute; reflexivity.
Qed.

(** C7 (amended).  When the reply of the language model holds an opening
    brace with a closing brace after it, the planner takes the span from
    the first opening brace to the last closing brace and decodes that:
    the plan is the decoded value, or the plan of last resort when the
    span does not decode. *)
Theorem plan_from_widest_span (self : Manager.LegalManagerAgent) (query : pyval)
    (s : Manager.process) (content pre body post : string) :
  Manager.llm_reply self (length (Manager.llm_calls s)) 500
    (Manager.plan_prompt (py_str (Manager.repr self) query)) = Ok content ->
  content = pre +:+ "{" +:+ body +:+ "}" +:+ post ->
  ~ In "{"%char (chars pre) ->
  ~ In "}"%char (chars post) ->
  search_braces (strip content) = Some ("{" +:+ body +:+ "}") /\
  fst (Manager._plan_execution self query s) =
    match json_loads ("{" +:+ body +:+ "}") with
    | Ok plan => Ok plan
    | Raise _ => Ok Manager.fallback_plan
    end.
Proof.
  intros R -> Hpre Hpost.
  pose proof (search_braces_strip pre body post Hpre Hpost) as G.
  split; [exact G|].
  rewrite plan_execution_run, R, G. reflexivity.
Qed.

(** On the reply that holds two plans, the span runs over both, does not
    decode, and the plan is the plan of last resort. *)
Lemma plan_from_widest_span_two_objects :
  (scripted [Ok two_objects] 0 = Ok two_objects /\
   two_objects = "" +:+ "{" +:+ two_objects_inside +:+ "}" +:+ "" /\
   ~ In "{"%char (chars "") /\ ~ In "}"%char (chars "")) /\
  search_braces (strip two_objects) = Some ("{" +:+ two_objects_inside +:+ "}") /\
  fst (Manager._plan_execution (scripted_manager [Ok two_objects] [] []) sample_query fresh)
    = Ok Manager.fallback_plan.
Proof.
  split; [repeat split; intros []|].
  exact (plan_from_widest_span (scripted_manager [Ok two_objects] [] []) sample_query
           fresh two_objects "" two_objects_inside "" eq_refl eq_refl
           (fun H => H) (fun H => H)).
Defined.

(** C7, as stated, fails: the reply holds two objects, the first balanced
    one decodes to a plan, and the planner returns another plan. *)
Lemma plan_not_from_first_object :
  first_balanced_object two_objects = Some first_object /\
  json_loads first_object = Ok first_plan /\
  fst (Manager._plan_execution (scripted_manager [Ok two_objects] [] []) sample_query fresh)
    = Ok Manager.fallback_plan /\
  Manager.fallback_plan <> first_plan.
Proof.
  split; [vm_compute; reflexivity|].
  split; [vm_compute; reflexivity|].
  split; [vm_compute; reflexivity|].
  discriminate.
Qed.

(** ** Gathering *)

Section Gather.
Context {S A : Type}.
Variable tasks : list (M S A).
(** What the outcome of the awaitable at a position satisfies, from
    whatever state it runs, and a count that each run advances by one *)
Variable P : nat -> result A -> Prop.
Variable size : S -> nat.
Hypothesis task_outcome :
  forall i t s, tasks !! i = Some t -> P i (fst (t s)) /\ size (snd (t s)) = Datatypes.S (size s).

Lemma settled_insert (slots : list (option (result A))) (i : nat) (r : result A) :
  slots !! i = Some None ->
  settled (<[i := Some r]> slots) = Datatypes.S (settled slots).
Proof.
  unfold settled. revert i. induction slots as [|o slots IH]; intros i H.
  - discriminate.
  - destruct i as [|i].
    + simpl in H. injection H as ->. reflexivity.
    + simpl in H. specialize (IH i H).
      change (<[Datatypes.S i := Some r]> (o :: slots)) with (o :: <[i := Some r]> slots).
      destruct o as [r0|].
      * change (omap id (Some r0 :: <[i := Some r]> slots))
          with (r0 :: omap id (<[i := Some r]> slots)).
        change (omap id (Some r0 :: slots)) with (r0 :: omap id slots).
        simpl. f_equal. exact IH.
      * exact IH.
Qed.

Lemma complete_inv (s0 : S) (st : list (option (result A)) * S) (i : nat) :
  gather_inv tasks P size s0 st -> gather_inv tasks P size s0 (complete tasks st i).
Proof.
  intros (Hl & Hp & Hs). destruct st as [slots s]. unfold complete. simpl in *.
  destruct (tasks !! i) as [t|] eqn:Et; [|now repeat split].
  destruct (slots !! i) as [[r0|]|] eqn:Es; try now repeat split.
  destruct (t s) as [r s'] eqn:Er.
  destruct (task_outcome i t s Et) as [Hr Hz]. rewrite Er in Hr, Hz. simpl in Hr, Hz.
  repeat split; simpl.
  - now rewrite length_insert.
  - intros j r1 Hj. destruct (decide (i = j)) as [<-|Hne].
    + rewrite list_lookup_insert_eq in Hj by (eapply lookup_lt_Some; eassumption).
      now injection Hj as <-.
    + rewrite list_lookup_insert_ne in Hj by assumption. eauto.
  - rewrite settled_insert by assumption. lia.
Qed.

Lemma complete_keeps (st : list (option (result A)) * S) (i j : nat) (r : result A) :
  fst st !! j = Some (Some r) -> fst (complete tasks st i) !! j = Some (Some r).
Proof.
  destruct st as [slots s]. unfold complete. simpl. intros H.
  destruct (tasks !! i) as [t|]; [|assumption].
  destruct (slots !! i) as [[r0|]|] eqn:Es; try assumption.
  destruct (t s) as [r1 s']. simpl.
  destruct (decide (i = j)) as [<-|Hne]; [congruence|].
  now rewrite list_lookup_insert_ne.
Qed.

Lemma complete_settles (st : list (option (result A)) * S) (i : nat) :
  length (fst st) = length tasks -> i < length tasks ->
  exists r, fst (complete tasks st i) !! i = Some (Some r).
Proof.
  destruct st as [slots s]. unfold complete. cbn [fst snd]. intros Hl Hi.
  destruct (tasks !! i) as [t|] eqn:Et;
    [|apply lookup_ge_None in Et;
      exact (False_ind _ (Nat.lt_irrefl _ (Nat.lt_le_trans _ _ _ Hi Et)))].
  destruct (slots !! i) as [o|] eqn:Eo;
    [|apply lookup_ge_None in Eo; lia].
  destruct o as [r0|]; [now exists r0|].
  destruct (t s) as [r1 s']. simpl. exists r1.
  apply list_lookup_insert_eq. eapply lookup_lt_Some; eassumption.
Qed.

Lemma fold_complete_inv (s0 : S) (l : list nat) (st : list (option (result A)) * S) :
  gather_inv tasks P size s0 st -> gather_inv tasks P size s0 (fold_left (complete tasks) l st).
Proof.
  revert st. induction l as [|i l IH]; intros st H; simpl; [assumption|].
  apply IH. now apply complete_inv.
Qed.

Lemma fold_complete_keeps (l : list nat) (st : list (option (result A)) * S) (j : nat) (r : result A) :
  fst st !! j = Some (Some r) ->
  fst (fold_left (complete tasks) l st) !! j = Some (Some r).
Proof.
  revert st. induction l as [|i l IH]; intros st H; simpl; [assumption|].
  apply IH. now apply complete_keeps.
Qed.

Lemma fold_complete_settles (s0 : S) (l : list nat) (st : list (option (result A)) * S) (i : nat) :
  gather_inv tasks P size s0 st -> In i l -> i < length tasks ->
  exists r, fst (fold_left (complete tasks) l st) !! i = Some (Some r).
Proof.
  revert st. induction l as [|j l IH]; intros st Hinv Hin Hi; [destruct Hin|].
  simpl. destruct Hin as [->|Hin].
  - destruct (complete_settles st i (proj1 Hinv) Hi) as [r Hr].
    exists r. now apply fold_complete_keeps.
  - apply IH; [now apply complete_inv | assumption | assumption].
Qed.

Lemma all_settled (slots : list (option (result A))) :
  (forall i, i < length slots -> exists r, slots !! i = Some (Some r)) ->
  slots = map Some (omap id slots).
Proof.
  induction slots as [|o slots IH]; intros H; [reflexivity|].
  destruct (H 0) as [r Hr]; [simpl; lia|]. simpl in Hr. injection Hr as ->.
  simpl. f_equal. apply IH. intros i Hi.
  apply (H (Datatypes.S i)). simpl. lia.
Qed.

(** The gathered list has one outcome for each awaitable, at the
    position of that awaitable, whatever the order of completion, and
    every awaitable has run once. *)
Lemma gather_by_position (order : list nat) (s : S) :
  exists rs s',
    gather order tasks s = (Ok rs, s') /\
    length rs = length tasks /\
    (forall i r, rs !! i = Some r -> P i r) /\
    size s' = size s + length tasks.
Proof.
  unfold gather.
  set (st0 := (replicate (length tasks) None, s) : list (option (result A)) * S).
  assert (H0 : gather_inv tasks P size s st0).
  { repeat split; simpl.
    - apply length_replicate.
    - intros i r Hi. apply lookup_replicate in Hi as [Hi _]. discriminate.
    - unfold settled.
      assert (E : forall n, omap id (replicate n (@None (result A))) = []).
      { induction n as [|n IHn]; [reflexivity | exact IHn]. }
      rewrite E. simpl. lia. }
  pose proof (fold_complete_inv s (order ++ seq 0 (length tasks)) st0 H0) as Hinv.
  assert (Hall : forall i, i < length tasks ->
            exists r, fst (fold_left (complete tasks) (order ++ seq 0 (length tasks)) st0) !! i
                      = Some (Some r)).
  { intros i Hi. apply (fold_complete_settles s); [assumption| |assumption].
    apply in_or_app. right. apply in_seq. lia. }
  destruct (fold_left (complete tasks) (order ++ seq 0 (length tasks)) st0) as [slots s'].
  destruct Hinv as (Hl & Hp & Hs). simpl in *.
  assert (Hm : slots = map Some (omap id slots)).
  { apply all_settled. intros i Hi. apply Hall. lia. }
  exists (omap id slots), s'. split; [reflexivity|].
  assert (Hlen : length (omap id slots) = length tasks).
  { rewrite <- Hl. rewrite Hm at 2. now rewrite length_map. }
  split; [exact Hlen|]. split.
  - intros i r Hi. apply Hp. rewrite Hm. rewrite list_lookup_fmap_Some.
    exists r. split; [reflexivity | exact Hi].
  - unfold settled in Hs. lia.
Qed.
End Gather.

(** ** The dispatcher *)

Lemma call_worker_run (self : Manager.LegalManagerAgent) (agent_url : string)
    (query : pyval) (timeout : Z) (s : Manager.process) :
  exists entry,
    Manager._call_worker self agent_url query timeout s =
      (Ok entry,
       Manager.mkProcess (Manager.llm_calls s)
         (Manager.http_calls s ++ [(agent_url +:+ "/task", Manager.task_payload query)])
         (Manager.events s) (Manager.logged s)) /\
    entry_of agent_url
      (Manager.worker_reply self (length (Manager.http_calls s))
         (agent_url +:+ "/task") (Manager.task_payload query) timeout)
      entry.
Proof.
  unfold Manager._call_worker, try_except, bind, Manager.post, lift, ret.
  destruct (Manager.worker_reply self _ _ _ timeout) as [resp|e] eqn:R.
  - destruct (Manager.status resp =? 200)%Z eqn:St.
    + apply Z.eqb_eq in St.
      destruct (Manager.json resp) as [body|e] eqn:J.
      * eexists. split; [reflexivity|]. now apply entry_success.
      * exists (Manager.call_failed (reason e) agent_url). split.
        -- unfold reason. now destruct (is_timeout e).
        -- now apply entry_bad_body.
    + apply Z.eqb_neq in St.
      eexists. split; [reflexivity|]. now apply entry_bad_status.
  - exists (Manager.call_failed (reason e) agent_url). split.
    + unfold reason. now destruct (is_timeout e).
    + apply entry_raised.
Qed.

Lemma resolve_all_names (self : Manager.LegalManagerAgent) (names : list string) :
  Manager.resolve_all self (map PyStr names) = Ok (resolved self names).
Proof.
  induction names as [|a names IH]; [reflexivity|].
  simpl. rewrite IH. unfold resolved. simpl.
  now destruct (Manager.agent_map self !! a).
Qed.

Lemma call_in_turn_names (self : Manager.LegalManagerAgent) (query : pyval)
    (names : list string) :
  forall (acc : list pyval) (s : Manager.process),
  exists results s',
    Manager.call_in_turn self query (map PyStr names) acc s = (Ok (acc ++ results), s') /\
    Forall2 (answers_for self query) (resolved self names) results /\
    length (Manager.http_calls s') =
      length (Manager.http_calls s) + length (resolved self names).
Proof.
  induction names as [|a names IH]; intros acc s.
  - exists [], s. rewrite app_nil_r. repeat split; [constructor | simpl; lia].
  - simpl. unfold resolved. simpl. fold (resolved self names).
    unfold bind at 1, lift.
    destruct (Manager.agent_map self !! a) as [url|].
    + destruct (call_worker_run self url query 60 s) as (entry & Hrun & Hent).
      unfold bind at 1. rewrite Hrun.
      destruct (IH (acc ++ [entry])
                  (Manager.mkProcess (Manager.llm_calls s)
                     (Manager.http_calls s ++ [(url +:+ "/task", Manager.task_payload query)])
                     (Manager.events s) (Manager.logged s)))
        as (results & s' & Hrest & Hall & Hlen).
      exists (entry :: results), s'. split; [|split].
      * rewrite Hrest. now rewrite <- app_assoc.
      * constructor; [now exists (length (Manager.http_calls s)) | exact Hall].
      * rewrite Hlen. simpl. rewrite length_app. simpl. lia.
    + destruct (IH acc s) as (results & s' & Hrest & Hall & Hlen).
      now exists results, s'.
Qed.

Lemma gather_calls (self : Manager.LegalManagerAgent) (query : pyval)
    (urls : list string) (s : Manager.process) :
  exists results s',
    gather (Manager.completion_order self)
      (map (fun url => Manager._call_worker self url query 60) urls) s
      = (Ok results, s') /\
    Forall2 (answers_for self query) urls (map Manager.exception_entry results) /\
    length (Manager.http_calls s') = length (Manager.http_calls s) + length urls.
Proof.
  set (tasks := map (fun url => Manager._call_worker self url query 60) urls).
  set (P := fun (i : nat) (r : result pyval) =>
              exists url entry, urls !! i = Some url /\ r = Ok entry /\
                                answers_for self query url entry).
  assert (Hto : forall i t s0, tasks !! i = Some t ->
            P i (fst (t s0)) /\
            length (Manager.http_calls (snd (t s0))) = S (length (Manager.http_calls s0))).
  { intros i t s0 Hi. subst tasks. rewrite list_lookup_fmap in Hi.
    destruct (urls !! i) as [url|] eqn:Eu; [|discriminate]. injection Hi as <-.
    destruct (call_worker_run self url query 60 s0) as (entry & Hrun & Hent).
    rewrite Hrun. simpl. split.
    - exists url, entry. split; [exact Eu|]. split; [reflexivity|].
      now exists (length (Manager.http_calls s0)).
    - rewrite length_app. simpl. lia. }
  destruct (gather_by_position tasks P (fun s => length (Manager.http_calls s)) Hto
              (Manager.completion_order self) s)
    as (rs & s' & Hg & Hlen & Hp & Hsize).
  exists rs, s'. split; [exact Hg|]. split.
  - apply Forall2_same_length_lookup_2.
    + rewrite length_map, Hlen. subst tasks. now rewrite length_map.
    + intros i url entry Hu He. rewrite list_lookup_fmap in He.
      destruct (rs !! i) as [r|] eqn:Er; [|discriminate]. injection He as <-.
      destruct (Hp i r Er) as (url' & entry' & Hu' & -> & Ha).
      rewrite Hu in Hu'. injection Hu' as <-. exact Ha.
  - rewrite Hsize. subst tasks. now rewrite length_map.
Qed.

(** The dispatcher on a plan whose agents are names: one entry for each
    name the registry knows, in plan order, and one round trip for each,
    in either mode. *)
Lemma dispatch_entries (self : Manager.LegalManagerAgent) (query : pyval)
    (plan : dict) (names : list string) (s : Manager.process) :
  dict_get plan "agents" (PyList []) = PyList (map PyStr names) ->
  exists results s',
    Manager._execute_plan self query (PyDict plan) s = (Ok results, s') /\
    Forall2 (answers_for self query) (resolved self names) results /\
    length (Manager.http_calls s') =
      length (Manager.http_calls s) + length (resolved self names).
Proof.
  intros Hagents. unfold Manager._execute_plan, py_get. rewrite Hagents.
  unfold bind at 1, lift. unfold bind at 1.
  destruct (truthy (dict_get plan "parallel" (PyBool false))).
  - unfold bind at 1, lift, py_iter. unfold bind at 1.
    rewrite resolve_all_names.
    destruct (gather_calls self query (resolved self names) s)
      as (rs & s' & Hg & Hall & Hlen).
    unfold bind. rewrite Hg. exists (map Manager.exception_entry rs), s'.
    now repeat split.
  - unfold bind at 1, lift, py_iter.
    destruct (call_in_turn_names self query names [] s)
      as (results & s' & Hrun & Hall & Hlen).
    exists results, s'. now repeat split.
Qed.

Lemma resolved_length (self : Manager.LegalManagerAgent) (names : list string) :
  length (resolved self names) = length (List.filter (known self) names).
Proof.
  unfold resolved, known. induction names as [|a names IH]; [reflexivity|].
  change (omap (fun a0 => Manager.agent_map self !! a0) (a :: names))
    with (match Manager.agent_map self !! a with
          | Some u => u :: omap (fun a0 => Manager.agent_map self !! a0) names
          | None => omap (fun a0 => Manager.agent_map self !! a0) names
          end).
  cbn [List.filter].
  destruct (Manager.agent_map self !! a) as [url|]; cbn [length]; now rewrite IH.
Qed.

Lemma entry_of_url (agent_url : string) (reply : result Manager.http_response)
    (entry : pyval) :
  entry_of agent_url reply entry ->
  dict_get (members_of entry) "agent_url" PyNone = PyStr agent_url.
Proof. intros H. destruct H; reflexivity. Qed.

(** An entry reports success exactly when the round trip gave status 200
    and a body that decodes; otherwise it reports failure and a reason. *)
Lemma entry_of_success (agent_url : string) (reply : result Manager.http_response)
    (entry : pyval) :
  entry_of agent_url reply entry ->
  (dict_get (members_of entry) "success" PyNone = PyBool true <->
   exists resp body,
     reply = Ok resp /\ Manager.status resp = 200%Z /\ Manager.json resp = Ok body) /\
  (dict_get (members_of entry) "success" PyNone = PyBool false <->
   exists why, dict_get (members_of entry) "error" PyNone = PyStr why).
Proof.
  intros H. destruct H as [resp body Hs Hj|resp e Hs Hj|resp Hs|e]; simpl.
  - split; split; try discriminate.
    + intros _. now exists resp, body.
    + reflexivity.
    + intros [why Hw]. discriminate.
  - split; split; try discriminate; try reflexivity.
    + intros (resp' & body & [= <-] & _ & Hj'). congruence.
    + intros _. now eexists.
  - split; split; try discriminate; try reflexivity.
    + intros (resp' & body & [= <-] & Hs' & _). congruence.
    + intros _. now eexists.
  - split; split; try discriminate; try reflexivity.
    + intros (resp' & body & Hr & _). discriminate.
    + intros _. now eexists.
Qed.

(** C3.  On a plan whose agents are names, in parallel mode and in
    sequential mode alike, the dispatcher returns as many entries as the
    plan has names known to the registry (the others are dropped, without
    error), and the entries stand in plan order: the i-th entry answers
    for the i-th known name, whatever the order of completion. *)
Theorem dispatch_length_and_order (self : Manager.LegalManagerAgent) (query : pyval)
    (plan : dict) (names : list string) (s : Manager.process) :
  dict_get plan "agents" (PyList []) = PyList (map PyStr names) ->
  exists results s',
    Manager._execute_plan self query (PyDict plan) s = (Ok results, s') /\
    length results = length (List.filter (known self) names) /\
    Forall2 (fun agent_url entry =>
               dict_get (members_of entry) "agent_url" PyNone = PyStr agent_url /\
               answers_for self query agent_url entry)
            (omap (fun a => Manager.agent_map self !! a) names) results.
Proof.
  intros Hagents.
  destruct (dispatch_entries self query plan names s Hagents)
    as (results & s' & Hrun & Hall & _).
  exists results, s'. split; [exact Hrun|]. split.
  - rewrite <- resolved_length. symmetry. exact (Forall2_length _ _ _ Hall).
  - eapply Forall2_impl; [exact Hall|].
    intros url entry Ha. split; [|exact Ha].
    destruct Ha as [n Hn]. exact (entry_of_url _ _ _ Hn).
Qed.

(** The sample plan in parallel: two entries for three names, the first
    for worker_agent_2 and the second for the alias of worker 1, although
    the second call completed first. *)
Lemma dispatch_length_and_order_sample :
  dict_get sample_plan "agents" (PyList []) = PyList (map PyStr sample_names) /\
  exists results s',
    Manager._execute_plan sample_manager sample_query (PyDict sample_plan) fresh
      = (Ok results, s') /\
    length results = 2 /\
    Forall2 (fun agent_url entry =>
               dict_get (members_of entry) "agent_url" PyNone = PyStr agent_url /\
               answers_for sample_manager sample_query agent_url entry)
            ["http://localhost:8102"; "http://localhost:8101"] results.
Proof.
  split; [reflexivity|].
  exact (dispatch_length_and_order sample_manager sample_query sample_plan
           sample_names fresh eq_refl).
Defined.

(** C4.  A worker call never raises: it returns an entry, which reports
    success exactly when the round trip gave status 200 and a body that
    decodes, and otherwise (time-out, transport error, other status, body
    that does not decode) reports failure with a reason.  And on a plan
    whose agents are names, the dispatcher makes one round trip for every
    known name and holds one entry for each, in either mode, whatever the
    outcomes of the other calls. *)
Theorem worker_calls_isolated (self : Manager.LegalManagerAgent) (query : pyval) :
  (forall (agent_url : string) (timeout : Z) (s : Manager.process),
     exists entry s',
       Manager._call_worker self agent_url query timeout s = (Ok entry, s') /\
       entry_of agent_url
         (Manager.worker_reply self (length (Manager.http_calls s))
            (agent_url +:+ "/task") (Manager.task_payload query) timeout) entry /\
       (dict_get (members_of entry) "success" PyNone = PyBool true <->
        exists resp body,
          Manager.worker_reply self (length (Manager.http_calls s))
            (agent_url +:+ "/task") (Manager.task_payload query) timeout = Ok resp /\
          Manager.status resp = 200%Z /\ Manager.json resp = Ok body) /\
       (dict_get (members_of entry) "success" PyNone = PyBool false <->
        exists why, dict_get (members_of entry) "error" PyNone = PyStr why) /\
       (dict_get (members_of entry) "success" PyNone = PyBool true \/
        dict_get (members_of entry) "success" PyNone = PyBool false)) /\
  (forall (plan : dict) (names : list string) (s : Manager.process),
     dict_get plan "agents" (PyList []) = PyList (map PyStr names) ->
     exists results s',
       Manager._execute_plan self query (PyDict plan) s = (Ok results, s') /\
       Forall2 (answers_for self query)
               (omap (fun a => Manager.agent_map self !! a) names) results /\
       length (Manager.http_calls s') =
         length (Manager.http_calls s) + length (List.filter (known self) names)).
Proof.
  split.
  - intros agent_url timeout s.
    destruct (call_worker_run self agent_url query timeout s) as (entry & Hrun & Hent).
    eexists entry, _. split; [exact Hrun|]. split; [exact Hent|].
    destruct (entry_of_success _ _ _ Hent) as [Hs Hf]. split; [exact Hs|].
    split; [exact Hf|].
    destruct Hent; simpl; auto.
  - intros plan names s Hagents.
    destruct (dispatch_entries self query plan names s Hagents)
      as (results & s' & Hrun & Hall & Hlen).
    exists results, s'. split; [exact Hrun|]. split; [exact Hall|].
    now rewrite <- resolved_length.
Qed.

(** The sample plan: the call that timed out is held as a failure, the
    other call was made all the same and is held as a success. *)
Lemma worker_calls_isolated_sample :
  dict_get sample_plan "agents" (PyList []) = PyList (map PyStr sample_names) /\
  exists results s',
    Manager._execute_plan sample_manager sample_query (PyDict sample_plan) fresh
      = (Ok results, s') /\
    Forall2 (answers_for sample_manager sample_query)
            ["http://localhost:8102"; "http://localhost:8101"] results /\
    length (Manager.http_calls s') = 2.
Proof.
  split; [reflexivity|].
  exact (proj2 (worker_calls_isolated sample_manager sample_query)
           sample_plan sample_names fresh eq_refl).
Defined.

(** ** The synthesizer *)

Lemma collect_texts_no_success (self : Manager.LegalManagerAgent)
    (results : list pyval) :
  Forall (fun r => no_success r = true) results ->
  forall i acc, Manager.collect_texts self i results acc = Ok acc.
Proof.
  induction 1 as [|r results Hr _ IH]; intros i acc; [reflexivity|].
  unfold no_success in Hr. apply andb_true_iff in Hr as [Hd Hs].
  destruct r; try discriminate Hd. simpl in Hs. apply negb_true_iff in Hs.
  simpl. rewrite Hs. apply IH.
Qed.

Lemma synthesize_run (self : Manager.LegalManagerAgent) (query : pyval)
    (results : list pyval) (s : Manager.process) :
  fst (Manager._synthesize_results self query results s) =
  Ok match Manager.collect_texts self 0 results [] with
     | Raise e => "Synthesis error: " +:+ exn_str e
     | Ok [] => Manager.no_results
     | Ok (t :: ts) =>
         match Manager.llm_reply self (length (Manager.llm_calls s)) 2000
                 (Manager.synthesis_prompt (py_str (Manager.repr self) query) (t :: ts)) with
         | Ok content => strip content
         | Raise e => "Synthesis error: " +:+ exn_str e
         end
     end.
Proof.
  unfold Manager._synthesize_results, try_except, bind, lift, Manager.ainvoke,
    Manager._create_llm, ret.
  destruct (Manager.collect_texts self 0 results []) as [[|t ts]|e]; try reflexivity.
  cbn [Manager.max_tokens].
  destruct (Manager.llm_reply self _ 2000 _); reflexivity.
Qed.

(** C6.  On results none of which reports success, the synthesizer
    returns the fixed text and leaves the process as it was: it makes no
    call to the language model.  On every input it returns a text and
    never raises: an error met while reading the results, and a failure
    of the language model, come back as a text that starts with
    "Synthesis error: ". *)
Theorem synthesize_never_raises (self : Manager.LegalManagerAgent) (query : pyval) :
  (forall (results : list pyval) (s : Manager.process),
     Forall (fun r => no_success r = true) results ->
     Manager._synthesize_results self query results s = (Ok Manager.no_results, s)) /\
  (forall (results : list pyval) (s : Manager.process),
     exists answer s',
       Manager._synthesize_results self query results s = (Ok answer, s') /\
       answer =
         match Manager.collect_texts self 0 results [] with
         | Raise e => "Synthesis error: " +:+ exn_str e
         | Ok [] => Manager.no_results
         | Ok (t :: ts) =>
             match Manager.llm_reply self (length (Manager.llm_calls s)) 2000
                     (Manager.synthesis_prompt (py_str (Manager.repr self) query) (t :: ts)) with
             | Ok content => strip content
             | Raise e => "Synthesis error: " +:+ exn_str e
             end
         end).
Proof.
  split.
  - intros results s H.
    unfold Manager._synthesize_results, try_except, bind, lift.
    now rewrite (collect_texts_no_success self results H 0 []).
  - intros results s.
    pose proof (synthesize_run self query results s) as R.
    destruct (Manager._synthesize_results self query results s) as [r s'].
    simpl in R. subst r. now eexists _, s'.
Qed.

(** Two failed calls: the fixed text, and no call to the language model. *)
Lemma synthesize_all_failed :
  Forall (fun r => no_success r = true) all_failed /\
  Manager._synthesize_results sample_manager sample_query all_failed fresh
    = (Ok "No results obtained from worker agents.", fresh).
Proof.
  assert (H : Forall (fun r => no_success r = true) all_failed)
    by (repeat constructor).
  split; [exact H|].
  exact (proj1 (synthesize_never_raises sample_manager sample_query) all_failed fresh H).
Defined.

(** ** The pipeline and the task handlers *)

Lemma analyze_never_raises (self : Manager.LegalManagerAgent) (query : pyval)
    (s : Manager.process) :
  exists answer s', Manager.analyze_legal_query self query s = (Ok answer, s').
Proof.
  unfold Manager.analyze_legal_query, try_except.
  match goal with
  | |- context [match ?b with _ => _ end] => destruct b as [[answer|e] s1]
  end.
  - now exists answer, s1.
  - unfold bind, Manager.log_event, modify, ret. now eexists _, _.
Qed.

Lemma manager_handle_task_run (self : Manager.LegalManagerAgent) (task : Task)
    (s : Manager.process) :
  exists task' s',
    Manager.handle_task self task s = (Ok task', s') /\
    match message_text (Manager.repr self)
            (if truthy (task_message task) then task_message task else PyDict []) with
    | Raise e =>
        task_status task' =
          mkTaskStatus FAILED (Some (agent_message ("Error: " +:+ exn_str e))) /\
        task_artifacts task' = task_artifacts task
    | Ok txt =>
        if truthy txt then
          exists answer,
            fst (Manager.analyze_legal_query self txt s) = Ok answer /\
            task_status task' = mkTaskStatus COMPLETED None /\
            task_artifacts task' = text_artifacts (PyStr answer)
        else
          task_status task' =
            mkTaskStatus INPUT_REQUIRED
              (Some (agent_message "Please provide a legal query")) /\
          task_artifacts task' = task_artifacts task
    end.
Proof.
  unfold Manager.handle_task, try_except, bind, on_task, modify, gets, lift,
    in_process, ret.
  cbn [set_status task_message].
  destruct (message_text _ _) as [txt|e].
  - destruct (truthy txt); cbn [negb].
    + destruct (analyze_never_raises self txt s) as (answer & s' & Hrun).
      rewrite Hrun. eexists _, _. split; [reflexivity|].
      exists answer. now repeat split.
    + eexists _, _. split; [reflexivity|]. now split.
  - eexists _, _. split; [reflexivity|]. now split.
Qed.

Lemma base_handle_task_run
    (process_query : Base.BaseAgent -> pyval -> M Base.process string)
    (self : Base.BaseAgent) (task : Task) (s : Base.process) :
  exists task' s',
    Base.handle_task process_query self task s = (Ok task', s') /\
    match Base._extract_query self (set_status (mkTaskStatus PROCESSING None) task) with
    | Raise e =>
        task_status task' =
          mkTaskStatus FAILED (Some (agent_message ("Error: " +:+ exn_str e))) /\
        task_artifacts task' = task_artifacts task
    | Ok query =>
        if truthy query then
          match fst (process_query self query
                       (snd (Base.log_event (Base.name self) "TASK_RECEIVED"
                               (PyDict [("query", query)]) s))) with
          | Ok result =>
              task_status task' = mkTaskStatus COMPLETED None /\
              task_artifacts task' = text_artifacts (PyStr result)
          | Raise e =>
              task_status task' =
                mkTaskStatus FAILED (Some (agent_message ("Error: " +:+ exn_str e))) /\
              task_artifacts task' = task_artifacts task
          end
        else
          task_status task' =
            mkTaskStatus INPUT_REQUIRED (Some (agent_message "Please provide a query")) /\
          task_artifacts task' = task_artifacts task
    end.
Proof.
  unfold Base.handle_task, Base.log_event, Base.logger, try_except, bind,
    on_task, in_process, modify, gets, lift, ret.
  cbn [fst snd].
  destruct (Base._extract_query self _) as [query|e].
  - destruct (truthy query); cbn [negb].
    + destruct (process_query self query _) as [[result|e] s1]; cbn [fst].
      * eexists _, _. split; [reflexivity|]. now split.
      * eexists _, _. split; [reflexivity|]. now split.
    + eexists _, _. split; [reflexivity|]. now split.
  - eexists _, _. split; [reflexivity|]. now split.
Qed.

(** C5.  A task handler, the base agent's with any processing function
    and the manager's, returns the task and lets no exception out; the
    task ends COMPLETED, INPUT_REQUIRED or FAILED.  An empty query text
    gives INPUT_REQUIRED; a result of the processing function gives
    COMPLETED with that result as the one text artifact; an exception of
    the processing function gives FAILED with its message. *)
Theorem handle_task_terminal :
  (forall (process_query : Base.BaseAgent -> pyval -> M Base.process string)
          (self : Base.BaseAgent) (task : Task) (s : Base.process),
     exists task' s',
       Base.handle_task process_query self task s = (Ok task', s') /\
       (state (task_status task') = COMPLETED \/
        state (task_status task') = INPUT_REQUIRED \/
        state (task_status task') = FAILED) /\
       match Base._extract_query self (set_status (mkTaskStatus PROCESSING None) task) with
       | Raise e =>
           task_status task' =
             mkTaskStatus FAILED (Some (agent_message ("Error: " +:+ exn_str e))) /\
           task_artifacts task' = task_artifacts task
       | Ok query =>
           if truthy query then
             match fst (process_query self query
                          (snd (Base.log_event (Base.name self) "TASK_RECEIVED"
                                  (PyDict [("query", query)]) s))) with
             | Ok result =>
                 task_status task' = mkTaskStatus COMPLETED None /\
                 task_artifacts task' = text_artifacts (PyStr result)
             | Raise e =>
                 task_status task' =
                   mkTaskStatus FAILED (Some (agent_message ("Error: " +:+ exn_str e))) /\
                 task_artifacts task' = task_artifacts task
             end
           else
             task_status task' =
               mkTaskStatus INPUT_REQUIRED (Some (agent_message "Please provide a query")) /\
             task_artifacts task' = task_artifacts task
       end) /\
  (forall (self : Manager.LegalManagerAgent) (task : Task) (s : Manager.process),
     exists task' s',
       Manager.handle_task self task s = (Ok task', s') /\
       (state (task_status task') = COMPLETED \/
        state (task_status task') = INPUT_REQUIRED \/
        state (task_status task') = FAILED) /\
       match message_text (Manager.repr self)
               (if truthy (task_message task) then task_message task else PyDict []) with
       | Raise e =>
           task_status task' =
             mkTaskStatus FAILED (Some (agent_message ("Error: " +:+ exn_str e))) /\
           task_artifacts task' = task_artifacts task
       | Ok txt =>
           if truthy txt then
             exists answer,
               fst (Manager.analyze_legal_query self txt s) = Ok answer /\
               task_status task' = mkTaskStatus COMPLETED None /\
               task_artifacts task' = text_artifacts (PyStr answer)
           else
             task_status task' =
               mkTaskStatus INPUT_REQUIRED
                 (Some (agent_message "Please provide a legal query")) /\
             task_artifacts task' = task_artifacts task
       end).
Proof.
  split.
  - intros process_query self task s.
    destruct (base_handle_task_run process_query self task s) as (task' & s' & Hrun & H).
    exists task', s'. split; [exact Hrun|]. split; [|exact H].
    destruct (Base._extract_query self _) as [query|e].
    + destruct (truthy query).
      * destruct (fst (process_query self query _)) as [result|e];
          destruct H as [-> _]; auto.
      * destruct H as [-> _]; auto.
    + destruct H as [-> _]; auto.
  - intros self task s.
    destruct (manager_handle_task_run self task s) as (task' & s' & Hrun & H).
    exists task', s'. split; [exact Hrun|]. split; [|exact H].
    destruct (message_text _ _) as [txt|e].
    + destruct (truthy txt).
      * destruct H as (answer & _ & -> & _); auto.
      * destruct H as [-> _]; auto.
    + destruct H as [-> _]; auto.
Qed.

(** ** The task endpoints *)

Lemma endpoint_reply_artifact (prompt : string) (reply : pyval) :
  endpoint_reply prompt reply ->
  exists txt,
    dict_get (members_of reply) "artifacts" PyNone =
      PyList [PyDict [("parts", PyList [PyDict [("type", PyStr "text");
                                                ("text", PyStr txt)]])]].
Proof. intros H. destruct H; eexists; reflexivity. Qed.

Lemma manager_endpoint_run (self : Manager.LegalManagerAgent)
    (request_json : result pyval) (s : Manager.process) :
  exists reply s',
    Manager.handle_task_endpoint self request_json s = (Ok reply, s') /\
    endpoint_reply "Please provide a legal query" reply /\
    (forall e, request_json = Raise e ->
       reply = response (PyStr "") "failed" (PyStr ("Error: " +:+ exn_str e))) /\
    (forall data message query,
       request_json = Ok (PyDict data) ->
       dict_get data "message" (PyDict []) = message ->
       message_text (Manager.repr self) message = Ok query ->
       truthy query = false ->
       reply = response (dict_get data "id" (PyStr "")) "input_required"
                 (PyStr "Please provide a legal query")).
Proof.
  unfold Manager.handle_task_endpoint, Manager.logger, try_except, bind, lift,
    modify, ret.
  destruct request_json as [data|e].
  - destruct data as [| | | | |items|data];
      try (eexists _, _; split; [reflexivity|]; split; [apply reply_failed|];
           split; [discriminate | discriminate]).
    unfold py_get at 1.
    destruct (message_text (Manager.repr self) _) as [query|e] eqn:Q.
    + destruct (truthy query) eqn:T; cbn [negb].
      * destruct (py_slice_to 100 query) as [head|e].
        -- match goal with
           | |- context [Manager.analyze_legal_query self query ?s1] =>
               destruct (analyze_never_raises self query s1) as (answer & s' & Hrun);
               rewrite Hrun
           end.
           eexists _, _. split; [reflexivity|]. split; [apply reply_completed|].
           split; [discriminate|].
           intros data' message query' [= <-] <- Hq Hf. congruence.
        -- eexists _, _. split; [reflexivity|]. split; [apply reply_failed|].
           split; [discriminate|].
           intros data' message query' [= <-] <- Hq Hf. congruence.
      * eexists _, _. split; [reflexivity|]. split; [apply reply_input_required|].
        split; [discriminate|].
        intros data' message query' [= <-] <- Hq Hf. reflexivity.
    + eexists _, _. split; [reflexivity|]. split; [apply reply_failed|].
      split; [discriminate|].
      intros data' message query' [= <-] <- Hq Hf. congruence.
  - eexists _, _. split; [reflexivity|]. split; [apply reply_failed|].
    split; [now intros e' [= <-]|discriminate].
Qed.

Lemma base_endpoint_run
    (process_query : Base.BaseAgent -> pyval -> M Base.process string)
    (self : Base.BaseAgent) (request_json : result pyval) (s : Base.process) :
  exists reply s',
    Base.handle_task_endpoint process_query self request_json s = (Ok reply, s') /\
    endpoint_reply "Please provide a query" reply /\
    (forall e, request_json = Raise e ->
       reply = response (PyStr "") "failed" (PyStr ("Error: " +:+ exn_str e))) /\
    (forall data message query,
       request_json = Ok (PyDict data) ->
       dict_get data "message" (PyDict []) = message ->
       message_text (Base.repr self) message = Ok query ->
       truthy query = false ->
       reply = response (dict_get data "id" (PyStr "")) "input_required"
                 (PyStr "Please provide a query")) /\
    (forall data message query head e,
       request_json = Ok (PyDict data) ->
       dict_get data "message" (PyDict []) = message ->
       message_text (Base.repr self) message = Ok query ->
       truthy query = true ->
       py_slice_to 100 query = Ok head ->
       fst (process_query self query
              (snd (Base.logger INFO
                      ("Received query: " +:+ py_str (Base.repr self) head) s)))
         = Raise e ->
       reply = response (PyStr "") "failed" (PyStr ("Error: " +:+ exn_str e))).
Proof.
  unfold Base.handle_task_endpoint, Base.logger, try_except, bind, lift,
    modify, ret. cbn [snd].
  destruct request_json as [data|e].
  - destruct data as [| | | | |items|data];
      try (eexists _, _; split; [reflexivity|]; split; [apply reply_failed|];
           split; [discriminate|]; split; discriminate).
    unfold py_get at 1.
    destruct (message_text (Base.repr self) _) as [query|e] eqn:Q.
    + destruct (truthy query) eqn:T; cbn [negb].
      * destruct (py_slice_to 100 query) as [head|e] eqn:Sl.
        -- destruct (process_query self query _) as [[result|e] s1] eqn:Pq.
           ++ eexists _, _. split; [reflexivity|]. split; [apply reply_completed|].
              split; [discriminate|]. split.
              ** intros data' message query' [= <-] <- Hq Hf. congruence.
              ** intros data' message query' head' e [= <-] <- Hq _ Hs Hp.
                 rewrite Q in Hq. injection Hq as <-.
                 rewrite Sl in Hs. injection Hs as <-.
                 rewrite Pq in Hp. discriminate.
           ++ eexists _, _. split; [reflexivity|]. split; [apply reply_failed|].
              split; [discriminate|]. split.
              ** intros data' message query' [= <-] <- Hq Hf. congruence.
              ** intros data' message query' head' e' [= <-] <- Hq _ Hs Hp.
                 rewrite Q in Hq. injection Hq as <-.
                 rewrite Sl in Hs. injection Hs as <-.
                 rewrite Pq in Hp. simpl in Hp. now injection Hp as <-.
        -- eexists _, _. split; [reflexivity|]. split; [apply reply_failed|].
           split; [discriminate|]. split.
           ++ intros data' message query' [= <-] <- Hq Hf. congruence.
           ++ intros data' message query' head' e' [= <-] <- Hq _ Hs Hp. congruence.
      * eexists _, _. split; [reflexivity|]. split; [apply reply_input_required|].
        split; [discriminate|]. split.
        -- intros data' message query' [= <-] <- Hq Hf. reflexivity.
        -- intros data' message query' head' e' [= <-] <- Hq Ht. congruence.
    + eexists _, _. split; [reflexivity|]. split; [apply reply_failed|].
      split; [discriminate|]. split.
      * intros data' message query' [= <-] <- Hq Hf. congruence.
      * intros data' message query' head' e' [= <-] <- Hq Ht. congruence.
  - eexists _, _. split; [reflexivity|]. split; [apply reply_failed|].
    split; [now intros e' [= <-]|]. split; discriminate.
Qed.

(** C2 (amended).  A task endpoint, the base agent's with any processing
    function and the manager's, answers every request, and every reply
    carries exactly one artifact with one text part.  In state
    input_required (the text of the message is empty or missing) the part
    holds the request for input; in state failed (an exception while the
    request was handled) it holds "Error: " and the text of the exception,
    under an empty id; in state completed it holds the result. *)
Theorem endpoint_reply_has_one_artifact :
  (forall (process_query : Base.BaseAgent -> pyval -> M Base.process string)
          (self : Base.BaseAgent) (request_json : result pyval) (s : Base.process),
     exists reply s',
       Base.handle_task_endpoint process_query self request_json s = (Ok reply, s') /\
       endpoint_reply "Please provide a query" reply /\
       (exists txt,
          dict_get (members_of reply) "artifacts" PyNone =
            PyList [PyDict [("parts", PyList [PyDict [("type", PyStr "text");
                                                      ("text", PyStr txt)]])]]) /\
       (forall e, request_json = Raise e ->
          reply = response (PyStr "") "failed" (PyStr ("Error: " +:+ exn_str e))) /\
       (forall data message query,
          request_json = Ok (PyDict data) ->
          dict_get data "message" (PyDict []) = message ->
          message_text (Base.repr self) message = Ok query ->
          truthy query = false ->
          reply = response (dict_get data "id" (PyStr "")) "input_required"
                    (PyStr "Please provide a query")) /\
       (forall data message query head e,
          request_json = Ok (PyDict data) ->
          dict_get data "message" (PyDict []) = message ->
          message_text (Base.repr self) message = Ok query ->
          truthy query = true ->
          py_slice_to 100 query = Ok head ->
          fst (process_query self query
                 (snd (Base.logger INFO
                         ("Received query: " +:+ py_str (Base.repr self) head) s)))
            = Raise e ->
          reply = response (PyStr "") "failed" (PyStr ("Error: " +:+ exn_str e)))) /\
  (forall (self : Manager.LegalManagerAgent) (request_json : result pyval)
          (s : Manager.process),
     exists reply s',
       Manager.handle_task_endpoint self request_json s = (Ok reply, s') /\
       endpoint_reply "Please provide a legal query" reply /\
       (exists txt,
          dict_get (members_of reply) "artifacts" PyNone =
            PyList [PyDict [("parts", PyList [PyDict [("type", PyStr "text");
                                                      ("text", PyStr txt)]])]]) /\
       (forall e, request_json = Raise e ->
          reply = response (PyStr "") "failed" (PyStr ("Error: " +:+ exn_str e))) /\
       (forall data message query,
          request_json = Ok (PyDict data) ->
          dict_get data "message" (PyDict []) = message ->
          message_text (Manager.repr self) message = Ok query ->
          truthy query = false ->
          reply = response (dict_get data "id" (PyStr "")) "input_required"
                    (PyStr "Please provide a legal query"))).
Proof.
  split.
  - intros process_query self request_json s.
    destruct (base_endpoint_run process_query self request_json s)
      as (reply & s' & Hrun & Hshape & Hrest).
    exists reply, s'. split; [exact Hrun|]. split; [exact Hshape|].
    split; [exact (endpoint_reply_artifact _ _ Hshape) | exact Hrest].
  - intros self request_json s.
    destruct (manager_endpoint_run self request_json s)
      as (reply & s' & Hrun & Hshape & Hrest).
    exists reply, s'. split; [exact Hrun|]. split; [exact Hshape|].
    split; [exact (endpoint_reply_artifact _ _ Hshape) | exact Hrest].
Qed.

(** C2, as stated, fails: the reply to a request with an empty text is in
    state input_required and its artifacts are not empty, and the reply to
    a request whose body is a list is in state failed and its artifacts
    are not empty. *)
Lemma input_required_carries_artifact :
  fst (Manager.handle_task_endpoint sample_manager (Ok empty_request) fresh)
    = Ok (PyDict [("id", PyStr "");
                  ("status", PyDict [("state", PyStr "input_required")]);
                  ("artifacts",
                   PyList [PyDict [("parts",
                     PyList [PyDict [("type", PyStr "text");
                                     ("text", PyStr "Please provide a legal query")]])]])]) /\
  fst (Manager.handle_task_endpoint sample_manager (Ok (PyList [])) fresh)
    = Ok (PyDict [("id", PyStr "");
                  ("status", PyDict [("state", PyStr "failed")]);
                  ("artifacts",
                   PyList [PyDict [("parts",
                     PyList [PyDict [("type", PyStr "text");
                                     ("text",
                                      PyStr "Error: 'list' object has no attribute 'get'")]])]])]) /\
  PyList [PyDict [("parts",
            PyList [PyDict [("type", PyStr "text");
                            ("text", PyStr "Please provide a legal query")]])]]
    <> PyList [].
Proof.
  split; [vm_compute; reflexivity|].
  split; [vm_compute; reflexivity|].
  discriminate.
Qed.

(** ** The worker *)

Lemma ensure_total (self : Base.BaseAgent) (s : Base.process) :
  exists ready s1, Base.ensure_mcp_initialized self s = (Ok ready, s1).
Proof.
  unfold Base.ensure_mcp_initialized, bind, gets.
  destruct (Base._mcp_client s); [now eexists _, _|].
  destruct (Base.get_mcp_config self); [now eexists _, _|].
  unfold try_except.
  match goal with
  | |- context [match ?b with _ => _ end] => destruct b as [[ready|e] s1]
  end; now eexists _, _.
Qed.

Lemma ensure_fails (self : Base.BaseAgent) (s : Base.process) :
  Base._mcp_client s = None ->
  Base.get_mcp_config self <> [] ->
  is_ok (Base.new_client self (Base.mcp_attempts s) (Base.get_mcp_config self))
    && is_ok (Base.get_tools self (Base.get_mcp_config self)) = false ->
  fst (Base.ensure_mcp_initialized self s) = Ok false.
Proof.
  intros Hc Hcfg Hfail.
  unfold Base.ensure_mcp_initialized, bind at 1, gets. rewrite Hc.
  destruct (Base.get_mcp_config self) as [|kv cfg] eqn:E; [congruence|].
  unfold try_except, bind, Base.logger, modify, Base.connect, Base.load_tools,
    lift, gets, ret. cbn [Base.mcp_attempts].
  destruct (Base.new_client self _ _); [|reflexivity].
  destruct (Base.get_tools self _); [discriminate Hfail | reflexivity].
Qed.

Lemma ensure_nothing_configured (self : Base.BaseAgent) (s : Base.process) :
  Base._mcp_client s = None ->
  Base.get_mcp_config self = [] ->
  fst (Base.ensure_mcp_initialized self s) = Ok true /\
  Base._tools (snd (Base.ensure_mcp_initialized self s)) = Base._tools s.
Proof.
  intros Hc Hcfg.
  unfold Base.ensure_mcp_initialized, bind, gets, Base.logger, modify, ret.
  rewrite Hc, Hcfg. now split.
Qed.

Lemma ensure_resolves (self : Base.BaseAgent) (s : Base.process) (tools : list string) :
  Base._mcp_client s = None ->
  Base.get_mcp_config self <> [] ->
  is_ok (Base.new_client self (Base.mcp_attempts s) (Base.get_mcp_config self)) = true ->
  Base.get_tools self (Base.get_mcp_config self) = Ok tools ->
  fst (Base.ensure_mcp_initialized self s) = Ok true /\
  Base._tools (snd (Base.ensure_mcp_initialized self s)) = tools.
Proof.
  intros Hc Hcfg Hnew Htools.
  unfold Base.ensure_mcp_initialized, try_except, bind, Base.logger, modify,
    Base.connect, Base.load_tools, lift, gets, ret.
  rewrite Hc.
  destruct (Base.get_mcp_config self) as [|kv cfg] eqn:E; [congruence|].
  cbn [Base.mcp_attempts].
  destruct (Base.new_client self _ _); [|discriminate Hnew].
  rewrite Htools. now split.
Qed.

Lemma ensure_already (self : Base.BaseAgent) (s : Base.process) (client : dict) :
  Base._mcp_client s = Some client ->
  Base.ensure_mcp_initialized self s = (Ok true, s).
Proof.
  intros Hc. unfold Base.ensure_mcp_initialized, bind, gets. now rewrite Hc.
Qed.

Lemma run_react_agent_degraded (get_system_prompt : Base.BaseAgent -> string)
    (self : Base.BaseAgent) (query : pyval) (system_prompt : option string)
    (limit : Z) (s : Base.process) :
  (fst (Base.ensure_mcp_initialized self s) = Ok false ->
   fst (Base.run_react_agent get_system_prompt self query system_prompt limit s)
     = Ok "Error: Failed to initialize MCP tools") /\
  (fst (Base.ensure_mcp_initialized self s) = Ok true ->
   Base._tools (snd (Base.ensure_mcp_initialized self s)) = [] ->
   fst (Base.run_react_agent get_system_prompt self query system_prompt limit s)
     = Ok "Error: No tools available").
Proof.
  unfold Base.run_react_agent, bind, gets, ret.
  destruct (Base.ensure_mcp_initialized self s) as [[ready|e] s1]; cbn [fst snd].
  - split.
    + intros [= ->]. reflexivity.
    + intros [= ->] Ht. cbn [negb]. now rewrite Ht.
  - split; discriminate.
Qed.

Lemma process_query_run (self : Base.BaseAgent) (query : pyval) (s : Base.process) :
  exists answer s',
    WorkerAgent1.process_query self query s = (Ok answer, s') /\
    (forall r, fst (Base.run_react_agent WorkerAgent1.get_system_prompt self query None 25 s)
               = Ok r -> answer = r).
Proof.
  unfold WorkerAgent1.process_query, try_except, bind at 1.
  destruct (Base.run_react_agent _ self query None 25 s) as [[r|e] s1]; cbn [fst].
  - eexists _, _. split; [reflexivity|]. now intros r' [= <-].
  - unfold bind, Base.logger, modify, ret. eexists _, _.
    split; [reflexivity | discriminate].
Qed.

(** C9.  The worker's processing function never raises.  When no tool is
    configured, when the tools cannot be resolved (the client cannot be
    built or its tools cannot be listed), and when the resolution brings
    no tool, it returns an error text; and a task with a query then ends
    COMPLETED, with the text the function returned as its artifact. *)
Theorem worker_degrades_to_text (self : Base.BaseAgent) (query : pyval)
    (s : Base.process) :
  exists answer s',
    WorkerAgent1.process_query self query s = (Ok answer, s') /\
    (Base._mcp_client s = None ->
     Base.get_mcp_config self <> [] ->
     is_ok (Base.new_client self (Base.mcp_attempts s) (Base.get_mcp_config self))
       && is_ok (Base.get_tools self (Base.get_mcp_config self)) = false ->
     answer = "Error: Failed to initialize MCP tools") /\
    (Base._mcp_client s = None ->
     Base.get_mcp_config self = [] ->
     Base._tools s = [] ->
     answer = "Error: No tools available") /\
    (Base._mcp_client s = None ->
     Base.get_mcp_config self <> [] ->
     is_ok (Base.new_client self (Base.mcp_attempts s) (Base.get_mcp_config self)) = true ->
     Base.get_tools self (Base.get_mcp_config self) = Ok [] ->
     answer = "Error: No tools available") /\
    (forall client,
       Base._mcp_client s = Some client ->
       Base._tools s = [] ->
       answer = "Error: No tools available") /\
    (forall (task : Task) (s0 : Base.process),
       Base._extract_query self (set_status (mkTaskStatus PROCESSING None) task)
         = Ok query ->
       truthy query = true ->
       snd (Base.log_event (Base.name self) "TASK_RECEIVED"
              (PyDict [("query", query)]) s0) = s ->
       exists task' s1,
         WorkerAgent1.handle_task self task s0 = (Ok task', s1) /\
         task_status task' = mkTaskStatus COMPLETED None /\
         task_artifacts task' = text_artifacts (PyStr answer)).
Proof.
  destruct (process_query_run self query s) as (answer & s' & Hrun & Hanswer).
  pose proof (run_react_agent_degraded WorkerAgent1.get_system_prompt self query
                None 25 s) as [Hfail Hnone].
  exists answer, s'. split; [exact Hrun|]. split; [|split; [|split; [|split]]].
  - intros Hc Hcfg Hbad. apply Hanswer, Hfail. now apply ensure_fails.
  - intros Hc Hcfg Ht.
    destruct (ensure_nothing_configured self s Hc Hcfg) as [Hready Htools].
    apply Hanswer, Hnone; [exact Hready | congruence].
  - intros Hc Hcfg Hnew Hget.
    destruct (ensure_resolves self s [] Hc Hcfg Hnew Hget) as [Hready Htools].
    apply Hanswer, Hnone; assumption.
  - intros client Hc Ht.
    apply Hanswer, Hnone; rewrite (ensure_already self s client Hc); [reflexivity | exact Ht].
  - intros task s0 Hq Ht Hs.
    destruct (base_handle_task_run WorkerAgent1.process_query self task s0)
      as (task' & s1 & Hh & Hcase).
    exists task', s1. split; [exact Hh|].
    rewrite Hq, Ht, Hs, Hrun in Hcase. exact Hcase.
Qed.

(** The tool backend cannot be reached: the processing function returns
    the error text, the first time it is asked. *)
Lemma worker_backend_unreachable :
  (Base._mcp_client fresh_worker = None /\
   Base.get_mcp_config sample_worker <> [] /\
   is_ok (Base.new_client sample_worker (Base.mcp_attempts fresh_worker)
            (Base.get_mcp_config sample_worker))
     && is_ok (Base.get_tools sample_worker (Base.get_mcp_config sample_worker)) = false) /\
  exists answer s',
    WorkerAgent1.process_query sample_worker sample_query fresh_worker = (Ok answer, s') /\
    answer = "Error: Failed to initialize MCP tools".
Proof.
  assert (H : Base.get_mcp_config sample_worker <> []) by discriminate.
  split; [repeat split; exact H|].
  destruct (worker_degrades_to_text sample_worker sample_query fresh_worker)
    as (answer & s' & Hrun & Hfail & _).
  exists answer, s'. split; [exact Hrun|].
  exact (Hfail eq_refl H eq_refl).
Defined.

(** ** The classification does not reach the answer *)

Section Related.
Variable n0 : nat.
Variables a b : Manager.LegalManagerAgent.
Hypothesis alike : same_but_reply n0 a b.

Lemma related_ret {A} (x : A) : related n0 (ret x) (ret x).
Proof. intros s1 s2 H. now split. Qed.

Lemma related_lift {A} (r : result A) : related n0 (lift r) (lift r).
Proof. intros s1 s2 H. now split. Qed.

Lemma related_bind {A B} (m1 m2 : M Manager.process A)
    (f1 f2 : A -> M Manager.process B) :
  related n0 m1 m2 -> (forall x, related n0 (f1 x) (f2 x)) ->
  related n0 (bind m1 f1) (bind m2 f2).
Proof.
  intros Hm Hf s1 s2 Hs. unfold bind.
  destruct (Hm s1 s2 Hs) as [Hr Ha].
  destruct (m1 s1) as [r1 s1'], (m2 s2) as [r2 s2']. simpl in Hr, Ha. subst r2.
  destruct r1 as [x|e]; [now apply Hf | now split].
Qed.

Lemma related_try_except {A} (b1 b2 : M Manager.process A)
    (h1 h2 : exn -> M Manager.process A) :
  related n0 b1 b2 -> (forall e, related n0 (h1 e) (h2 e)) ->
  related n0 (try_except b1 h1) (try_except b2 h2).
Proof.
  intros Hb Hh s1 s2 Hs. unfold try_except.
  destruct (Hb s1 s2 Hs) as [Hr Ha].
  destruct (b1 s1) as [r1 s1'], (b2 s2) as [r2 s2']. simpl in Hr, Ha. subst r2.
  destruct r1 as [x|e]; [now split | now apply Hh].
Qed.

Lemma related_log_event (source type : string) (d1 d2 : pyval) :
  related n0 (Manager.log_event source type d1) (Manager.log_event source type d2).
Proof. intros s1 s2 H. now split. Qed.

Lemma related_logger (lv1 lv2 : level) (m1 m2 : string) :
  related n0 (Manager.logger lv1 m1) (Manager.logger lv2 m2).
Proof. intros s1 s2 H. now split. Qed.

Lemma py_str_alike (v : pyval) :
  py_str (Manager.repr a) v = py_str (Manager.repr b) v.
Proof.
  destruct alike as (_ & _ & _ & _ & Hrepr & _).
  destruct v; simpl; auto.
Qed.

Lemma related_ainvoke (llm : Manager.ChatOpenAI) (prompt : string) :
  related n0 (Manager.ainvoke a llm prompt) (Manager.ainvoke b llm prompt).
Proof.
  destruct alike as (_ & _ & _ & _ & _ & Hllm).
  intros s1 s2 (Hl & Hh & Hn). unfold Manager.ainvoke. simpl. split.
  - rewrite <- Hl. apply Hllm. lia.
  - repeat split; simpl; rewrite ?length_app; simpl; lia.
Qed.

Lemma related_post (url : string) (payload : pyval) (timeout : Z) :
  related n0 (Manager.post a url payload timeout) (Manager.post b url payload timeout).
Proof.
  destruct alike as (_ & _ & Hnet & _).
  intros s1 s2 (Hl & Hh & Hn). unfold Manager.post. simpl. split.
  - rewrite <- Hh. apply Hnet.
  - repeat split; simpl; rewrite ?length_app; simpl; lia.
Qed.

Lemma related_plan (query : pyval) :
  related n0 (Manager._plan_execution a query) (Manager._plan_execution b query).
Proof.
  unfold Manager._plan_execution, Manager._create_llm. rewrite py_str_alike.
  apply related_try_except.
  - apply related_bind; [apply related_ainvoke|].
    intros response. destruct (search_braces (strip response)).
    + apply related_bind; [apply related_lift | intros; apply related_ret].
    + apply related_ret.
  - intros e. apply related_bind; [apply related_logger | intros; apply related_ret].
Qed.

Lemma related_call_worker (url : string) (query : pyval) (timeout : Z) :
  related n0 (Manager._call_worker a url query timeout)
             (Manager._call_worker b url query timeout).
Proof.
  unfold Manager._call_worker. apply related_try_except.
  - apply related_bind; [apply related_post|].
    intros response. destruct (Manager.status response =? 200)%Z.
    + apply related_bind; [apply related_lift | intros; apply related_ret].
    + apply related_ret.
  - intros e. destruct (is_timeout e); apply related_ret.
Qed.

Lemma agent_map_alike : Manager.agent_map a = Manager.agent_map b.
Proof.
  destruct alike as (H1 & H2 & _). unfold Manager.agent_map. now rewrite H1, H2.
Qed.

Lemma resolve_alike (x : pyval) : Manager.resolve a x = Manager.resolve b x.
Proof. unfold Manager.resolve. now rewrite agent_map_alike. Qed.

Lemma resolve_all_alike (agents : list pyval) :
  Manager.resolve_all a agents = Manager.resolve_all b agents.
Proof.
  induction agents as [|x agents IH]; [reflexivity|].
  simpl. now rewrite resolve_alike, IH.
Qed.

Lemma related_call_in_turn (query : pyval) (agents : list pyval) :
  forall results,
    related n0 (Manager.call_in_turn a query agents results)
               (Manager.call_in_turn b query agents results).
Proof.
  induction agents as [|x agents IH]; intros results; simpl.
  - apply related_ret.
  - rewrite resolve_alike. apply related_bind; [apply related_lift|].
    intros [url|]; [|apply IH].
    apply related_bind; [apply related_call_worker | intros; apply IH].
Qed.

Lemma related_complete {A} (tasks1 tasks2 : list (M Manager.process A))
    (slots : list (option (result A))) (s1 s2 : Manager.process) (i : nat) :
  Forall2 (related n0) tasks1 tasks2 -> agree n0 s1 s2 ->
  fst (complete tasks1 (slots, s1) i) = fst (complete tasks2 (slots, s2) i) /\
  agree n0 (snd (complete tasks1 (slots, s1) i)) (snd (complete tasks2 (slots, s2) i)).
Proof.
  intros Ht Hs. unfold complete.
  destruct (tasks1 !! i) as [t1|] eqn:E1.
  - destruct (Forall2_lookup_l _ _ _ _ _ Ht E1) as (t2 & E2 & Hrel).
    unfold M in *. rewrite E2. destruct (slots !! i) as [[r|]|]; try now split.
    destruct (Hrel s1 s2 Hs) as [Hr Ha].
    destruct (t1 s1) as [r1 s1'], (t2 s2) as [r2 s2']. simpl in Hr, Ha. subst r2.
    now split.
  - assert (E2 : tasks2 !! i = None).
    { apply lookup_ge_None. apply lookup_ge_None in E1.
      rewrite <- (Forall2_length _ _ _ Ht). exact E1. }
    unfold M in *. rewrite E2. now split.
Qed.

Lemma related_fold_complete {A} (tasks1 tasks2 : list (M Manager.process A))
    (l : list nat) :
  Forall2 (related n0) tasks1 tasks2 ->
  forall slots s1 s2, agree n0 s1 s2 ->
    fst (fold_left (complete tasks1) l (slots, s1))
    = fst (fold_left (complete tasks2) l (slots, s2)) /\
    agree n0 (snd (fold_left (complete tasks1) l (slots, s1)))
             (snd (fold_left (complete tasks2) l (slots, s2))).
Proof.
  intros Ht. induction l as [|i l IH]; intros slots s1 s2 Hs; [now split|].
  cbn [fold_left].
  destruct (related_complete tasks1 tasks2 slots s1 s2 i Ht Hs) as [Hf Ha].
  destruct (complete tasks1 (slots, s1) i) as [slots1 s1'].
  destruct (complete tasks2 (slots, s2) i) as [slots2 s2']. simpl in Hf, Ha.
  subst slots2. now apply IH.
Qed.

Lemma related_gather {A} (order : list nat)
    (tasks1 tasks2 : list (M Manager.process A)) :
  Forall2 (related n0) tasks1 tasks2 ->
  related n0 (gather order tasks1) (gather order tasks2).
Proof.
  intros Ht s1 s2 Hs. unfold gather.
  rewrite <- (Forall2_length _ _ _ Ht).
  destruct (related_fold_complete tasks1 tasks2 (order ++ seq 0 (length tasks1)) Ht
              (replicate (length tasks1) None) s1 s2 Hs) as [Hf Ha].
  destruct (fold_left (complete tasks1) _ _) as [slots1 s1'].
  destruct (fold_left (complete tasks2) _ _) as [slots2 s2']. simpl in Hf, Ha.
  subst slots2. now split.
Qed.

Lemma related_execute (query plan : pyval) :
  related n0 (Manager._execute_plan a query plan) (Manager._execute_plan b query plan).
Proof.
  unfold Manager._execute_plan.
  apply related_bind; [apply related_lift|]. intros agents_to_call.
  apply related_bind; [apply related_lift|]. intros is_parallel.
  destruct (truthy is_parallel).
  - apply related_bind; [apply related_lift|]. intros agents.
    rewrite resolve_all_alike.
    apply related_bind; [apply related_lift|]. intros urls.
    destruct alike as (_ & _ & _ & Horder & _). rewrite Horder.
    apply related_bind; [|intros; apply related_ret].
    apply related_gather.
    induction urls as [|url urls IH]; constructor;
      [apply related_call_worker | exact IH].
  - apply related_bind; [apply related_lift|]. intros agents.
    apply related_call_in_turn.
Qed.

Lemma collect_texts_alike (results : list pyval) :
  forall i acc,
    Manager.collect_texts a i results acc = Manager.collect_texts b i results acc.
Proof.
  induction results as [|r results IH]; intros i acc; [reflexivity|].
  simpl.
  repeat match goal with
         | |- match ?x with _ => _ end = match ?x with _ => _ end => destruct x
         | |- (if ?c then _ else _) = (if ?c then _ else _) => destruct c
         end; try reflexivity; try apply IH.
  rewrite py_str_alike. apply IH.
Qed.

Lemma related_synthesize (query : pyval) (results : list pyval) :
  related n0 (Manager._synthesize_results a query results)
             (Manager._synthesize_results b query results).
Proof.
  unfold Manager._synthesize_results, Manager._create_llm.
  rewrite collect_texts_alike, py_str_alike.
  apply related_try_except; [|intros; apply related_ret].
  apply related_bind; [apply related_lift|]. intros [|t ts].
  - apply related_ret.
  - apply related_bind; [apply related_ainvoke | intros; apply related_ret].
Qed.

(** The classifier, run by the two managers from one process at the
    invocation where they differ, may answer differently, and leaves
    processes that agree. *)
Lemma classify_leaves_agreement (query : pyval) (s1 s2 : Manager.process) :
  length (Manager.llm_calls s1) = n0 ->
  length (Manager.llm_calls s2) = n0 ->
  length (Manager.http_calls s1) = length (Manager.http_calls s2) ->
  exists c1 c2 s1' s2',
    Manager._classify_complexity a query s1 = (Ok c1, s1') /\
    Manager._classify_complexity b query s2 = (Ok c2, s2') /\
    agree n0 s1' s2'.
Proof.
  intros H1 H2 Hh.
  unfold Manager._classify_complexity, try_except, bind, Manager.ainvoke,
    Manager.logger, modify, ret, Manager._create_llm. cbn [Manager.max_tokens].
  assert (G : forall s1' s2' : Manager.process,
            length (Manager.llm_calls s1') = S n0 ->
            length (Manager.llm_calls s2') = S n0 ->
            length (Manager.http_calls s1') = length (Manager.http_calls s2') ->
            agree n0 s1' s2').
  { intros x y Hx Hy Hxy. repeat split; [congruence | exact Hxy | lia]. }
  destruct (Manager.llm_reply a _ 100 _) as [r1|e1];
    destruct (Manager.llm_reply b _ 100 _) as [r2|e2];
    repeat match goal with
           | |- context [if ?c then _ else _] => destruct c
           end;
    eexists _, _, _, _; (split; [reflexivity|]); (split; [reflexivity|]);
    apply G; simpl; rewrite ?length_app; simpl; lia.
Qed.

Lemma try_except_alike {A} (b1 b2 : M Manager.process A)
    (h1 h2 : exn -> M Manager.process A) (s : Manager.process) :
  fst (b1 s) = fst (b2 s) ->
  (forall e s1 s2, fst (h1 e s1) = fst (h2 e s2)) ->
  fst (try_except b1 h1 s) = fst (try_except b2 h2 s).
Proof.
  intros Hb Hh. unfold try_except.
  destruct (b1 s) as [r1 s1], (b2 s) as [r2 s2]. simpl in Hb. subst r2.
  destruct r1; [reflexivity | apply Hh].
Qed.

(** Whatever follows the classifier, if it treats the two answers
    alike, ends alike. *)
Lemma classify_then_alike {A} (source type : string) (data : pyval)
    (query : pyval) (k1 k2 : Manager.QueryComplexity -> M Manager.process A)
    (s : Manager.process) :
  length (Manager.llm_calls s) = n0 ->
  (forall c1 c2, related n0 (k1 c1) (k2 c2)) ->
  fst ((Manager.log_event source type data ;;
        c <- Manager._classify_complexity a query ;; k1 c) s)
  = fst ((Manager.log_event source type data ;;
          c <- Manager._classify_complexity b query ;; k2 c) s).
Proof.
  intros Hn Hk.
  unfold bind at 1 3. unfold Manager.log_event at 1 2, modify.
  match goal with
  | |- fst (bind _ _ ?s1) = _ =>
      destruct (classify_leaves_agreement query s1 s1 Hn Hn eq_refl)
        as (c1 & c2 & s1' & s2' & E1 & E2 & Hagree)
  end.
  unfold bind. rewrite E1, E2. apply (Hk c1 c2 s1' s2' Hagree).
Qed.
End Related.

(** C10.  Two managers that are alike but for what the language model
    replies to the classifier's invocation return the same answer to the
    same query from the same process: whatever the classifier answers,
    SIMPLE or COMPLEX, planning, dispatch and synthesis go the same way;
    the classification is written to the record and read by nothing. *)
Theorem answer_independent_of_classification (a b : Manager.LegalManagerAgent)
    (query : pyval) (s : Manager.process) :
  same_but_reply (length (Manager.llm_calls s)) a b ->
  fst (Manager.analyze_legal_query a query s)
  = fst (Manager.analyze_legal_query b query s).
Proof.
  intros alike. unfold Manager.analyze_legal_query.
  apply try_except_alike; [|reflexivity].
  apply (classify_then_alike (length (Manager.llm_calls s))); [reflexivity|].
  intros c1 c2.
  apply related_bind; [apply related_log_event|]. intros _.
  apply related_bind; [now apply related_plan|]. intros plan.
  apply related_bind; [apply related_log_event|]. intros _.
  apply related_bind; [now apply related_execute|]. intros results.
  apply related_bind; [apply related_log_event|]. intros _.
  apply related_bind; [now apply related_synthesize|]. intros final_answer.
  apply related_bind; [apply related_log_event|]. intros _.
  apply related_ret.
Qed.

(** The classifier answers SIMPLE for one manager and COMPLEX for the
    other, and the two answers to the query are the same. *)
Lemma answer_independent_sample :
  same_but_reply (length (Manager.llm_calls fresh)) said_simple said_complex /\
  fst (Manager._classify_complexity said_simple sample_query fresh) = Ok Manager.SIMPLE /\
  fst (Manager._classify_complexity said_complex sample_query fresh) = Ok Manager.COMPLEX /\
  fst (Manager.analyze_legal_query said_simple sample_query fresh)
  = fst (Manager.analyze_legal_query said_complex sample_query fresh).
Proof.
  assert (H : same_but_reply (length (Manager.llm_calls fresh)) said_simple said_complex).
  { repeat split. intros [|n] k prompt Hn; [now destruct Hn | reflexivity]. }
  split; [exact H|].
  split; [vm_compute; reflexivity|].
  split; [vm_compute; reflexivity|].
  exact (answer_independent_of_classification said_simple said_complex sample_query fresh H).
Defined.

(* ================================================================== *)
(** * Part III: further properties of the code *)
(* ================================================================== *)

(** ** What each stage of the pipeline touches *)

Lemma classify_frame (self : Manager.LegalManagerAgent) (query : pyval)
    (s : Manager.process) :
  exists c s1,
    Manager._classify_complexity self query s = (Ok c, s1) /\
    Manager.llm_calls s1 =
      Manager.llm_calls s ++
      [(100%Z, Manager.classify_prompt (py_str (Manager.repr self) query))] /\
    Manager.http_calls s1 = Manager.http_calls s /\
    Manager.events s1 = Manager.events s.
Proof.
  unfold Manager._classify_complexity, try_except, bind, Manager.ainvoke,
    Manager.logger, modify, ret, Manager._create_llm. cbn [Manager.max_tokens].
  destruct (Manager.llm_reply self _ 100 _) as [content|e].
  - destruct (str_in "COMPLEX" (upper (strip content))); now eexists _, _.
  - now eexists _, _.
Qed.

Lemma plan_frame (self : Manager.LegalManagerAgent) (query : pyval)
    (s : Manager.process) :
  exists plan s1,
    Manager._plan_execution self query s = (Ok plan, s1) /\
    Manager.llm_calls s1 =
      Manager.llm_calls s ++
      [(500%Z, Manager.plan_prompt (py_str (Manager.repr self) query))] /\
    Manager.http_calls s1 = Manager.http_calls s /\
    Manager.events s1 = Manager.events s.
Proof.
  unfold Manager._plan_execution, try_except, bind, Manager.ainvoke, lift,
    Manager.logger, modify, ret, Manager._create_llm. cbn [Manager.max_tokens].
  destruct (Manager.llm_reply self _ 500 _) as [content|e].
  - destruct (search_braces (strip content)) as [group|].
    + destruct (json_loads group); now eexists _, _.
    + now eexists _, _.
  - now eexists _, _.
Qed.

Lemma synthesize_frame (self : Manager.LegalManagerAgent) (query : pyval)
    (results : list pyval) (s : Manager.process) :
  exists answer s1,
    Manager._synthesize_results self query results s = (Ok answer, s1) /\
    (Manager.llm_calls s1 = Manager.llm_calls s \/
     exists prompt, Manager.llm_calls s1 = Manager.llm_calls s ++ [(2000%Z, prompt)]) /\
    Manager.http_calls s1 = Manager.http_calls s /\
    Manager.events s1 = Manager.events s.
Proof.
  unfold Manager._synthesize_results, try_except, bind, Manager.ainvoke, lift,
    ret, Manager._create_llm. cbn [Manager.max_tokens].
  destruct (Manager.collect_texts self 0 results []) as [[|t ts]|e].
  - eexists _, _. split; [reflexivity|]. split; [now left | now split].
  - destruct (Manager.llm_reply self _ 2000 _);
      (eexists _, _; split; [reflexivity|]; split; [right; now eexists | now split]).
  - eexists _, _. split; [reflexivity|]. split; [now left | now split].
Qed.

Section Keeps.
Context {S B : Type}.
Variable f : S -> B.

Lemma keeps_ret {A} (x : A) : keeps f (@ret S A x).
Proof. intros s. reflexivity. Qed.

Lemma keeps_lift {A} (r : result A) : keeps f (@lift S A r).
Proof. intros s. reflexivity. Qed.

Lemma keeps_bind {A C} (m : M S A) (k : A -> M S C) :
  keeps f m -> (forall x, keeps f (k x)) -> keeps f (bind m k).
Proof.
  intros Hm Hk s. unfold bind. specialize (Hm s).
  destruct (m s) as [[x|e] s1]; cbn [snd] in *; [|exact Hm].
  now rewrite Hk.
Qed.

Lemma keeps_try_except {A} (body : M S A) (handler : exn -> M S A) :
  keeps f body -> (forall e, keeps f (handler e)) -> keeps f (try_except body handler).
Proof.
  intros Hb Hh s. unfold try_except. specialize (Hb s).
  destruct (body s) as [[x|e] s1]; cbn [snd] in *; [exact Hb|].
  now rewrite Hh.
Qed.

(** A gathering keeps whatever every one of its awaitables keeps. *)
Lemma keeps_gather {A} (order : list nat) (tasks : list (M S A)) :
  (forall i t, tasks !! i = Some t -> keeps f t) ->
  keeps f (gather order tasks).
Proof.
  intros Hkeep s. unfold gather.
  assert (G : forall l st, f (snd (fold_left (complete tasks) l st)) = f (snd st)).
  { induction l as [|i l IH]; intros [slots s0]; [reflexivity|].
    cbn [fold_left]. rewrite IH. unfold complete.
    destruct (tasks !! i) as [t|] eqn:Et; [|reflexivity].
    destruct (slots !! i) as [[r|]|]; try reflexivity.
    pose proof (Hkeep i t Et s0) as Hk. destruct (t s0) as [r s1]. exact Hk. }
  specialize (G (order ++ seq 0 (length tasks)) (replicate (length tasks) None, s)).
  destruct (fold_left _ _ _) as [slots s']. exact G.
Qed.
End Keeps.

Lemma call_worker_keeps {B} (f : Manager.process -> B)
    (self : Manager.LegalManagerAgent) (url : string) (query : pyval) (timeout : Z) :
  (forall s c, f (Manager.mkProcess (Manager.llm_calls s) (Manager.http_calls s ++ [c])
                    (Manager.events s) (Manager.logged s)) = f s) ->
  keeps f (Manager._call_worker self url query timeout).
Proof.
  intros Hf s.
  destruct (call_worker_run self url query timeout s) as (entry & Hrun & _).
  rewrite Hrun. apply Hf.
Qed.

Lemma call_in_turn_keeps {B} (f : Manager.process -> B)
    (self : Manager.LegalManagerAgent) (query : pyval) (agents : list pyval) :
  (forall s c, f (Manager.mkProcess (Manager.llm_calls s) (Manager.http_calls s ++ [c])
                    (Manager.events s) (Manager.logged s)) = f s) ->
  forall results, keeps f (Manager.call_in_turn self query agents results).
Proof.
  intros Hf. induction agents as [|a agents IH]; intros results.
  - apply keeps_ret.
  - cbn [Manager.call_in_turn]. apply keeps_bind; [apply keeps_lift|].
    intros [url|]; [|apply IH].
    apply keeps_bind; [now apply call_worker_keeps | intros; apply IH].
Qed.

(** The dispatcher touches nothing but the list of round trips, whatever
    the plan and whether it returns or raises. *)
Lemma execute_keeps {B} (f : Manager.process -> B)
    (self : Manager.LegalManagerAgent) (query plan : pyval) :
  (forall s c, f (Manager.mkProcess (Manager.llm_calls s) (Manager.http_calls s ++ [c])
                    (Manager.events s) (Manager.logged s)) = f s) ->
  keeps f (Manager._execute_plan self query plan).
Proof.
  intros Hf. unfold Manager._execute_plan.
  apply keeps_bind; [apply keeps_lift|]. intros agents_to_call.
  apply keeps_bind; [apply keeps_lift|]. intros is_parallel.
  destruct (truthy is_parallel).
  - apply keeps_bind; [apply keeps_lift|]. intros agents.
    apply keeps_bind; [apply keeps_lift|]. intros urls.
    apply keeps_bind; [|intros; apply keeps_ret].
    apply keeps_gather. intros i t Hi. rewrite list_lookup_fmap in Hi.
    destruct (urls !! i) as [url|]; [|discriminate]. injection Hi as <-.
    now apply call_worker_keeps.
  - apply keeps_bind; [apply keeps_lift|]. intros agents.
    now apply call_in_turn_keeps.
Qed.

(** ** The record of an analysis *)

Lemma analysis_run (self : Manager.LegalManagerAgent) (query : pyval)
    (s : Manager.process) :
  exists c plan answer s',
    Manager.analyze_legal_query self query s = (Ok answer, s') /\
    ((exists results more,
        Manager.events s' =
          Manager.events s ++
          [query_received query; complexity_classified c; plan_created plan;
           execution_complete results; synthesis_complete answer] /\
        Manager.llm_calls s' =
          Manager.llm_calls s ++
          [(100%Z, Manager.classify_prompt (py_str (Manager.repr self) query));
           (500%Z, Manager.plan_prompt (py_str (Manager.repr self) query))] ++ more /\
        (more = [] \/ exists prompt, more = [(2000%Z, prompt)])) \/
     (exists e,
        answer = "Analysis error: " +:+ exn_str e /\
        Manager.events s' =
          Manager.events s ++
          [query_received query; complexity_classified c; plan_created plan;
           analysis_error answer] /\
        Manager.llm_calls s' =
          Manager.llm_calls s ++
          [(100%Z, Manager.classify_prompt (py_str (Manager.repr self) query));
           (500%Z, Manager.plan_prompt (py_str (Manager.repr self) query))])).
Proof.
  unfold Manager.analyze_legal_query, try_except, bind, Manager.log_event, modify, ret.
  match goal with
  | |- context [Manager._classify_complexity self query ?st] =>
      destruct (classify_frame self query st) as (c & s1 & Hc & L1 & _ & E1);
      rewrite Hc
  end.
  cbn [Manager.llm_calls Manager.events Manager.http_calls Manager.logged] in *.
  match goal with
  | |- context [Manager._plan_execution self query ?st] =>
      destruct (plan_frame self query st) as (plan & s2 & Hp & L2 & _ & E2);
      rewrite Hp
  end.
  cbn [Manager.llm_calls Manager.events Manager.http_calls Manager.logged] in *.
  match goal with
  | |- context [Manager._execute_plan self query plan ?st] =>
      pose proof (execute_keeps Manager.llm_calls self query plan
                    (fun _ _ => eq_refl) st) as L3;
      pose proof (execute_keeps Manager.events self query plan
                    (fun _ _ => eq_refl) st) as E3;
      destruct (Manager._execute_plan self query plan st) as [[results|e] s3]
  end;
  cbn [snd Manager.llm_calls Manager.events Manager.http_calls Manager.logged] in *.
  - match goal with
    | |- context [Manager._synthesize_results self query results ?st] =>
        destruct (synthesize_frame self query results st)
          as (answer & s4 & Hs & L4 & _ & E4);
        rewrite Hs
    end.
    cbn [Manager.llm_calls Manager.events Manager.http_calls Manager.logged] in *.
    exists c, plan, answer. eexists. split; [reflexivity|]. left.
    cbn [Manager.llm_calls Manager.events].
    rewrite E4, E3, E2, E1.
    destruct L4 as [L4|[prompt L4]].
    + exists results, []. rewrite L4, L3, L2, L1.
      repeat rewrite <- app_assoc. split; [reflexivity|]. split; [reflexivity | now left].
    + exists results, [(2000%Z, prompt)]. rewrite L4, L3, L2, L1.
      repeat rewrite <- app_assoc. split; [reflexivity|]. split; [reflexivity|].
      right. now exists prompt.
  - exists c, plan. eexists _, _. split; [reflexivity|]. right. exists e.
    cbn [Manager.llm_calls Manager.events].
    rewrite E3, E2, E1, L3, L2, L1. repeat rewrite <- app_assoc. now repeat split.
Qed.

(** X1.  An analysis never raises, and it only appends to the audit
    record: the query, the classification and the plan, and then either
    the results and the answer, or, when dispatch raised, the error text,
    which is then the answer. *)
Theorem analysis_audit_trail (self : Manager.LegalManagerAgent) (query : pyval)
    (s : Manager.process) :
  exists c plan answer s',
    Manager.analyze_legal_query self query s = (Ok answer, s') /\
    ((exists results,
        Manager.events s' =
          Manager.events s ++
          [query_received query; complexity_classified c; plan_created plan;
           execution_complete results; synthesis_complete answer]) \/
     (exists e,
        answer = "Analysis error: " +:+ exn_str e /\
        Manager.events s' =
          Manager.events s ++
          [query_received query; complexity_classified c; plan_created plan;
           analysis_error answer])).
Proof.
  destruct (analysis_run self query s) as (c & plan & answer & s' & Hrun & H).
  exists c, plan, answer, s'. split; [exact Hrun|].
  destruct H as [(results & more & He & _)|(e & Ha & He & _)].
  - left. now exists results.
  - right. now exists e.
Qed.

(** X2.  An analysis invokes the language model two or three times: the
    classifier with 100 tokens, the planner with 500, both on prompts
    built from the query alone, and at most one synthesis with 2000. *)
Theorem analysis_llm_budget (self : Manager.LegalManagerAgent) (query : pyval)
    (s : Manager.process) :
  exists more,
    Manager.llm_calls (snd (Manager.analyze_legal_query self query s)) =
      Manager.llm_calls s ++
      [(100%Z, Manager.classify_prompt (py_str (Manager.repr self) query));
       (500%Z, Manager.plan_prompt (py_str (Manager.repr self) query))] ++ more /\
    (more = [] \/ exists prompt, more = [(2000%Z, prompt)]).
Proof.
  destruct (analysis_run self query s) as (c & plan & answer & s' & Hrun & H).
  rewrite Hrun. cbn [snd].
  destruct H as [(results & more & _ & Hl & Hm)|(e & _ & _ & Hl)].
  - now exists more.
  - exists []. rewrite app_nil_r. split; [exact Hl | now left].
Qed.

(** ** The order of the round trips *)

Lemma call_in_turn_serial (self : Manager.LegalManagerAgent) (query : pyval)
    (names : list string) :
  forall (acc : list pyval) (s : Manager.process),
  exists results s',
    Manager.call_in_turn self query (map PyStr names) acc s = (Ok (acc ++ results), s') /\
    Manager.http_calls s' =
      Manager.http_calls s ++ map (round_trip query) (resolved self names) /\
    length results = length (resolved self names) /\
    (forall k url, resolved self names !! k = Some url ->
       exists entry,
         results !! k = Some entry /\
         entry_of url
           (Manager.worker_reply self (length (Manager.http_calls s) + k)
              (url +:+ "/task") (Manager.task_payload query) 60) entry).
Proof.
  induction names as [|a names IH]; intros acc s.
  - exists [], s. rewrite !app_nil_r. repeat split. intros k url Hk. discriminate.
  - cbn [map Manager.call_in_turn]. unfold resolved.
    change (omap (fun a0 => Manager.agent_map self !! a0) (a :: names))
      with (match Manager.agent_map self !! a with
            | Some u => u :: resolved self names
            | None => resolved self names
            end).
    unfold bind at 1, lift. cbn [Manager.resolve].
    destruct (Manager.agent_map self !! a) as [url|].
    + destruct (call_worker_run self url query 60 s) as (entry & Hrun & Hent).
      unfold bind at 1. rewrite Hrun.
      destruct (IH (acc ++ [entry])
                  (Manager.mkProcess (Manager.llm_calls s)
                     (Manager.http_calls s ++ [(url +:+ "/task", Manager.task_payload query)])
                     (Manager.events s) (Manager.logged s)))
        as (results & s' & Hrest & Hlog & Hlen & Hk).
      cbn [Manager.http_calls] in Hlog, Hk.
      exists (entry :: results), s'. split; [|split; [|split]].
      * rewrite Hrest. now rewrite <- app_assoc.
      * rewrite Hlog. cbn [map]. now rewrite <- app_assoc.
      * cbn [length]. now rewrite Hlen.
      * intros [|k] url' Hu.
        -- injection Hu as <-. exists entry. split; [reflexivity|].
           now rewrite Nat.add_0_r.
        -- destruct (Hk k url' Hu) as (entry' & He & Ho).
           exists entry'. split; [exact He|].
           rewrite length_app in Ho. cbn [length] in Ho.
           now replace (length (Manager.http_calls s) + S k)
             with (length (Manager.http_calls s) + 1 + k) by lia.
    + apply IH.
Qed.

(** X3.  In sequential mode the round trips are made one after the other
    in plan order: the record of round trips grows by the calls to the
    known names in that order, and the call made for the k-th known name
    is answered when exactly k calls of this dispatch have completed. *)
Theorem sequential_dispatch_is_serial (self : Manager.LegalManagerAgent)
    (query : pyval) (plan : dict) (names : list string) (s : Manager.process) :
  dict_get plan "agents" (PyList []) = PyList (map PyStr names) ->
  truthy (dict_get plan "parallel" (PyBool false)) = false ->
  exists results s',
    Manager._execute_plan self query (PyDict plan) s = (Ok results, s') /\
    Manager.http_calls s' =
      Manager.http_calls s ++ map (round_trip query) (resolved self names) /\
    length results = length (resolved self names) /\
    (forall k url, resolved self names !! k = Some url ->
       exists entry,
         results !! k = Some entry /\
         entry_of url
           (Manager.worker_reply self (length (Manager.http_calls s) + k)
              (url +:+ "/task") (Manager.task_payload query) 60) entry).
Proof.
  intros Hagents Hseq. unfold Manager._execute_plan, py_get. rewrite Hagents.
  unfold bind at 1, lift. unfold bind at 1. rewrite Hseq.
  unfold bind at 1, py_iter.
  exact (call_in_turn_serial self query names [] s).
Qed.

(** The sample names one after the other: worker 2 is called first and
    times out, worker 1 is called second. *)
Lemma sequential_dispatch_sample :
  (dict_get sequential_plan "agents" (PyList []) = PyList (map PyStr sample_names) /\
   truthy (dict_get sequential_plan "parallel" (PyBool false)) = false) /\
  exists results s',
    Manager._execute_plan sample_manager sample_query (PyDict sequential_plan) fresh
      = (Ok results, s') /\
    Manager.http_calls s' =
      [("http://localhost:8102/task", Manager.task_payload sample_query);
       ("http://localhost:8101/task", Manager.task_payload sample_query)] /\
    length results = 2 /\
    (forall k url, ["http://localhost:8102"; "http://localhost:8101"] !! k = Some url ->
       exists entry,
         results !! k = Some entry /\
         entry_of url
           (Manager.worker_reply sample_manager (0 + k)
              (url +:+ "/task") (Manager.task_payload sample_query) 60) entry).
Proof.
  split; [now split|].
  exact (sequential_dispatch_is_serial sample_manager sample_query sequential_plan
           sample_names fresh eq_refl eq_refl).
Defined.

Lemma settled_calls_insert {A B} (slots : list (option A)) (calls : list B)
    (i : nat) (x : A) (c : B) :
  slots !! i = Some None -> calls !! i = Some c ->
  settled_calls (<[i := Some x]> slots) calls ≡ₚ c :: settled_calls slots calls.
Proof.
  revert calls i. induction slots as [|o slots IH]; intros calls i Hs Hc; [discriminate|].
  destruct calls as [|c0 calls]; [discriminate|].
  destruct i as [|i].
  - cbn in Hs, Hc. injection Hs as ->. injection Hc as ->. reflexivity.
  - cbn in Hs, Hc. specialize (IH calls i Hs Hc).
    change (<[S i := Some x]> (o :: slots)) with (o :: <[i := Some x]> slots).
    destruct o as [y|]; cbn [settled_calls].
    + rewrite IH. apply Permutation_swap.
    + exact IH.
Qed.

Lemma settled_calls_all {A B} (slots : list (option A)) (calls : list B) :
  length slots = length calls ->
  (forall i, i < length slots -> exists x, slots !! i = Some (Some x)) ->
  settled_calls slots calls = calls.
Proof.
  revert calls. induction slots as [|o slots IH]; intros [|c calls] Hl Hall;
    try discriminate; [reflexivity|].
  destruct (Hall 0) as [x Hx]; [cbn; lia|]. cbn in Hx. injection Hx as ->.
  cbn [settled_calls]. f_equal. apply IH; [cbn in Hl; lia|].
  intros i Hi. apply (Hall (S i)). cbn. lia.
Qed.

Lemma settled_calls_none {A B} (n : nat) (calls : list B) :
  settled_calls (replicate n (@None A)) calls = [].
Proof.
  revert calls. induction n as [|n IH]; intros [|c calls]; try reflexivity.
  exact (IH calls).
Qed.

(** While gathered calls complete, the record of round trips holds, after
    what it held before, the calls of the positions that have completed,
    in their order of completion. *)
Lemma fold_complete_calls (self : Manager.LegalManagerAgent) (query : pyval)
    (urls : list string) (s0 : Manager.process) (l : list nat) :
  forall slots s,
    length slots = length urls ->
    (exists done, Manager.http_calls s = Manager.http_calls s0 ++ done /\
                  done ≡ₚ settled_calls slots (map (round_trip query) urls)) ->
    exists done,
      Manager.http_calls
        (snd (fold_left
                (complete (map (fun url => Manager._call_worker self url query 60) urls))
                l (slots, s)))
      = Manager.http_calls s0 ++ done /\
      done ≡ₚ settled_calls
                (fst (fold_left
                        (complete (map (fun url => Manager._call_worker self url query 60) urls))
                        l (slots, s)))
                (map (round_trip query) urls).
Proof.
  induction l as [|i l IH]; intros slots s Hlen Hinv; [exact Hinv|].
  cbn [fold_left]. unfold complete at 2 4.
  rewrite list_lookup_fmap.
  destruct (urls !! i) as [url|] eqn:Eu; cbn [fmap option_fmap option_map];
    [|now apply IH].
  destruct (slots !! i) as [[r|]|] eqn:Es; try now apply IH.
  destruct (call_worker_run self url query 60 s) as (entry & Hrun & _).
  rewrite Hrun. apply IH; [now rewrite length_insert|].
  destruct Hinv as (done & Hd & Hp).
  exists (done ++ [round_trip query url]). cbn [Manager.http_calls]. split.
  - rewrite Hd. now rewrite <- app_assoc.
  - rewrite settled_calls_insert with (c := round_trip query url);
      [| exact Es | now rewrite list_lookup_fmap, Eu].
    rewrite <- Hp. symmetry. apply Permutation_cons_append.
Qed.

Lemma gather_calls_once (self : Manager.LegalManagerAgent) (query : pyval)
    (urls : list string) (s : Manager.process) :
  exists results s' done,
    gather (Manager.completion_order self)
      (map (fun url => Manager._call_worker self url query 60) urls) s
      = (Ok results, s') /\
    Manager.http_calls s' = Manager.http_calls s ++ done /\
    done ≡ₚ map (round_trip query) urls.
Proof.
  set (tasks := map (fun url => Manager._call_worker self url query 60) urls).
  set (order := Manager.completion_order self ++ seq 0 (length tasks)).
  set (st0 := (replicate (length tasks) None, s)
              : list (option (result pyval)) * Manager.process).
  assert (Hto : forall i t s0, tasks !! i = Some t ->
            True /\ length (Manager.http_calls (snd (t s0)))
                    = S (length (Manager.http_calls s0))).
  { intros i t s0 Ht. split; [exact I|]. unfold tasks in Ht.
    rewrite list_lookup_fmap in Ht.
    destruct (urls !! i) as [url|]; [|discriminate]. injection Ht as <-.
    destruct (call_worker_run self url query 60 s0) as (entry & Hrun & _).
    rewrite Hrun. cbn [snd Manager.http_calls]. rewrite length_app. cbn. lia. }
  assert (H0 : gather_inv tasks (fun _ _ => True)
                 (fun p => length (Manager.http_calls p)) s st0).
  { unfold st0. repeat split; cbn [fst snd].
    - apply length_replicate.
    - unfold settled.
      assert (E : forall n, omap id (replicate n (@None (result pyval))) = []).
      { induction n as [|n IHn]; [reflexivity | exact IHn]. }
      rewrite E. cbn. lia. }
  assert (Hall : forall i, i < length tasks ->
            exists r, fst (fold_left (complete tasks) order st0) !! i = Some (Some r)).
  { intros i Hi.
    apply (fold_complete_settles tasks (fun _ _ => True)
             (fun p => length (Manager.http_calls p)) Hto s); [exact H0| |exact Hi].
    apply in_or_app. right. apply in_seq. lia. }
  pose proof (fold_complete_inv tasks (fun _ _ => True)
                (fun p => length (Manager.http_calls p)) Hto s order st0 H0) as (Hl & _ & _).
  destruct (fold_complete_calls self query urls s order
              (replicate (length tasks) None) s) as (done & Hd & Hp).
  { rewrite length_replicate. unfold tasks. now rewrite length_map. }
  { exists []. split; [now rewrite app_nil_r|]. now rewrite settled_calls_none. }
  fold tasks in Hd, Hp. fold st0 in Hd, Hp.
  unfold gather. fold tasks. fold order. fold st0.
  destruct (fold_left (complete tasks) order st0) as [slots s'] eqn:Ef.
  cbn [fst snd] in *.
  exists (omap id slots), s', done. split; [reflexivity|]. split; [exact Hd|].
  rewrite Hp. rewrite settled_calls_all; [reflexivity| |].
  - rewrite Hl. unfold tasks. now rewrite !length_map.
  - intros i Hi. apply Hall. lia.
Qed.

(** X4. A plan run in parallel makes one round trip to each worker whose
    name resolves, whatever the order in which the calls complete: the
    round trips added to the record are those of the resolved workers,
    rearranged, and neither the language model is invoked nor an event
    written meanwhile. *)
Theorem parallel_dispatch_calls_each_once (self : Manager.LegalManagerAgent)
    (query : pyval) (plan : dict) (names : list string) (s : Manager.process) :
  dict_get plan "agents" (PyList []) = PyList (map PyStr names) ->
  truthy (dict_get plan "parallel" (PyBool false)) = true ->
  exists results s' done,
    Manager._execute_plan self query (PyDict plan) s = (Ok results, s') /\
    Manager.http_calls s' = Manager.http_calls s ++ done /\
    done ≡ₚ map (round_trip query) (resolved self names) /\
    Manager.llm_calls s' = Manager.llm_calls s /\
    Manager.events s' = Manager.events s.
Proof.
  intros Hagents Hpar.
  destruct (gather_calls_once self query (resolved self names) s)
    as (rs & s' & done & Hg & Hd & Hp).
  assert (Hrun : Manager._execute_plan self query (PyDict plan) s
                 = (Ok (map Manager.exception_entry rs), s')).
  { unfold Manager._execute_plan, py_get. rewrite Hagents.
    unfold bind at 1, lift. unfold bind at 1. rewrite Hpar.
    unfold bind at 1, lift, py_iter. unfold bind at 1.
    rewrite resolve_all_names. unfold bind, ret. now rewrite Hg. }
  pose proof (execute_keeps Manager.llm_calls self query (PyDict plan)
                (fun _ _ => eq_refl) s) as Hllm.
  pose proof (execute_keeps Manager.events self query (PyDict plan)
                (fun _ _ => eq_refl) s) as Hev.
  rewrite Hrun in Hllm, Hev.
  exists (map Manager.exception_entry rs), s', done. now repeat split.
Qed.

(** The sample plan in parallel: the call to worker 1 completes first. *)
Lemma parallel_dispatch_sample :
  (dict_get sample_plan "agents" (PyList []) = PyList (map PyStr sample_names) /\
   truthy (dict_get sample_plan "parallel" (PyBool false)) = true) /\
  exists results s' done,
    Manager._execute_plan sample_manager sample_query (PyDict sample_plan) fresh
      = (Ok results, s') /\
    Manager.http_calls s' = [] ++ done /\
    done ≡ₚ [("http://localhost:8102/task", Manager.task_payload sample_query);
             ("http://localhost:8101/task", Manager.task_payload sample_query)] /\
    Manager.llm_calls s' = [] /\
    Manager.events s' = [].
Proof.
  split; [now split|].
  exact (parallel_dispatch_calls_each_once sample_manager sample_query sample_plan
           sample_names fresh eq_refl eq_refl).
Defined.

Lemma resolve_unhashable (self : Manager.LegalManagerAgent) (bad : pyval) :
  unhashable bad = true -> Manager.resolve self bad = Raise (unhashable_type bad).
Proof. destruct bad; try discriminate; reflexivity. Qed.

Lemma resolve_all_unhashable (self : Manager.LegalManagerAgent) (names : list string)
    (bad : pyval) (rest : list pyval) :
  unhashable bad = true ->
  Manager.resolve_all self (map PyStr names ++ bad :: rest) = Raise (unhashable_type bad).
Proof.
  intros Hbad. induction names as [|a names IH].
  - cbn [map app Manager.resolve_all]. now rewrite resolve_unhashable.
  - cbn [map app Manager.resolve_all Manager.resolve]. rewrite IH.
    now destruct (Manager.agent_map self !! a).
Qed.

Lemma call_in_turn_unhashable (self : Manager.LegalManagerAgent) (query : pyval)
    (names : list string) (bad : pyval) (rest : list pyval) :
  unhashable bad = true ->
  forall (acc : list pyval) (s : Manager.process),
  exists s',
    Manager.call_in_turn self query (map PyStr names ++ bad :: rest) acc s
      = (Raise (unhashable_type bad), s') /\
    Manager.http_calls s' =
      Manager.http_calls s ++ map (round_trip query) (resolved self names).
Proof.
  intros Hbad. induction names as [|a names IH]; intros acc s.
  - exists s. cbn [map app Manager.call_in_turn]. unfold bind, lift.
    rewrite resolve_unhashable by exact Hbad. split; [reflexivity|].
    cbn. now rewrite app_nil_r.
  - cbn [map app Manager.call_in_turn]. unfold resolved.
    change (omap (fun a0 => Manager.agent_map self !! a0) (a :: names))
      with (match Manager.agent_map self !! a with
            | Some u => u :: resolved self names
            | None => resolved self names
            end).
    unfold bind at 1, lift. cbn [Manager.resolve].
    destruct (Manager.agent_map self !! a) as [url|].
    + destruct (call_worker_run self url query 60 s) as (entry & Hrun & _).
      unfold bind at 1. rewrite Hrun.
      destruct (IH (acc ++ [entry])
                  (Manager.mkProcess (Manager.llm_calls s)
                     (Manager.http_calls s ++ [(url +:+ "/task", Manager.task_payload query)])
                     (Manager.events s) (Manager.logged s)))
        as (s' & Hrest & Hcalls).
      exists s'. split; [exact Hrest|]. rewrite Hcalls. cbn [Manager.http_calls map].
      now rewrite <- app_assoc.
    + apply IH.
Qed.

(** X5.  A plan whose agent list holds a list or a dict makes dispatch
    raise the interpreter's TypeError.  In parallel no worker is called at
    all, since the calls are built before any is awaited; one after the
    other, the workers named before the offending item have been called
    by then, and their results are lost. *)
Theorem unhashable_agent_aborts_dispatch (self : Manager.LegalManagerAgent)
    (query : pyval) (plan : dict) (names : list string) (bad : pyval)
    (rest : list pyval) (s : Manager.process) :
  dict_get plan "agents" (PyList []) = PyList (map PyStr names ++ bad :: rest) ->
  unhashable bad = true ->
  exists s',
    Manager._execute_plan self query (PyDict plan) s = (Raise (unhashable_type bad), s') /\
    Manager.http_calls s' =
      Manager.http_calls s ++
      (if truthy (dict_get plan "parallel" (PyBool false)) then []
       else map (round_trip query) (resolved self names)).
Proof.
  intros Hagents Hbad. unfold Manager._execute_plan, py_get. rewrite Hagents.
  unfold bind at 1, lift. unfold bind at 1.
  destruct (truthy (dict_get plan "parallel" (PyBool false))).
  - unfold bind at 1, lift, py_iter. unfold bind at 1.
    rewrite resolve_all_unhashable by exact Hbad.
    exists s. split; [reflexivity|]. now rewrite app_nil_r.
  - unfold bind at 1, lift, py_iter.
    exact (call_in_turn_unhashable self query names bad rest Hbad [] s).
Qed.

(** Worker 1 is called, then the list is met. *)
Lemma unhashable_agent_sample :
  (dict_get ill_typed_plan "agents" (PyList [])
     = PyList (map PyStr ["worker_agent_1"] ++ PyList [] :: [PyStr "worker_agent_2"]) /\
   unhashable (PyList []) = true) /\
  exists s',
    Manager._execute_plan sample_manager sample_query (PyDict ill_typed_plan) fresh
      = (Raise (Exc "TypeError" "unhashable type: 'list'"), s') /\
    Manager.http_calls s' =
      [("http://localhost:8101/task", Manager.task_payload sample_query)].
Proof.
  split; [now split|].
  exact (unhashable_agent_aborts_dispatch sample_manager sample_query ill_typed_plan
           ["worker_agent_1"] (PyList []) [PyStr "worker_agent_2"] fresh eq_refl eq_refl).
Defined.

Lemma collect_texts_labelled (self : Manager.LegalManagerAgent)
    (outcomes : list outcome) :
  forall i acc,
    Manager.collect_texts self i (map entry_for outcomes) acc
    = Ok (acc ++ labelled (Manager.repr self) i outcomes).
Proof.
  induction outcomes as [|o outcomes IH]; intros i acc.
  - cbn. now rewrite app_nil_r.
  - destruct o as [error url|id state_name txt url].
    + cbn [map entry_for labelled]. unfold Manager.call_failed.
      cbn [Manager.collect_texts]. unfold py_get, dict_get. cbn [dict_lookup String.eqb].
      cbn. apply IH.
    + cbn [map entry_for labelled].
      change (Manager.collect_texts self i
                (Manager.call_succeeded (response id state_name txt) url
                 :: map entry_for outcomes) acc)
        with (Manager.collect_texts self (S i) (map entry_for outcomes)
                (acc ++ ["Agent " +:+ pretty (i + 1)%nat +:+ " Result:" +:+ nl
                         +:+ py_str (Manager.repr self) txt])).
      rewrite IH. now rewrite <- app_assoc.
Qed.

(** X6.  The synthesizer reads the text of every reply that came back
    with status 200, whatever the state of the worker's task: the text
    of a task that failed or asked for input is a result like any other.
    Each text is numbered by its position among all the entries, failed
    calls included.  With no reply at all the fixed text is returned and
    the language model is left alone; otherwise it is invoked once, on
    the prompt built from these texts. *)
Theorem synthesis_reads_every_reply (self : Manager.LegalManagerAgent)
    (query : pyval) (outcomes : list outcome) (s : Manager.process) :
  Manager._synthesize_results self query (map entry_for outcomes) s =
  match labelled (Manager.repr self) 0 outcomes with
  | [] => (Ok Manager.no_results, s)
  | texts =>
      let prompt := Manager.synthesis_prompt (py_str (Manager.repr self) query) texts in
      (Ok match Manager.llm_reply self (length (Manager.llm_calls s)) 2000 prompt with
          | Ok content => strip content
          | Raise e => "Synthesis error: " +:+ exn_str e
          end,
       Manager.mkProcess (Manager.llm_calls s ++ [(2000%Z, prompt)])
         (Manager.http_calls s) (Manager.events s) (Manager.logged s))
  end.
Proof.
  unfold Manager._synthesize_results, try_except, bind, lift, Manager.ainvoke,
    Manager._create_llm, ret.
  rewrite collect_texts_labelled. cbn [app Manager.max_tokens].
  destruct (labelled (Manager.repr self) 0 outcomes) as [|t ts]; [reflexivity|].
  cbv zeta.
  destruct (Manager.llm_reply self _ 2000 _); reflexivity.
Qed.

(** ** The pipeline when the language model cannot be reached *)

Lemma classify_down (self : Manager.LegalManagerAgent) (query : pyval)
    (s : Manager.process) :
  (forall n k p, is_ok (Manager.llm_reply self n k p) = false) ->
  exists s1,
    Manager._classify_complexity self query s = (Ok Manager.SIMPLE, s1) /\
    Manager.http_calls s1 = Manager.http_calls s /\
    Manager.events s1 = Manager.events s.
Proof.
  intros Hdown.
  unfold Manager._classify_complexity, try_except, bind, Manager.ainvoke,
    Manager.logger, modify, ret, Manager._create_llm. cbn [Manager.max_tokens].
  match goal with
  | |- context [Manager.llm_reply self ?n ?k ?p] =>
      pose proof (Hdown n k p) as Hd; destruct (Manager.llm_reply self n k p)
  end; [discriminate|].
  now eexists.
Qed.

Lemma plan_down (self : Manager.LegalManagerAgent) (query : pyval)
    (s : Manager.process) :
  (forall n k p, is_ok (Manager.llm_reply self n k p) = false) ->
  exists s1,
    Manager._plan_execution self query s = (Ok Manager.fallback_plan, s1) /\
    Manager.http_calls s1 = Manager.http_calls s /\
    Manager.events s1 = Manager.events s.
Proof.
  intros Hdown.
  unfold Manager._plan_execution, try_except, bind, Manager.ainvoke, lift,
    Manager.logger, modify, ret, Manager._create_llm. cbn [Manager.max_tokens].
  match goal with
  | |- context [Manager.llm_reply self ?n ?k ?p] =>
      pose proof (Hdown n k p) as Hd; destruct (Manager.llm_reply self n k p)
  end; [discriminate|].
  now eexists.
Qed.

Lemma execute_fallback (self : Manager.LegalManagerAgent) (query : pyval)
    (s : Manager.process) :
  exists entry s1,
    Manager._execute_plan self query Manager.fallback_plan s = (Ok [entry], s1) /\
    entry_of (Manager.worker_agent_1_url self)
      (Manager.worker_reply self (length (Manager.http_calls s))
         (Manager.worker_agent_1_url self +:+ "/task") (Manager.task_payload query) 60)
      entry /\
    Manager.http_calls s1 =
      Manager.http_calls s ++ [round_trip query (Manager.worker_agent_1_url self)] /\
    Manager.events s1 = Manager.events s.
Proof.
  destruct (call_worker_run self (Manager.worker_agent_1_url self) query 60 s)
    as (entry & Hrun & Hent).
  exists entry. eexists. split; [|split; [exact Hent|]].
  - unfold Manager._execute_plan, Manager.fallback_plan, py_get, dict_get.
    cbn [dict_lookup String.eqb Ascii.eqb Bool.eqb].
    unfold bind at 1, lift. unfold bind at 1. cbn [truthy].
    unfold bind at 1, lift, py_iter. cbn [Manager.call_in_turn].
    unfold bind at 1, lift. cbn [Manager.resolve].
    change (Manager.agent_map self !! "worker_agent_1")
      with (Some (Manager.worker_agent_1_url self)).
    unfold bind at 1. rewrite Hrun. reflexivity.
  - now split.
Qed.

(** X7.  With the language model out of reach an analysis still ends
    with a text and still consults a worker: the query counts as simple,
    the plan is the plan of last resort, worker 1 is called once and no
    other, and the answer is the fixed text for no results when the call
    brought no text, a synthesis error otherwise. *)
Theorem analysis_without_language_model (self : Manager.LegalManagerAgent)
    (query : pyval) (s : Manager.process) :
  (forall n k p, is_ok (Manager.llm_reply self n k p) = false) ->
  exists entry answer s',
    Manager.analyze_legal_query self query s = (Ok answer, s') /\
    entry_of (Manager.worker_agent_1_url self)
      (Manager.worker_reply self (length (Manager.http_calls s))
         (Manager.worker_agent_1_url self +:+ "/task") (Manager.task_payload query) 60)
      entry /\
    Manager.http_calls s' =
      Manager.http_calls s ++ [round_trip query (Manager.worker_agent_1_url self)] /\
    Manager.events s' =
      Manager.events s ++
      [query_received query; complexity_classified Manager.SIMPLE;
       plan_created Manager.fallback_plan; execution_complete [entry];
       synthesis_complete answer] /\
    (answer = Manager.no_results \/ exists e, answer = "Synthesis error: " +:+ exn_str e).
Proof.
  intros Hdown.
  unfold Manager.analyze_legal_query, try_except, bind, Manager.log_event, modify, ret.
  match goal with
  | |- context [Manager._classify_complexity self query ?st] =>
      destruct (classify_down self query st Hdown) as (s1 & Hc & H1 & E1);
      rewrite Hc
  end.
  cbn [Manager.llm_calls Manager.events Manager.http_calls Manager.logged] in *.
  match goal with
  | |- context [Manager._plan_execution self query ?st] =>
      destruct (plan_down self query st Hdown) as (s2 & Hp & H2 & E2);
      rewrite Hp
  end.
  cbn [Manager.llm_calls Manager.events Manager.http_calls Manager.logged] in *.
  match goal with
  | |- context [Manager._execute_plan self query Manager.fallback_plan ?st] =>
      destruct (execute_fallback self query st) as (entry & s3 & He & Hent & H3 & E3);
      rewrite He
  end.
  cbn [Manager.llm_calls Manager.events Manager.http_calls Manager.logged] in *.
  match goal with
  | |- context [Manager._synthesize_results self query [entry] ?st] =>
      pose proof (synthesize_run self query [entry] st) as Hans;
      destruct (synthesize_frame self query [entry] st)
        as (answer & s4 & Hs & _ & H4 & E4);
      rewrite Hs in Hans |- *
  end.
  cbn [fst Manager.llm_calls Manager.events Manager.http_calls Manager.logged] in *.
  exists entry, answer. eexists. split; [reflexivity|].
  cbn [Manager.llm_calls Manager.events Manager.http_calls Manager.logged].
  split; [now rewrite H2, H1 in Hent|].
  split; [now rewrite H4, H3, H2, H1|].
  split; [rewrite E4, E3, E2, E1; now repeat rewrite <- app_assoc|].
  set (texts := Manager.collect_texts self 0 [entry] []) in Hans.
  injection Hans as ->.
  destruct texts as [[|t ts]|e]; [now left | | right; now exists e].
  match goal with
  | |- context [Manager.llm_reply self ?n ?k ?p] =>
      pose proof (Hdown n k p) as Hd; destruct (Manager.llm_reply self n k p) as [|e]
  end; [discriminate|].
  right. now exists e.
Qed.

(** The sample manager has no language model to talk to; its first
    worker call times out. *)
Lemma analysis_without_language_model_sample :
  (forall n k p, is_ok (Manager.llm_reply sample_manager n k p) = false) /\
  exists entry answer s',
    Manager.analyze_legal_query sample_manager sample_query fresh = (Ok answer, s') /\
    entry_of "http://localhost:8101"
      (Manager.worker_reply sample_manager 0 "http://localhost:8101/task"
         (Manager.task_payload sample_query) 60)
      entry /\
    Manager.http_calls s' =
      [("http://localhost:8101/task", Manager.task_payload sample_query)] /\
    Manager.events s' =
      [query_received sample_query; complexity_classified Manager.SIMPLE;
       plan_created Manager.fallback_plan; execution_complete [entry];
       synthesis_complete answer] /\
    (answer = Manager.no_results \/ exists e, answer = "Synthesis error: " +:+ exn_str e).
Proof.
  split; [intros n k p; reflexivity|].
  exact (analysis_without_language_model sample_manager sample_query fresh
           (fun n k p => eq_refl)).
Defined.

(** ** The base agent and the workers *)

Lemma ensure_keeps_events (self : Base.BaseAgent) :
  keeps Base.events (Base.ensure_mcp_initialized self).
Proof.
  intros s.
  unfold Base.ensure_mcp_initialized, try_except, bind, Base.logger, modify,
    Base.connect, Base.load_tools, lift, gets, ret.
  destruct (Base._mcp_client s); [reflexivity|].
  destruct (Base.get_mcp_config self); [reflexivity|].
  cbn [Base.mcp_attempts].
  destruct (Base.new_client self _ _); [|reflexivity].
  destruct (Base.get_tools self _); reflexivity.
Qed.

Lemma run_react_agent_keeps_events (get_system_prompt : Base.BaseAgent -> string)
    (self : Base.BaseAgent) (query : pyval) (system_prompt : option string)
    (limit : Z) :
  keeps Base.events (Base.run_react_agent get_system_prompt self query system_prompt limit).
Proof.
  unfold Base.run_react_agent.
  apply keeps_bind; [apply ensure_keeps_events|]. intros ready.
  destruct ready; cbn [negb]; [|apply keeps_ret].
  intros s. unfold bind, gets, ret, Base.run_agent.
  destruct (Base._tools s); reflexivity.
Qed.

(** The client is built and the listing of its tools fails: the call
    answers False and keeps the client. *)
Lemma ensure_listing_fails (self : Base.BaseAgent) (s : Base.process) (e : exn) :
  Base._mcp_client s = None ->
  Base.get_mcp_config self <> [] ->
  is_ok (Base.new_client self (Base.mcp_attempts s) (Base.get_mcp_config self)) = true ->
  Base.get_tools self (Base.get_mcp_config self) = Raise e ->
  exists s1,
    Base.ensure_mcp_initialized self s = (Ok false, s1) /\
    Base._mcp_client s1 = Some (Base.get_mcp_config self) /\
    Base._tools s1 = Base._tools s /\
    Base.mcp_attempts s1 = S (Base.mcp_attempts s).
Proof.
  intros Hc Hcfg Hnew Hget.
  unfold Base.ensure_mcp_initialized, try_except, bind, Base.logger, modify,
    Base.connect, Base.load_tools, lift, gets, ret.
  rewrite Hc.
  destruct (Base.get_mcp_config self) as [|kv cfg] eqn:E; [congruence|].
  cbn [Base.mcp_attempts].
  destruct (Base.new_client self _ _); [|discriminate Hnew].
  rewrite Hget. eexists. split; [reflexivity|]. now repeat split.
Qed.

(** X8.  A failure to list the tools is never retried.  When the client
    is built and the listing of its tools raises, initialisation answers
    False but the client stays in place; from then on initialisation
    answers True at once, without another attempt and without tools, and
    a query is answered with the text for no tools. *)
Theorem tool_listing_failure_is_not_retried
    (get_system_prompt : Base.BaseAgent -> string) (self : Base.BaseAgent)
    (s : Base.process) (e : exn) :
  Base._mcp_client s = None ->
  Base._tools s = [] ->
  Base.get_mcp_config self <> [] ->
  is_ok (Base.new_client self (Base.mcp_attempts s) (Base.get_mcp_config self)) = true ->
  Base.get_tools self (Base.get_mcp_config self) = Raise e ->
  exists s1,
    Base.ensure_mcp_initialized self s = (Ok false, s1) /\
    Base.mcp_attempts s1 = S (Base.mcp_attempts s) /\
    Base.ensure_mcp_initialized self s1 = (Ok true, s1) /\
    forall query system_prompt limit,
      Base.run_react_agent get_system_prompt self query system_prompt limit s1
      = (Ok "Error: No tools available", s1).
Proof.
  intros Hc Ht Hcfg Hnew Hget.
  destruct (ensure_listing_fails self s e Hc Hcfg Hnew Hget)
    as (s1 & Hrun & Hc1 & Ht1 & Ha1).
  exists s1. split; [exact Hrun|]. split; [exact Ha1|].
  pose proof (ensure_already self s1 _ Hc1) as Hagain.
  split; [exact Hagain|].
  intros query system_prompt limit.
  unfold Base.run_react_agent, bind at 1. rewrite Hagain. cbn [negb].
  unfold bind, gets, ret. now rewrite Ht1, Ht.
Qed.

(** The second sample worker reaches a backend that cannot list its
    tools. *)
Lemma tool_listing_failure_sample :
  (Base._mcp_client fresh_worker = None /\
   Base._tools fresh_worker = [] /\
   Base.get_mcp_config sample_worker_2 <> [] /\
   is_ok (Base.new_client sample_worker_2 (Base.mcp_attempts fresh_worker)
            (Base.get_mcp_config sample_worker_2)) = true /\
   Base.get_tools sample_worker_2 (Base.get_mcp_config sample_worker_2)
     = Raise (Exc "ConnectError" "All connection attempts failed")) /\
  exists s1,
    Base.ensure_mcp_initialized sample_worker_2 fresh_worker = (Ok false, s1) /\
    Base.mcp_attempts s1 = 1 /\
    Base.ensure_mcp_initialized sample_worker_2 s1 = (Ok true, s1) /\
    forall query system_prompt limit,
      Base.run_react_agent WorkerAgent2.get_system_prompt sample_worker_2 query
        system_prompt limit s1
      = (Ok "Error: No tools available", s1).
Proof.
  assert (H : Base.get_mcp_config sample_worker_2 <> []) by discriminate.
  split; [repeat split; exact H|].
  exact (tool_listing_failure_is_not_retried WorkerAgent2.get_system_prompt
           sample_worker_2 fresh_worker _ eq_refl eq_refl H eq_refl eq_refl).
Defined.

Lemma dict_lookup_set_eq (k : string) (v : pyval) (d : dict) :
  dict_lookup k (dict_set k v d) = Some v.
Proof.
  induction d as [|[k' v'] d IH]; cbn [dict_set dict_lookup].
  - now rewrite String.eqb_refl.
  - destruct (String.eqb k' k) eqn:E; cbn [dict_lookup].
    + now rewrite String.eqb_refl.
    + now rewrite E.
Qed.

Lemma dict_lookup_set_ne (k k0 : string) (v : pyval) (d : dict) :
  k <> k0 -> dict_lookup k0 (dict_set k v d) = dict_lookup k0 d.
Proof.
  intros Hne. induction d as [|[k' v'] d IH]; cbn [dict_set dict_lookup].
  - apply String.eqb_neq in Hne. now rewrite Hne.
  - destruct (String.eqb k' k) eqn:E; cbn [dict_lookup].
    + apply String.eqb_eq in E as ->.
      apply String.eqb_neq in Hne. now rewrite Hne.
    + now rewrite IH.
Qed.

Lemma dict_set_in (k k0 : string) (v : pyval) (d : dict) :
  k0 ∈ map fst (dict_set k v d) -> k0 = k \/ k0 ∈ map fst d.
Proof.
  induction d as [|[k' v'] d IH]; cbn [dict_set map fst].
  - intros H. apply elem_of_cons in H as [->|H]; [now left | inversion H].
  - destruct (String.eqb k' k) eqn:E; cbn [map fst]; intros H;
      apply elem_of_cons in H as [->|H].
    + now left.
    + right. now apply elem_of_cons; right.
    + right. now apply elem_of_cons; left.
    + destruct (IH H) as [->|H']; [now left | right; now apply elem_of_cons; right].
Qed.

Lemma dict_set_keys (k : string) (v : pyval) (d : dict) :
  NoDup (map fst d) -> NoDup (map fst (dict_set k v d)).
Proof.
  induction d as [|[k' v'] d IH]; cbn [dict_set map fst]; intros Hd.
  - apply NoDup_singleton.
  - apply NoDup_cons in Hd as [Hk Hd].
    destruct (String.eqb k' k) eqn:E; cbn [map fst].
    + apply String.eqb_eq in E as ->. now apply NoDup_cons.
    + apply NoDup_cons. split; [|now apply IH].
      intros H. apply String.eqb_neq in E.
      destruct (dict_set_in k k' v d H) as [->|H']; [congruence | now apply Hk].
Qed.

Lemma configured_app (self : Base.BaseAgent) (seen : list string) (a t : string) :
  configured self (seen ++ [a]) t =
  configured self seen t
  || (String.eqb t a && negb (String.eqb (Base.get_tool_url self t) "")).
Proof.
  unfold configured. rewrite existsb_app. cbn [existsb]. rewrite orb_false_r.
  now destruct (existsb (String.eqb t) seen), (String.eqb t a),
    (String.eqb (Base.get_tool_url self t) "").
Qed.

Lemma mcp_config_fold (self : Base.BaseAgent) (names : list string) :
  forall (acc : dict) (seen : list string),
    NoDup (map fst acc) ->
    (forall t, dict_lookup t acc =
               if configured self seen t
               then Some (tool_entry (Base.get_tool_url self t)) else None) ->
    let cfg :=
      fold_left
        (fun mcp_config tool_name =>
           let url := Base.get_tool_url self tool_name in
           if negb (String.eqb url "") then
             dict_set tool_name
               (PyDict [("url", PyStr url); ("transport", PyStr "streamable_http")])
               mcp_config
           else mcp_config)
        names acc in
    NoDup (map fst cfg) /\
    forall t, dict_lookup t cfg =
              if configured self (seen ++ names) t
              then Some (tool_entry (Base.get_tool_url self t)) else None.
Proof.
  induction names as [|a names IH]; intros acc seen Hnd Hlk; cbn [fold_left].
  - rewrite app_nil_r. now split.
  - cbv zeta.
    replace (seen ++ a :: names) with ((seen ++ [a]) ++ names)
      by now rewrite <- app_assoc.
    apply IH.
    + destruct (String.eqb (Base.get_tool_url self a) ""); cbn [negb];
        [exact Hnd | now apply dict_set_keys].
    + intros t. rewrite configured_app.
      destruct (String.eqb t a) eqn:E.
      * apply String.eqb_eq in E as ->.
        destruct (String.eqb (Base.get_tool_url self a) "") eqn:U; cbn [negb andb].
        -- rewrite orb_false_r. apply Hlk.
        -- rewrite orb_true_r. apply dict_lookup_set_eq.
      * cbn [andb]. rewrite orb_false_r.
        apply String.eqb_neq in E.
        destruct (String.eqb (Base.get_tool_url self a) ""); cbn [negb]; [apply Hlk|].
        rewrite dict_lookup_set_ne by congruence. apply Hlk.
Qed.

(** X9.  The MCP configuration holds one entry for each tool that the
    agent names and the registry knows, under that name and with the
    tool's URL and the streamable_http transport; a name given twice
    gives one entry, and a tool without URL gives none.  The
    configuration is empty exactly when no named tool has a URL. *)
Theorem mcp_config_entries (self : Base.BaseAgent) :
  NoDup (map fst (Base.get_mcp_config self)) /\
  (forall t,
     dict_lookup t (Base.get_mcp_config self) =
     if configured self (Base._mcp_tool_names self) t
     then Some (tool_entry (Base.get_tool_url self t)) else None) /\
  (Base.get_mcp_config self = [] <->
   forall t, In t (Base._mcp_tool_names self) -> Base.get_tool_url self t = "").
Proof.
  destruct (mcp_config_fold self (Base._mcp_tool_names self) [] [])
    as [Hnd Hlk]; [apply NoDup_nil_2 | reflexivity |].
  cbn [app] in Hlk. fold (Base.get_mcp_config self) in Hnd, Hlk.
  split; [exact Hnd|]. split; [exact Hlk|]. split.
  - intros Hempty t Hin. specialize (Hlk t). rewrite Hempty in Hlk. cbn in Hlk.
    unfold configured in Hlk.
    assert (Hex : existsb (String.eqb t) (Base._mcp_tool_names self) = true).
    { apply existsb_exists. exists t. split; [exact Hin | apply String.eqb_refl]. }
    rewrite Hex in Hlk. cbn [andb] in Hlk.
    destruct (String.eqb (Base.get_tool_url self t) "") eqn:U; [|discriminate].
    now apply String.eqb_eq.
  - intros Hall. destruct (Base.get_mcp_config self) as [|[k v] cfg]; [reflexivity|].
    specialize (Hlk k). cbn [dict_lookup] in Hlk. rewrite String.eqb_refl in Hlk.
    unfold configured in Hlk.
    destruct (existsb (String.eqb k) (Base._mcp_tool_names self)) eqn:Hex;
      [|discriminate].
    apply existsb_exists in Hex as (t & Hin & Heq). apply String.eqb_eq in Heq as <-.
    rewrite (Hall k Hin) in Hlk. discriminate.
Qed.

(** A worker's processing function returns a text and writes no audit
    event, with whatever system prompt. *)
Lemma worker_query_run (get_system_prompt : Base.BaseAgent -> string)
    (self : Base.BaseAgent) (query : pyval) (s : Base.process) :
  exists answer s',
    try_except
      (result <- Base.run_react_agent get_system_prompt self query None 25 ;;
       ret result)
      (fun e =>
         Base.logger ERROR ("Query processing error: " +:+ exn_str e) ;;
         ret ("Error processing query: " +:+ exn_str e)) s
    = (Ok answer, s') /\
    Base.events s' = Base.events s.
Proof.
  pose proof (run_react_agent_keeps_events get_system_prompt self query None 25 s) as Hk.
  unfold try_except, bind at 1.
  destruct (Base.run_react_agent get_system_prompt self query None 25 s)
    as [[r|e] s1]; cbn [snd] in Hk.
  - now eexists _, _.
  - unfold bind, Base.logger, modify, ret. now eexists _, _.
Qed.

Lemma handle_task_trail
    (process_query : Base.BaseAgent -> pyval -> M Base.process string)
    (self : Base.BaseAgent) (task : Task) (s : Base.process) :
  (forall query s0, exists answer s1,
      process_query self query s0 = (Ok answer, s1) /\
      Base.events s1 = Base.events s0) ->
  audit_trail (Base.handle_task process_query) self task s.
Proof.
  intros Hpq. unfold audit_trail.
  change (Base._extract_query self task)
    with (Base._extract_query self (set_status (mkTaskStatus PROCESSING None) task)).
  unfold Base.handle_task, Base.log_event, Base.logger, try_except, bind,
    on_task, in_process, modify, gets, lift, ret.
  cbn [fst snd].
  destruct (Base._extract_query self _) as [query|e].
  - destruct (truthy query); cbn [negb].
    + match goal with
      | |- context [process_query self query ?s0] =>
          destruct (Hpq query s0) as (answer & s1 & Hrun & Hev); rewrite Hrun
      end.
      eexists _, _. split; [reflexivity|]. exists answer.
      cbn [task_status task_artifacts set_status set_artifacts Base.events] in *.
      rewrite Hev. cbn [Base.events]. rewrite <- app_assoc. now repeat split.
    + eexists _, _. split; [reflexivity|]. now split.
  - eexists _, _. split; [reflexivity|]. now split.
Qed.

(** X10.  The audit trail of a worker's task.  Both workers answer every
    task without raising.  A task with a query is always completed, with
    the answer as its one artifact, and leaves exactly two events, the
    query received and the answer: an error met while the query is
    processed becomes the answer and is not recorded as an error.  A task
    without query changes nothing in the process; only a message that
    cannot be read gives a failed task and a TASK_ERROR event. *)
Theorem worker_task_audit_trail (self : Base.BaseAgent) (task : Task)
    (s : Base.process) :
  audit_trail WorkerAgent1.handle_task self task s /\
  audit_trail WorkerAgent2.handle_task self task s.
Proof.
  split.
  - apply handle_task_trail. intros query s0.
    exact (worker_query_run WorkerAgent1.get_system_prompt self query s0).
  - apply handle_task_trail. intros query s0.
    exact (worker_query_run WorkerAgent2.get_system_prompt self query s0).
Qed.

Lemma worker_query_ready (get_system_prompt : Base.BaseAgent -> string)
    (self : Base.BaseAgent) (query : pyval) (s s1 : Base.process)
    (tool : string) (tools : list string) :
  Base.ensure_mcp_initialized self s = (Ok true, s1) ->
  Base._tools s1 = tool :: tools ->
  exists s',
    try_except
      (result <- Base.run_react_agent get_system_prompt self query None 25 ;;
       ret result)
      (fun e =>
         Base.logger ERROR ("Query processing error: " +:+ exn_str e) ;;
         ret ("Error processing query: " +:+ exn_str e)) s
    = (Ok (loop_answer
             (Base.react_agent self (length (Base.react_calls s1)) (tool :: tools)
                (get_system_prompt self) query 25)), s') /\
    Base.react_calls s' = Base.react_calls s1 ++ [query].
Proof.
  intros Hready Htools.
  unfold try_except, Base.run_react_agent, bind at 1. unfold bind at 1.
  rewrite Hready. cbn [negb]. unfold bind at 1, gets. rewrite Htools.
  unfold Base.run_agent.
  destruct (Base.react_agent self _ _ _ query 25) as [content|e]; cbn [loop_answer].
  - unfold ret. now eexists.
  - unfold bind, Base.logger, modify, ret. now eexists.
Qed.

Lemma prompt_or_fallback (prompt fallback : string) :
  fallback <> "" ->
  (if negb (String.eqb prompt "") then prompt else fallback) <> "" /\
  (prompt <> "" -> (if negb (String.eqb prompt "") then prompt else fallback) = prompt).
Proof.
  intros Hf. destruct (String.eqb prompt "") eqn:E; cbn [negb].
  - apply String.eqb_eq in E. split; [exact Hf | congruence].
  - apply String.eqb_neq in E. now split.
Qed.

(** X11.  With its tools at hand a worker runs the reasoning loop once
    for a query, with all the tools, its own system prompt and a limit
    of 25 steps, and answers with the content of the loop's last message;
    when the loop raises, the answer is the text of the exception after
    "Error processing query: ".  The system prompt is the prompt file of
    the worker when it has content and the built-in prompt otherwise,
    hence never empty. *)
Theorem worker_answers_from_loop (self : Base.BaseAgent) (query : pyval)
    (s s1 : Base.process) (tool : string) (tools : list string) :
  Base.ensure_mcp_initialized self s = (Ok true, s1) ->
  Base._tools s1 = tool :: tools ->
  (exists s',
     WorkerAgent1.process_query self query s =
       (Ok (loop_answer
              (Base.react_agent self (length (Base.react_calls s1)) (tool :: tools)
                 (WorkerAgent1.get_system_prompt self) query 25)), s') /\
     Base.react_calls s' = Base.react_calls s1 ++ [query]) /\
  (exists s',
     WorkerAgent2.process_query self query s =
       (Ok (loop_answer
              (Base.react_agent self (length (Base.react_calls s1)) (tool :: tools)
                 (WorkerAgent2.get_system_prompt self) query 25)), s') /\
     Base.react_calls s' = Base.react_calls s1 ++ [query]) /\
  WorkerAgent1.get_system_prompt self <> "" /\
  WorkerAgent2.get_system_prompt self <> "" /\
  (Base.load_prompt self "worker_agent_1" <> "" ->
   WorkerAgent1.get_system_prompt self = Base.load_prompt self "worker_agent_1") /\
  (Base.load_prompt self "worker_agent_2" <> "" ->
   WorkerAgent2.get_system_prompt self = Base.load_prompt self "worker_agent_2").
Proof.
  intros Hready Htools.
  split; [exact (worker_query_ready WorkerAgent1.get_system_prompt self query s s1
                   tool tools Hready Htools)|].
  split; [exact (worker_query_ready WorkerAgent2.get_system_prompt self query s s1
                   tool tools Hready Htools)|].
  destruct (prompt_or_fallback (Base.load_prompt self "worker_agent_1")
              WorkerAgent1.fallback_prompt) as [N1 L1]; [discriminate|].
  destruct (prompt_or_fallback (Base.load_prompt self "worker_agent_2")
              WorkerAgent2.fallback_prompt) as [N2 L2]; [discriminate|].
  now repeat split.
Qed.

(** A worker whose backend lists one tool and whose loop exceeds its
    limit: the tools are loaded on the first query and the answer is the
    error text. *)
Lemma worker_answers_from_loop_sample :
  (Base.ensure_mcp_initialized ready_worker fresh_worker
   = (Ok true, snd (Base.ensure_mcp_initialized ready_worker fresh_worker)) /\
   Base._tools (snd (Base.ensure_mcp_initialized ready_worker fresh_worker))
   = ["execute_query"]) /\
  exists s',
    WorkerAgent1.process_query ready_worker sample_query fresh_worker =
      (Ok "Error processing query: Recursion limit of 25 reached", s') /\
    Base.react_calls s' = [sample_query].
Proof.
  assert (H1 : Base.ensure_mcp_initialized ready_worker fresh_worker
               = (Ok true, snd (Base.ensure_mcp_initialized ready_worker fresh_worker)))
    by (vm_compute; reflexivity).
  assert (H2 : Base._tools (snd (Base.ensure_mcp_initialized ready_worker fresh_worker))
               = ["execute_query"]) by (vm_compute; reflexivity).
  split; [now split|].
  exact (proj1 (worker_answers_from_loop ready_worker sample_query fresh_worker _
                  "execute_query" [] H1 H2)).
Defined.

(** ** The two entry points of the manager *)

Lemma same_but_reply_refl (n0 : nat) (self : Manager.LegalManagerAgent) :
  same_but_reply n0 self self.
Proof. now repeat split. Qed.

Lemma classify_then_alike_from {A} (self : Manager.LegalManagerAgent)
    (source type : string) (data : pyval) (query : pyval)
    (k : Manager.QueryComplexity -> M Manager.process A)
    (s1 s2 : Manager.process) :
  length (Manager.llm_calls s1) = length (Manager.llm_calls s2) ->
  length (Manager.http_calls s1) = length (Manager.http_calls s2) ->
  (forall c1 c2, related (length (Manager.llm_calls s1)) (k c1) (k c2)) ->
  fst ((Manager.log_event source type data ;;
        c <- Manager._classify_complexity self query ;; k c) s1)
  = fst ((Manager.log_event source type data ;;
          c <- Manager._classify_complexity self query ;; k c) s2).
Proof.
  intros Hl Hh Hk.
  unfold bind, Manager.log_event, modify.
  destruct (classify_leaves_agreement (length (Manager.llm_calls s1)) self self query
              (Manager.mkProcess (Manager.llm_calls s1) (Manager.http_calls s1)
                 (Manager.events s1 ++ [mkEvent source type data]) (Manager.logged s1))
              (Manager.mkProcess (Manager.llm_calls s2) (Manager.http_calls s2)
                 (Manager.events s2 ++ [mkEvent source type data]) (Manager.logged s2))
              eq_refl (eq_sym Hl) Hh)
    as (c1 & c2 & t1 & t2 & E1 & E2 & Hagree).
  rewrite E1, E2. apply (Hk c1 c2 t1 t2 Hagree).
Qed.

(** The answer of an analysis depends on the process only through the
    numbers of calls made so far, which select what the collaborators
    reply: the audit records are written and never read. *)
Lemma analysis_reads_no_record (self : Manager.LegalManagerAgent) (query : pyval)
    (s1 s2 : Manager.process) :
  length (Manager.llm_calls s1) = length (Manager.llm_calls s2) ->
  length (Manager.http_calls s1) = length (Manager.http_calls s2) ->
  fst (Manager.analyze_legal_query self query s1)
  = fst (Manager.analyze_legal_query self query s2).
Proof.
  intros Hl Hh.
  pose proof (same_but_reply_refl (length (Manager.llm_calls s1)) self) as alike.
  unfold Manager.analyze_legal_query, try_except.
  match goal with
  | |- fst (let '(r, s') := ?body s1 in _) = _ =>
      assert (Hbody : fst (body s1) = fst (body s2));
      [|destruct (body s1) as [r1 s1'], (body s2) as [r2 s2'];
        cbn [fst] in Hbody; subst r2; destruct r1; reflexivity]
  end.
  apply classify_then_alike_from; [exact Hl | exact Hh |].
  intros c1 c2.
  apply related_bind; [apply related_log_event|]. intros _.
  apply related_bind; [now apply related_plan|]. intros plan.
  apply related_bind; [apply related_log_event|]. intros _.
  apply related_bind; [now apply related_execute|]. intros results.
  apply related_bind; [apply related_log_event|]. intros _.
  apply related_bind; [now apply related_synthesize|]. intros final_answer.
  apply related_bind; [apply related_log_event|]. intros _.
  apply related_ret.
Qed.

Lemma message_with_text_is_truthy (repr : pyval -> string) (message txt : pyval) :
  message_text repr message = Ok txt -> truthy txt = true -> truthy message = true.
Proof.
  unfold message_text, py_get.
  destruct message as [| | | | |items|[|kv d]]; try discriminate; [|reflexivity].
  cbn. intros [= <-]. discriminate.
Qed.

Lemma manager_task_completes (self : Manager.LegalManagerAgent) (task : Task)
    (txt : pyval) (s : Manager.process) :
  message_text (Manager.repr self) (task_message task) = Ok txt ->
  truthy txt = true ->
  exists answer task' s1,
    Manager.handle_task self task s = (Ok task', s1) /\
    Manager.analyze_legal_query self txt s = (Ok answer, s1) /\
    task_status task' = mkTaskStatus COMPLETED None /\
    task_artifacts task' = text_artifacts (PyStr answer).
Proof.
  intros Hm Ht.
  pose proof (message_with_text_is_truthy _ _ _ Hm Ht) as Hmsg.
  unfold Manager.handle_task, try_except, bind, on_task, modify, gets, lift,
    in_process, ret.
  cbn [set_status task_message]. rewrite Hmsg, Hm, Ht. cbn [negb].
  destruct (analyze_never_raises self txt s) as (answer & s1 & Hrun).
  rewrite Hrun. exists answer. eexists _, s1. now repeat split.
Qed.

(** X12.  The task handler and the HTTP endpoint of the manager give the
    same answer to the same message from the same process: when the text
    of the message is not empty and its first hundred characters can be
    taken, the task is completed with the answer of the analysis as its
    artifact, and the endpoint replies completed with that same answer,
    though it has written a line to its log before. *)
Theorem entry_points_agree (self : Manager.LegalManagerAgent) (task : Task)
    (data : dict) (txt head : pyval) (s : Manager.process) :
  dict_get data "message" (PyDict []) = task_message task ->
  message_text (Manager.repr self) (task_message task) = Ok txt ->
  truthy txt = true ->
  py_slice_to 100 txt = Ok head ->
  exists answer task' s1 s2,
    Manager.handle_task self task s = (Ok task', s1) /\
    task_status task' = mkTaskStatus COMPLETED None /\
    task_artifacts task' = text_artifacts (PyStr answer) /\
    Manager.handle_task_endpoint self (Ok (PyDict data)) s =
      (Ok (response (dict_get data "id" (PyStr "")) "completed" (PyStr answer)), s2) /\
    fst (Manager.analyze_legal_query self txt s) = Ok answer.
Proof.
  intros Hd Hm Ht Hs.
  destruct (manager_task_completes self task txt s Hm Ht)
    as (answer & task' & s1 & Hrun & Han & Hst & Hart).
  exists answer, task', s1.
  unfold Manager.handle_task_endpoint, Manager.logger, try_except, bind, lift,
    modify, ret.
  unfold py_get at 1. rewrite Hd, Hm, Ht. cbn [negb]. rewrite Hs.
  match goal with
  | |- context [Manager.analyze_legal_query self txt ?t] =>
      pose proof (analysis_reads_no_record self txt t s eq_refl eq_refl) as Hsame;
      destruct (analyze_never_raises self txt t) as (answer' & s2 & Hrun');
      rewrite Hrun' in Hsame |- *
  end.
  rewrite Han in Hsame. cbn [fst] in Hsame. injection Hsame as ->.
  exists s2. cbn [py_get]. rewrite Han. now repeat split.
Qed.

(** The sample query through both entry points of the sample manager *)
Lemma entry_points_agree_sample :
  (dict_get sample_request "message" (PyDict []) = task_message sample_task /\
   message_text (Manager.repr sample_manager) (task_message sample_task) = Ok sample_query /\
   truthy sample_query = true /\
   py_slice_to 100 sample_query = Ok sample_query) /\
  exists answer task' s1 s2,
    Manager.handle_task sample_manager sample_task fresh = (Ok task', s1) /\
    task_status task' = mkTaskStatus COMPLETED None /\
    task_artifacts task' = text_artifacts (PyStr answer) /\
    Manager.handle_task_endpoint sample_manager (Ok (PyDict sample_request)) fresh =
      (Ok (response (PyStr "task-1") "completed" (PyStr answer)), s2) /\
    fst (Manager.analyze_legal_query sample_manager sample_query fresh) = Ok answer.
Proof.
  split; [now repeat split|].
  exact (entry_points_agree sample_manager sample_task sample_request sample_query
           sample_query fresh eq_refl eq_refl eq_refl eq_refl).
Defined.

(** X13.  The two entry points part ways on a text that is not empty
    and cannot be sliced, a number for one: the task handler runs the
    analysis and completes the task, while the endpoint fails on the
    line it writes to its log, before any analysis: it replies failed
    with the text of the exception, under an empty id, and has called
    neither the language model nor a worker. *)
Theorem endpoint_needs_sliceable_text (self : Manager.LegalManagerAgent) (task : Task)
    (data : dict) (txt : pyval) (e : exn) (s : Manager.process) :
  dict_get data "message" (PyDict []) = task_message task ->
  message_text (Manager.repr self) (task_message task) = Ok txt ->
  truthy txt = true ->
  py_slice_to 100 txt = Raise e ->
  (exists answer task' s1,
     Manager.handle_task self task s = (Ok task', s1) /\
     Manager.analyze_legal_query self txt s = (Ok answer, s1) /\
     task_status task' = mkTaskStatus COMPLETED None /\
     task_artifacts task' = text_artifacts (PyStr answer)) /\
  exists s2,
    Manager.handle_task_endpoint self (Ok (PyDict data)) s =
      (Ok (response (PyStr "") "failed" (PyStr ("Error: " +:+ exn_str e))), s2) /\
    Manager.llm_calls s2 = Manager.llm_calls s /\
    Manager.http_calls s2 = Manager.http_calls s /\
    Manager.events s2 = Manager.events s.
Proof.
  intros Hd Hm Ht Hs.
  split; [exact (manager_task_completes self task txt s Hm Ht)|].
  unfold Manager.handle_task_endpoint, Manager.logger, try_except, bind, lift,
    modify, ret.
  unfold py_get at 1. rewrite Hd, Hm, Ht. cbn [negb]. rewrite Hs.
  eexists. split; [reflexivity|]. now repeat split.
Qed.

(** A request whose text is the number 7 *)
Lemma endpoint_needs_sliceable_text_sample :
  (dict_get number_request "message" (PyDict []) = task_message number_task /\
   message_text (Manager.repr sample_manager) (task_message number_task) = Ok (PyInt 7) /\
   truthy (PyInt 7) = true /\
   py_slice_to 100 (PyInt 7) = Raise (not_subscriptable (PyInt 7))) /\
  (exists answer task' s1,
     Manager.handle_task sample_manager number_task fresh = (Ok task', s1) /\
     Manager.analyze_legal_query sample_manager (PyInt 7) fresh = (Ok answer, s1) /\
     task_status task' = mkTaskStatus COMPLETED None /\
     task_artifacts task' = text_artifacts (PyStr answer)) /\
  exists s2,
    Manager.handle_task_endpoint sample_manager (Ok (PyDict number_request)) fresh =
      (Ok (response (PyStr "") "failed"
             (PyStr "Error: 'int' object is not subscriptable")), s2) /\
    Manager.llm_calls s2 = [] /\
    Manager.http_calls s2 = [] /\
    Manager.events s2 = [].
Proof.
  split; [now repeat split|].
  exact (endpoint_needs_sliceable_text sample_manager number_task number_request
           (PyInt 7) _ fresh eq_refl eq_refl eq_refl eq_refl).
Defined.

(** ** The configuration *)

Lemma load_registry_cached (self : Config.Config) (s : Config.process)
    (registry : pyval) :
  Config._registry_cache s = Some registry ->
  Config._load_registry self s = (Ok registry, s).
Proof.
  intros Hc. unfold Config._load_registry, bind, gets, ret. now rewrite Hc.
Qed.

(** X14.  The registry file is read until it has been read once with
    success, and never again.  A look at the file that finds none, or
    finds an empty document, leaves the empty registry in the cache; a
    document that cannot be loaded leaves the cache empty and is looked
    at again by the next call.  Once a registry is in the cache every
    later call answers with it and does not look at the file, whatever
    the file holds by then: all the configuration objects, with whatever
    file, read the same registry from that process. *)
Theorem registry_is_read_once (self : Config.Config) (s : Config.process) :
  exists r s1,
    Config._load_registry self s = (r, s1) /\
    match r with
    | Ok registry =>
        Config._registry_cache s1 = Some registry /\
        (Config._registry_cache s = None ->
         Config.looks s1 = S (Config.looks s) /\
         (registry = PyDict [] \/ truthy registry = true) /\
         (Config.registry_file self (Config.looks s) = None -> registry = PyDict [])) /\
        (forall other : Config.Config,
           Config._load_registry other s1 = (Ok registry, s1) /\
           Config.get_agent_registry other s1
             = (py_get registry "agents" (PyDict []), s1) /\
           Config.get_tool_registry other s1
             = (py_get registry "tools" (PyDict []), s1))
    | Raise e =>
        Config._registry_cache s = None /\
        Config.registry_file self (Config.looks s) = Some (Raise e) /\
        Config._registry_cache s1 = None /\
        Config.looks s1 = S (Config.looks s)
    end.
Proof.
  assert (Hlater : forall registry s1,
            Config._registry_cache s1 = Some registry ->
            forall other : Config.Config,
              Config._load_registry other s1 = (Ok registry, s1) /\
              Config.get_agent_registry other s1
                = (py_get registry "agents" (PyDict []), s1) /\
              Config.get_tool_registry other s1
                = (py_get registry "tools" (PyDict []), s1)).
  { intros registry s1 Hc other.
    pose proof (load_registry_cached other s1 registry Hc) as Hl.
    unfold Config.get_agent_registry, Config.get_tool_registry, bind, lift.
    rewrite Hl. now repeat split. }
  unfold Config._load_registry at 1. unfold bind, gets, ret.
  destruct (Config._registry_cache s) as [registry|] eqn:Hc.
  - exists (Ok registry), s. split; [reflexivity|].
    split; [exact Hc|]. split; [discriminate|]. now apply Hlater.
  - destruct (Config.registry_file self (Config.looks s)) as [[loaded|e]|] eqn:Hf.
    + eexists _, _. split; [reflexivity|]. cbn [Config._registry_cache Config.looks].
      split; [reflexivity|]. split.
      * intros _. split; [reflexivity|]. split; [|discriminate].
        destruct (truthy loaded) eqn:T; [now right | now left].
      * now apply Hlater.
    + eexists _, _. split; [reflexivity|]. now repeat split.
    + eexists _, _. split; [reflexivity|]. cbn [Config._registry_cache Config.looks].
      split; [reflexivity|]. split; [now repeat split; left|]. now apply Hlater.
Qed.

Lemma url_is_not_empty (a b : string) : "http://" +:+ a <> "".
Proof. discriminate. Qed.

(** X15.  With the registry in the cache and its two sections mappings
    of mappings, the URL of a tool or an agent is empty exactly when the
    name is not registered.  A registered name gives the URL built from
    its host and port, where a missing host is localhost and a missing
    port is 8000 for an agent and 11000 for a tool; the URL of a tool
    ends with /mcp.  Neither lookup touches the file or the cache. *)
Theorem url_empty_iff_unregistered (self : Config.Config) (s : Config.process)
    (registry agents tools : dict) (name : string) :
  Config._registry_cache s = Some (PyDict registry) ->
  dict_get registry "agents" (PyDict []) = PyDict agents ->
  dict_get registry "tools" (PyDict []) = PyDict tools ->
  (forall k v, dict_lookup k agents = Some v -> is_dict v = true) ->
  (forall k v, dict_lookup k tools = Some v -> is_dict v = true) ->
  (exists url,
     Config.get_agent_url self name s = (Ok url, s) /\
     (url = "" <-> dict_lookup name agents = None) /\
     (forall agent, dict_lookup name agents = Some (PyDict agent) ->
        url = "http://"
              +:+ py_str (Config.repr self) (dict_get agent "host" (PyStr "localhost"))
              +:+ ":"
              +:+ py_str (Config.repr self) (dict_get agent "port" (PyInt 8000)))) /\
  (exists url,
     Config.get_tool_url self name s = (Ok url, s) /\
     (url = "" <-> dict_lookup name tools = None) /\
     (forall tool, dict_lookup name tools = Some (PyDict tool) ->
        url = "http://"
              +:+ py_str (Config.repr self) (dict_get tool "host" (PyStr "localhost"))
              +:+ ":"
              +:+ py_str (Config.repr self) (dict_get tool "port" (PyInt 11000))
              +:+ "/mcp")).
Proof.
  intros Hc Ha Ht Hagents Htools.
  pose proof (load_registry_cached self s _ Hc) as Hl.
  split.
  - unfold Config.get_agent_url, Config.get_agent_registry, bind, lift, ret.
    rewrite Hl. cbn [py_get]. rewrite Ha. cbn [py_contains py_getitem].
    destruct (dict_lookup name agents) as [agent|] eqn:E.
    + pose proof (Hagents name agent E) as Hd.
      destruct agent as [| | | | | |agent]; try discriminate Hd.
      cbn [py_get]. eexists. split; [reflexivity|]. split.
      * split; [intros H; now apply url_is_not_empty in H | discriminate].
      * now intros agent' [= <-].
    + exists "". split; [reflexivity|]. split; [tauto | discriminate].
  - unfold Config.get_tool_url, Config.get_tool_registry, bind, lift, ret.
    rewrite Hl. cbn [py_get]. rewrite Ht. cbn [py_contains py_getitem].
    destruct (dict_lookup name tools) as [tool|] eqn:E.
    + pose proof (Htools name tool E) as Hd.
      destruct tool as [| | | | | |tool]; try discriminate Hd.
      cbn [py_get]. eexists. split; [reflexivity|]. split.
      * split; [intros H; now apply url_is_not_empty in H | discriminate].
      * now intros tool' [= <-].
    + exists "". split; [reflexivity|]. split; [tauto | discriminate].
Qed.

(** The sample registry: tool 1 is registered. *)
Lemma url_of_registered_tool_sample :
  (Config._registry_cache loaded_config = Some (PyDict sample_registry) /\
   dict_get sample_registry "agents" (PyDict [])
     = PyDict [("worker_1", PyDict [("port", PyInt 8101)])] /\
   dict_get sample_registry "tools" (PyDict [])
     = PyDict [("tool_1", PyDict [("host", PyStr "localhost"); ("port", PyInt 11001)])]) /\
  exists url,
    Config.get_tool_url sample_config "tool_1" loaded_config = (Ok url, loaded_config) /\
    (url = "" <->
     dict_lookup "tool_1"
       [("tool_1", PyDict [("host", PyStr "localhost"); ("port", PyInt 11001)])] = None) /\
    (forall tool,
       dict_lookup "tool_1"
         [("tool_1", PyDict [("host", PyStr "localhost"); ("port", PyInt 11001)])]
       = Some (PyDict tool) ->
       url = "http://"
             +:+ py_str plain_repr (dict_get tool "host" (PyStr "localhost"))
             +:+ ":"
             +:+ py_str plain_repr (dict_get tool "port" (PyInt 11000))
             +:+ "/mcp").
Proof.
  split; [now repeat split|].
  refine (proj2 (url_empty_iff_unregistered sample_config loaded_config sample_registry
                   _ _ "tool_1" eq_refl eq_refl eq_refl _ _)).
  - intros k v. cbn [dict_lookup]. destruct (String.eqb "worker_1" k); [|discriminate].
    now intros [= <-].
  - intros k v. cbn [dict_lookup]. destruct (String.eqb "tool_1" k); [|discriminate].
    now intros [= <-].
Defined.

Lemma lstrip_nil (l : list ascii) :
  lstrip_chars l = [] <-> Forall (fun c => py_isspace c = true) l.
Proof.
  induction l as [|c l IH]; cbn [lstrip_chars].
  - split; [constructor | reflexivity].
  - destruct (py_isspace c) eqn:E.
    + rewrite IH. split; [now constructor | now inversion 1].
    + split; [discriminate | inversion 1; congruence].
Qed.

Lemma lstrip_all_space (l : list ascii) :
  Forall (fun c => py_isspace c = true) (lstrip_chars l) -> lstrip_chars l = [].
Proof.
  induction l as [|c l IH]; cbn [lstrip_chars]; [reflexivity|].
  destruct (py_isspace c) eqn:E; [exact IH|].
  inversion 1; congruence.
Qed.

Lemma strip_nil (l : list ascii) :
  strip_chars l = [] <-> Forall (fun c => py_isspace c = true) l.
Proof.
  unfold strip_chars. split.
  - intros H. apply (f_equal (@rev ascii)) in H. rewrite rev_involutive in H.
    cbn [rev] in H. apply lstrip_nil in H. apply Forall_rev in H.
    rewrite rev_involutive in H. apply lstrip_all_space in H. now apply lstrip_nil.
  - intros H. apply lstrip_nil in H. now rewrite H.
Qed.

Lemma text_nil (l : list ascii) : text l = "" <-> l = [].
Proof.
  split; [|now intros ->].
  intros H. rewrite <- (chars_text l), H. reflexivity.
Qed.

(** X16.  A custom endpoint is in use only when BASE_URL holds more than
    white space: the setting is None when the variable is unset, empty
    or blank, and otherwise the value of the variable without the white
    space around it, which is then not empty. *)
Theorem base_url_none_iff_blank (self : Config.Config) :
  (Config.base_url self = None <-> blank (Config.getenv self "BASE_URL" "")) /\
  (Config.environ self !! "BASE_URL" = None -> Config.base_url self = None) /\
  (forall url, Config.base_url self = Some url ->
     url <> "" /\ url = strip (Config.getenv self "BASE_URL" "")).
Proof.
  unfold Config.base_url, blank.
  assert (Hs : strip (Config.getenv self "BASE_URL" "") = "" <->
               Forall (fun c => py_isspace c = true)
                      (chars (Config.getenv self "BASE_URL" ""))).
  { unfold strip. rewrite text_nil. apply strip_nil. }
  split; [|split].
  - destruct (String.eqb (strip (Config.getenv self "BASE_URL" "")) "") eqn:E;
      cbn [negb].
    + apply String.eqb_eq in E. split; [intros _; now apply Hs | reflexivity].
    + apply String.eqb_neq in E. split; [discriminate | intros H; now apply Hs in H].
  - intros Hunset. unfold Config.getenv. now rewrite Hunset.
  - intros url.
    destruct (String.eqb (strip (Config.getenv self "BASE_URL" "")) "") eqn:E;
      cbn [negb]; [discriminate|].
    apply String.eqb_neq in E. now intros [= <-].
Qed.

(** ** The validation tool *)

Lemma check_rules_sorts (self : Tool2.Tool2) (record : pyval) (rules : list pyval) :
  forall violations passed violations' passed',
    Tool2.check_rules self record rules violations passed = Ok (violations', passed') ->
    exists verdicts,
      Forall2 (judged self record) rules verdicts /\
      violations' = violations ++ violated verdicts /\
      passed' = passed ++ kept verdicts.
Proof.
  induction rules as [|rule rules IH]; intros vs ps vs' ps'; cbn [Tool2.check_rules].
  - intros [= <- <-]. exists []. split; [constructor|]. unfold violated, kept. cbn.
    now rewrite !app_nil_r.
  - unfold and_then.
    destruct (py_getitem (Tool2.repr self) rule "condition") as [condition|] eqn:Ec;
      [|discriminate].
    destruct (Tool2.evaluate_condition self condition record) as [is_violated|] eqn:Ev;
      [|discriminate].
    destruct (py_getitem (Tool2.repr self) rule "id") as [id|] eqn:Ei; [|discriminate].
    destruct (py_getitem (Tool2.repr self) rule "name") as [name|] eqn:En; [|discriminate].
    destruct (py_getitem (Tool2.repr self) rule "severity") as [severity|] eqn:Es;
      [|discriminate].
    destruct (py_getitem (Tool2.repr self) rule "message") as [message|] eqn:Em;
      [|discriminate].
    destruct (truthy is_violated) eqn:Et; intros H;
      destruct (IH _ _ _ _ H) as (verdicts & Hj & Hv & Hp);
      exists ((truthy is_violated, rule_result id name severity message) :: verdicts);
      (split; [constructor; [|exact Hj];
               exists condition, is_violated, id, name, severity, message;
               now repeat split|]);
      unfold violated, kept in *; rewrite Et; cbn [List.filter fst negb map snd];
      rewrite Hv, Hp, <- ?app_assoc; now split.
Qed.

Lemma no_violation (verdicts : list (bool * pyval)) :
  (length (violated verdicts) =? 0)%nat = forallb (fun v => negb (fst v)) verdicts.
Proof.
  unfold violated. induction verdicts as [|[[] r] verdicts IH]; cbn; auto.
Qed.

Lemma sorted_lengths (verdicts : list (bool * pyval)) :
  length (violated verdicts) + length (kept verdicts) = length verdicts.
Proof.
  unfold violated, kept. induction verdicts as [|[[] r] verdicts IH]; cbn; lia.
Qed.

(** X17.  A validation never raises and always answers.  When it
    succeeds, every rule of the file has been judged, in the order of
    the file, and has its entry in exactly one of the two lists of the
    reply: under violations when its condition holds, under passed_rules
    otherwise; the record is valid exactly when no condition holds, and
    the counts add up to the number of rules.  The audit record gains a
    VALIDATION_CHECK and a VALIDATION_RESULT event.  When anything
    fails (no rules file, a rule without one of its five fields, a
    condition that cannot be evaluated) the reply reports the failure
    with the text of the exception and a VALIDATION_ERROR event is
    written, after the VALIDATION_CHECK event unless the record itself
    could not be read. *)
Theorem validate_record_sorts_rules (self : Tool2.Tool2) (record : pyval)
    (s : Tool2.process) :
  exists reply s',
    Tool2.validate_record self record s = (Ok reply, s') /\
    ((exists record_id rules verdicts,
        py_get record "contract_id" (PyStr "UNKNOWN") = Ok record_id /\
        and_then (Tool2.load_rules self) py_iter = Ok rules /\
        Forall2 (judged self record) rules verdicts /\
        dict_get (members_of reply) "success" PyNone = PyBool true /\
        dict_get (members_of reply) "violations" PyNone = PyList (violated verdicts) /\
        dict_get (members_of reply) "passed_rules" PyNone = PyList (kept verdicts) /\
        dict_get (members_of reply) "is_valid" PyNone
          = PyBool (forallb (fun v => negb (fst v)) verdicts) /\
        dict_get (members_of reply) "violation_count" PyNone
          = Tool2.count (violated verdicts) /\
        length (violated verdicts) + length (kept verdicts) = length rules /\
        Tool2.events s' =
          Tool2.events s ++
          [validation_check record_id;
           validation_result record_id (violated verdicts) (kept verdicts)]) \/
     (exists e,
        reply = failure e /\
        match py_get record "contract_id" (PyStr "UNKNOWN") with
        | Ok record_id =>
            Tool2.events s' =
              Tool2.events s ++ [validation_check record_id; validation_error e]
        | Raise _ => Tool2.events s' = Tool2.events s ++ [validation_error e]
        end)).
Proof.
  unfold Tool2.validate_record, try_except, bind, lift, Tool2.log_event, modify, ret.
  destruct (py_get record "contract_id" (PyStr "UNKNOWN")) as [record_id|e] eqn:Er.
  - destruct (and_then (Tool2.load_rules self) py_iter) as [rules|e] eqn:El.
    + destruct (Tool2.check_rules self record rules [] []) as [[violations passed]|e]
        eqn:Ec.
      * destruct (check_rules_sorts self record rules _ _ _ _ Ec)
          as (verdicts & Hj & Hv & Hp).
        cbn [app] in Hv, Hp. subst violations passed.
        eexists _, _. split; [reflexivity|]. left.
        exists record_id, rules, verdicts.
        split; [reflexivity|]. split; [reflexivity|]. split; [exact Hj|].
        split; [reflexivity|]. split; [reflexivity|]. split; [reflexivity|].
        split; [cbn; now rewrite no_violation|]. split; [reflexivity|].
        split.
        -- rewrite sorted_lengths. symmetry. eapply Forall2_length. exact Hj.
        -- cbn [Tool2.events]. now rewrite <- app_assoc.
      * eexists _, _. split; [reflexivity|]. right. exists e.
        split; [reflexivity|]. cbn [Tool2.events]. now rewrite <- app_assoc.
    + eexists _, _. split; [reflexivity|]. right. exists e.
      split; [reflexivity|]. cbn [Tool2.events]. now rewrite <- app_assoc.
  - eexists _, _. split; [reflexivity|]. right. exists e. now split.
Qed.

Lemma find_rule_first (self : Tool2.Tool2) (rule_id : string) (pre rest : list pyval) :
  Forall (other_rule self rule_id) pre ->
  Tool2.find_rule self (pre ++ rest) rule_id = Tool2.find_rule self rest rule_id.
Proof.
  induction 1 as [|r pre (id & Hid & Hne) _ IH]; [reflexivity|].
  cbn [app Tool2.find_rule]. rewrite Hid. cbn [and_then].
  destruct id as [| | | |s| |]; try exact IH.
  destruct (String.eqb s rule_id) eqn:E; [|exact IH].
  apply String.eqb_eq in E. congruence.
Qed.

Lemma rule_with_id_is_truthy (repr : pyval -> string) (r id : pyval) :
  py_getitem repr r "id" = Ok id -> truthy r = true.
Proof.
  destruct r as [| | | | | |[|kv d]]; try discriminate; reflexivity.
Qed.

(** X18.  A single rule is looked up by its id from the top of the
    file, and the first rule with that id is the one evaluated: the rules
    after it are never looked at, so that a second rule of the same id
    is out of reach and a malformed entry further down does no harm.  The
    reply carries the verdict and the rule itself, or the text of the
    exception when the rule has no condition or the condition cannot be
    evaluated; when no rule has the id, the reply says that the rule was
    not found.  No exception gets out. *)
Theorem evaluate_rule_first_match (self : Tool2.Tool2) (rule_id : string)
    (record : pyval) (pre rest : list pyval) :
  and_then (Tool2.load_rules self) py_iter = Ok (pre ++ rest) ->
  Forall (other_rule self rule_id) pre ->
  match rest with
  | [] => True
  | first :: _ => py_getitem (Tool2.repr self) first "id" = Ok (PyStr rule_id)
  end ->
  Tool2.evaluate_rule self rule_id record =
  match rest with
  | [] =>
      PyDict [("success", PyBool false);
              ("error", PyStr ("Rule " +:+ rule_id +:+ " not found"))]
  | first :: _ =>
      match and_then (py_getitem (Tool2.repr self) first "condition")
              (fun condition => Tool2.evaluate_condition self condition record) with
      | Ok is_violated =>
          PyDict [("success", PyBool true); ("rule_id", PyStr rule_id);
                  ("is_violated", is_violated); ("rule_details", first)]
      | Raise e => failure e
      end
  end.
Proof.
  intros Hl Hpre Hfirst. unfold Tool2.evaluate_rule. rewrite Hl.
  cbn [and_then]. rewrite (find_rule_first self rule_id pre rest Hpre).
  destruct rest as [|first post].
  - reflexivity.
  - cbn [Tool2.find_rule]. rewrite Hfirst. cbn [and_then].
    rewrite String.eqb_refl. cbn [and_then].
    rewrite (rule_with_id_is_truthy _ _ _ Hfirst). cbn [negb].
    destruct (py_getitem (Tool2.repr self) first "condition") as [condition|e];
      [|reflexivity].
    cbn [and_then].
    destruct (Tool2.evaluate_condition self condition record); reflexivity.
Qed.

(** The sample file uses the id R2 twice and ends with an entry that is
    no rule: the first R2 is evaluated. *)
Lemma evaluate_rule_first_match_sample :
  (and_then (Tool2.load_rules sample_tool) py_iter
   = Ok ([rule "R1" "liability_cap > 100"]
         ++ [rule "R2" "termination_notice_days < 30"; rule "R2" "auto_renewal"; PyInt 3]) /\
   Forall (other_rule sample_tool "R2") [rule "R1" "liability_cap > 100"]) /\
  Tool2.evaluate_rule sample_tool "R2" (PyDict []) =
    PyDict [("success", PyBool true); ("rule_id", PyStr "R2");
            ("is_violated", PyBool true);
            ("rule_details", rule "R2" "termination_notice_days < 30")].
Proof.
  assert (H : Forall (other_rule sample_tool "R2") [rule "R1" "liability_cap > 100"]).
  { repeat constructor. exists (PyStr "R1"). split; [reflexivity | discriminate]. }
  split; [split; [reflexivity | exact H]|].
  exact (evaluate_rule_first_match sample_tool "R2" (PyDict [])
           [rule "R1" "liability_cap > 100"]
           [rule "R2" "termination_notice_days < 30"; rule "R2" "auto_renewal"; PyInt 3]
           eq_refl H eq_refl).
Defined.

(** ** The manager and a worker together *)

(** X19.  What a worker's endpoint replies always reaches the synthesis
    as a result.  When the round trip of a worker call is answered by
    the task endpoint of an agent of this framework, the manager records
    a success whatever the state of the reply, and the synthesizer
    invokes the language model on a prompt that holds the text of the
    reply as the result of agent 1: the answer of the worker, its
    request for input, or the text of its error. *)
Theorem worker_reply_reaches_synthesis (self : Manager.LegalManagerAgent)
    (process_query : Base.BaseAgent -> pyval -> M Base.process string)
    (worker : Base.BaseAgent) (ws : Base.process) (query reply : pyval)
    (agent_url : string) (s : Manager.process) :
  fst (Base.handle_task_endpoint process_query worker
         (Ok (Manager.task_payload query)) ws) = Ok reply ->
  Manager.worker_reply self (length (Manager.http_calls s)) (agent_url +:+ "/task")
    (Manager.task_payload query) 60 = Ok (Manager.mkResponse 200 (Ok reply)) ->
  exists id state_name txt s1 s2,
    reply = response id state_name (PyStr txt) /\
    Manager._call_worker self agent_url query 60 s
      = (Ok (Manager.call_succeeded reply agent_url), s1) /\
    Manager._synthesize_results self query [Manager.call_succeeded reply agent_url] s1
      = (Ok match Manager.llm_reply self (length (Manager.llm_calls s)) 2000
                   (Manager.synthesis_prompt (py_str (Manager.repr self) query)
                      ["Agent 1 Result:" +:+ nl +:+ txt]) with
            | Ok content => strip content
            | Raise e => "Synthesis error: " +:+ exn_str e
            end, s2).
Proof.
  intros Hworker Hreply.
  destruct (base_endpoint_run process_query worker (Ok (Manager.task_payload query)) ws)
    as (reply' & ws' & Hrun & Hshape & _).
  rewrite Hrun in Hworker. cbn [fst] in Hworker. injection Hworker as ->.
  assert (Hform : exists id state_name txt, reply = response id state_name (PyStr txt)).
  { destruct Hshape; eauto. }
  destruct Hform as (id & state_name & txt & ->).
  exists id, state_name, txt.
  assert (Hcall : exists s1,
            Manager._call_worker self agent_url query 60 s
            = (Ok (Manager.call_succeeded (response id state_name (PyStr txt)) agent_url), s1)
            /\ Manager.llm_calls s1 = Manager.llm_calls s).
  { unfold Manager._call_worker, try_except, bind, Manager.post, lift, ret.
    rewrite Hreply. cbn [Manager.status Manager.json]. cbn. now eexists. }
  destruct Hcall as (s1 & Hcall & Hllm). exists s1.
  eexists. split; [reflexivity|]. split; [exact Hcall|].
  unfold Manager._synthesize_results, try_except, bind, lift, Manager.ainvoke,
    Manager._create_llm, ret.
  change [Manager.call_succeeded (response id state_name (PyStr txt)) agent_url]
    with (map entry_for [Reply id state_name (PyStr txt) agent_url]).
  rewrite (collect_texts_labelled self [Reply id state_name (PyStr txt) agent_url] 0 []).
  cbn [app labelled py_str Manager.max_tokens]. rewrite Hllm.
  destruct (Manager.llm_reply self _ 2000 _); reflexivity.
Qed.

(** The first sample worker cannot reach its tool backend; the manager
    takes its reply for a result. *)
Lemma worker_reply_reaches_synthesis_sample :
  (fst (Base.handle_task_endpoint WorkerAgent1.process_query sample_worker
          (Ok (Manager.task_payload sample_query)) fresh_worker) = Ok degraded_reply /\
   Manager.worker_reply wired_manager (length (Manager.http_calls fresh))
     ("http://localhost:8101" +:+ "/task") (Manager.task_payload sample_query) 60
   = Ok (Manager.mkResponse 200 (Ok degraded_reply))) /\
  exists id state_name txt s1 s2,
    degraded_reply = response id state_name (PyStr txt) /\
    Manager._call_worker wired_manager "http://localhost:8101" sample_query 60 fresh
      = (Ok (Manager.call_succeeded degraded_reply "http://localhost:8101"), s1) /\
    Manager._synthesize_results wired_manager sample_query
      [Manager.call_succeeded degraded_reply "http://localhost:8101"] s1
      = (Ok match Manager.llm_reply wired_manager (length (Manager.llm_calls fresh)) 2000
                   (Manager.synthesis_prompt
                      (py_str (Manager.repr wired_manager) sample_query)
                      ["Agent 1 Result:" +:+ nl +:+ txt]) with
            | Ok content => strip content
            | Raise e => "Synthesis error: " +:+ exn_str e
            end, s2).
Proof.
  assert (H1 : fst (Base.handle_task_endpoint WorkerAgent1.process_query sample_worker
                      (Ok (Manager.task_payload sample_query)) fresh_worker)
               = Ok degraded_reply) by (vm_compute; reflexivity).
  split; [split; [exact H1 | reflexivity]|].
  exact (worker_reply_reaches_synthesis wired_manager WorkerAgent1.process_query
           sample_worker fresh_worker sample_query degraded_reply
           "http://localhost:8101" fresh H1 eq_refl).
Defined.

(** ** A plan that names no known worker *)

Lemma execute_nobody (self : Manager.LegalManagerAgent) (query : pyval)
    (plan : dict) (names : list string) (s : Manager.process) :
  dict_get plan "agents" (PyList []) = PyList (map PyStr names) ->
  resolved self names = [] ->
  exists s',
    Manager._execute_plan self query (PyDict plan) s = (Ok [], s') /\
    Manager.llm_calls s' = Manager.llm_calls s /\
    Manager.http_calls s' = Manager.http_calls s /\
    Manager.events s' = Manager.events s.
Proof.
  intros Hagents Hnone.
  destruct (dispatch_entries self query plan names s Hagents)
    as (results & s' & Hrun & Hall & Hlen).
  rewrite Hnone in Hall. apply Forall2_nil_inv_l in Hall. subst results.
  pose proof (execute_keeps Manager.llm_calls self query (PyDict plan)
                (fun _ _ => eq_refl) s) as Hllm.
  pose proof (execute_keeps Manager.events self query (PyDict plan)
                (fun _ _ => eq_refl) s) as Hev.
  assert (Hhttp : Manager.http_calls s' = Manager.http_calls s).
  { destruct (truthy (dict_get plan "parallel" (PyBool false))) eqn:Hpar.
    - destruct (gather_calls_once self query (resolved self names) s)
        as (rs & t & done & Hg & Hd & Hp).
      assert (Hrun' : Manager._execute_plan self query (PyDict plan) s
                      = (Ok (map Manager.exception_entry rs), t)).
      { unfold Manager._execute_plan, py_get. rewrite Hagents.
        unfold bind at 1, lift. unfold bind at 1. rewrite Hpar.
        unfold bind at 1, lift, py_iter. unfold bind at 1.
        rewrite resolve_all_names. unfold bind, ret. now rewrite Hg. }
      rewrite Hrun in Hrun'. injection Hrun' as _ <-.
      rewrite Hnone in Hp. cbn [map] in Hp. apply Permutation_nil_r in Hp. subst done.
      now rewrite app_nil_r in Hd.
    - destruct (call_in_turn_serial self query names [] s)
        as (rs & t & Hc & Hcalls & _).
      assert (Hrun' : Manager._execute_plan self query (PyDict plan) s = (Ok rs, t)).
      { unfold Manager._execute_plan, py_get. rewrite Hagents.
        unfold bind at 1, lift. unfold bind at 1. rewrite Hpar.
        unfold bind at 1, lift, py_iter. exact Hc. }
      rewrite Hrun in Hrun'. injection Hrun' as _ <-.
      rewrite Hnone in Hcalls. cbn [map] in Hcalls. now rewrite app_nil_r in Hcalls. }
  rewrite Hrun in Hllm, Hev. cbn [snd] in Hllm, Hev.
  exists s'. now repeat split.
Qed.

(** X20.  A plan that names no known worker is run without complaint
    and without effect: when the planner's reply decodes to a plan whose
    agents are names and none of them is known, the analysis calls no
    worker, does not ask the language model for a synthesis, writes its
    five events as for any other query, and answers with the fixed text
    for no results. *)
Theorem unknown_agents_give_fixed_text (self : Manager.LegalManagerAgent)
    (query : pyval) (content group : string) (plan : dict) (names : list string)
    (s : Manager.process) :
  Manager.llm_reply self (S (length (Manager.llm_calls s))) 500
    (Manager.plan_prompt (py_str (Manager.repr self) query)) = Ok content ->
  search_braces (strip content) = Some group ->
  json_loads group = Ok (PyDict plan) ->
  dict_get plan "agents" (PyList []) = PyList (map PyStr names) ->
  resolved self names = [] ->
  exists c s',
    Manager.analyze_legal_query self query s = (Ok Manager.no_results, s') /\
    Manager.http_calls s' = Manager.http_calls s /\
    Manager.llm_calls s' =
      Manager.llm_calls s ++
      [(100%Z, Manager.classify_prompt (py_str (Manager.repr self) query));
       (500%Z, Manager.plan_prompt (py_str (Manager.repr self) query))] /\
    Manager.events s' =
      Manager.events s ++
      [query_received query; complexity_classified c; plan_created (PyDict plan);
       execution_complete []; synthesis_complete Manager.no_results].
Proof.
  intros Hreply Hspan Hloads Hagents Hnone.
  unfold Manager.analyze_legal_query, try_except, bind, Manager.log_event, modify, ret.
  match goal with
  | |- context [Manager._classify_complexity self query ?st] =>
      destruct (classify_frame self query st) as (c & s1 & Hc & L1 & H1 & E1);
      rewrite Hc
  end.
  cbn [Manager.llm_calls Manager.events Manager.http_calls Manager.logged] in *.
  match goal with
  | |- context [Manager._plan_execution self query ?st] =>
      pose proof (plan_execution_run self query st) as Hplan;
      destruct (plan_frame self query st) as (plan' & s2 & Hp & L2 & H2 & E2);
      rewrite Hp in Hplan |- *
  end.
  cbn [fst Manager.llm_calls Manager.events Manager.http_calls Manager.logged] in *.
  rewrite L1, length_app, Nat.add_comm in Hplan. cbn [length Nat.add] in Hplan.
  rewrite Hreply, Hspan, Hloads in Hplan. injection Hplan as ->.
  match goal with
  | |- context [Manager._execute_plan self query (PyDict plan) ?st] =>
      destruct (execute_nobody self query plan names st Hagents Hnone)
        as (s3 & He & L3 & H3 & E3);
      rewrite He
  end.
  cbn [Manager.llm_calls Manager.events Manager.http_calls Manager.logged] in *.
  unfold Manager._synthesize_results, try_except, bind, lift, ret.
  cbn [Manager.collect_texts].
  exists c. eexists. split; [reflexivity|].
  cbn [Manager.llm_calls Manager.events Manager.http_calls Manager.logged].
  split; [now rewrite H3, H2, H1|].
  split; [rewrite L3, L2, L1; now rewrite <- app_assoc|].
  rewrite E3, E2, E1. now repeat rewrite <- app_assoc.
Qed.

(** The planner names a contract agent, which no manager knows. *)
Lemma unknown_agents_sample :
  (Manager.llm_reply misled_manager (S (length (Manager.llm_calls fresh))) 500
     (Manager.plan_prompt (py_str (Manager.repr misled_manager) sample_query))
   = Ok stranger_reply /\
   search_braces (strip stranger_reply) = Some stranger_reply /\
   json_loads stranger_reply
   = Ok (PyDict [("agents", PyList (map PyStr ["contract_agent"]));
                 ("parallel", PyBool true)]) /\
   resolved misled_manager ["contract_agent"] = []) /\
  exists c s',
    Manager.analyze_legal_query misled_manager sample_query fresh
      = (Ok Manager.no_results, s') /\
    Manager.http_calls s' = [] /\
    Manager.llm_calls s' =
      [(100%Z, Manager.classify_prompt (py_str (Manager.repr misled_manager) sample_query));
       (500%Z, Manager.plan_prompt (py_str (Manager.repr misled_manager) sample_query))] /\
    Manager.events s' =
      [query_received sample_query; complexity_classified c;
       plan_created (PyDict [("agents", PyList (map PyStr ["contract_agent"]));
                             ("parallel", PyBool true)]);
       execution_complete []; synthesis_complete Manager.no_results].
Proof.
  assert (H2 : search_braces (strip stranger_reply) = Some stranger_reply)
    by (vm_compute; reflexivity).
  assert (H3 : json_loads stranger_reply
               = Ok (PyDict [("agents", PyList (map PyStr ["contract_agent"]));
                             ("parallel", PyBool true)]))
    by (vm_compute; reflexivity).
  assert (H5 : resolved misled_manager ["contract_agent"] = [])
    by (vm_compute; reflexivity).
  split; [now repeat split|].
  exact (unknown_agents_give_fixed_text misled_manager sample_query stranger_reply
           stranger_reply _ ["contract_agent"] fresh eq_refl H2 H3 eq_refl H5).
Defined.
